(** * ath3k: the AR3011/AR3012 firmware loader

    A shallow embedding of [src/usr.bin/ath3k/ath3k_hw.c] and of the two
    orchestrators of [src/usr.bin/ath3k/main.c], and the properties of the
    firmware-delivery protocol that hold of them.

    The C functions talk to a USB device through libusb and to the file
    system through [ath3k_fw_read].  Both are modelled by a trace of
    events in a small state-and-fault monad: every transfer and every
    file operation appends one event, and what the device answers is a
    function of the trace so far.  Diagnostics printed to stderr are not
    part of the model. *)

From Stdlib Require Import ZArith List String Ascii Bool Lia DecimalString.
From Stdlib Require Import DecimalPos.
From Stdlib.Strings Require Import Byte.
Import ListNotations.
Open Scope Z_scope.

(** ** Machine integers and buffers *)

(** A C [int]: 32 bits, two's complement, arithmetic wraps. *)
Definition INT_MAX : Z := 2147483647.

Definition int32 (z : Z) : Z := (z + 2 ^ 31) mod 2 ^ 32 - 2 ^ 31.

(** Conversion to [unsigned int]. *)
Definition uint32 (z : Z) : Z := z mod 2 ^ 32.

(** [#define XMIN(x, y) ((x) < (y) ? (x) : (y))] *)
Definition XMIN (x y : Z) : Z := if x <? y then x else y.

Definition byte_val (b : byte) : Z := Z.of_N (Byte.to_N b).

(** [buf + off], read for [n] bytes.  Reading outside the buffer is
    undefined in C; the model reports it. *)
Definition buf_slice (buf : list byte) (off n : Z) : option (list byte) :=
  if (0 <=? off) && (0 <=? n) && (off + n <=? Z.of_nat (List.length buf))
  then Some (firstn (Z.to_nat n) (skipn (Z.to_nat off) buf))
  else None.

(** What a buffer holds after a device-to-host transfer that reported
    [ret] bytes: the bytes received, then the old content. *)
Definition usb_fill (old : list byte) (ret : Z) (data : list byte) : list byte :=
  let got := firstn (Z.to_nat ret) data in
  firstn (List.length old) (got ++ skipn (List.length got) old).

Fixpoint le_bytes (bs : list byte) : Z :=
  match bs with
  | [] => 0
  | b :: bs' => byte_val b + 256 * le_bytes bs'
  end.

(** The four bytes at [off], as the host reads an [unsigned int] there. *)
Definition u32_at (big_endian : bool) (buf : list byte) (off : nat) : Z :=
  let bs := map (fun i => nth (off + i) buf x00) (seq 0 4) in
  le_bytes (if big_endian then rev bs else bs).

(** ** Formatting *)

Definition hex_digit (d : Z) : ascii :=
  ascii_of_nat (Z.to_nat (if d <? 10 then 48 + d else 87 + d)).

(** [%08x] of an [unsigned int]. *)
Definition hex08 (z : Z) : string :=
  string_of_list_ascii
    (map (fun sh => hex_digit (Z.land (Z.shiftr z sh) 15))
         [28; 24; 20; 16; 12; 8; 4; 0]).

(** [%d] of an [int]. *)
Definition dec (z : Z) : string := NilZero.string_of_int (Z.to_int z).

(** [snprintf(buf, size, ...)]: the formatted text, cut to [size - 1]
    characters. *)
Definition snprintf (size : Z) (text : string) : string :=
  substring 0 (Z.to_nat (size - 1)) text.

(** [s] ends with [suffix]. *)
Fixpoint ends_with (suffix s : string) : bool :=
  String.eqb suffix s ||
  match s with
  | EmptyString => false
  | String _ s' => ends_with suffix s'
  end.

(** ** Data model *)

(** [struct ath3k_firmware], as [ath3k_load_fwfile] uses it. *)
Record ath3k_firmware : Type := mk_firmware {
  fwname : string;
  len : Z;
  buf : list byte
}.

(** A blob as the loader leaves it: [len] counts the bytes of [buf] and
    is an [int]. *)
Definition fw_wf (fw : ath3k_firmware) : Prop :=
  len fw = Z.of_nat (List.length (buf fw)) /\ len fw <= INT_MAX.

(** Modelled from the spec: [struct ath3k_version] is declared in
    ath3k_hw.h, which is not among the sources.  The spec gives it four
    32-bit unsigned fields, read from the device as one 16-byte record. *)
Record ath3k_version : Type := mk_version {
  rom_version : Z;
  build_version : Z;
  ram_version : Z;
  ref_clock : Z
}.

Definition sizeof_ath3k_version : Z := 16.

Definition version_of_bytes (big_endian : bool) (b : list byte) : ath3k_version :=
  {| rom_version := u32_at big_endian b 0;
     build_version := u32_at big_endian b 4;
     ram_version := u32_at big_endian b 8;
     ref_clock := u32_at big_endian b 12 |}.

(** ** Events, traces and the monad *)

Inductive event : Type :=
| UsbControl (bmRequestType bRequest wValue wIndex : Z)
             (data : list byte) (wLength : Z)
| UsbBulk (endpoint : Z) (data : list byte) (length : Z)
| FwRead (name : string)
| FwFree (name : string).

Definition trace : Type := list event.

Inductive fault : Type :=
| OutOfFuel      (* the loop did not finish *)
| OutOfBounds.   (* a read outside a buffer *)

(** What a run yields: a result, or a fault; in both cases with the
    trace up to that point. *)
Inductive outcome (A : Type) : Type :=
| Returns (a : A) (tr : trace)
| Faults (f : fault) (tr : trace).
Arguments Returns {A} a tr.
Arguments Faults {A} f tr.

Definition trace_of {A : Type} (o : outcome A) : trace :=
  match o with
  | Returns _ tr => tr
  | Faults _ tr => tr
  end.

Definition M (A : Type) : Type := trace -> outcome A.

Definition ret {A : Type} (a : A) : M A := fun tr => Returns a tr.

Definition bind {A B : Type} (m : M A) (k : A -> M B) : M B :=
  fun tr =>
    match m tr with
    | Returns a tr' => k a tr'
    | Faults f tr' => Faults f tr'
    end.

Definition raise {A : Type} (f : fault) : M A := fun tr => Faults f tr.

Definition emit (e : event) : M unit := fun tr => Returns tt (tr ++ [e]).

Definition history : M trace := fun tr => Returns tr tr.

(** A computation only ever adds to the trace. *)
Definition grows {A : Type} (m : M A) : Prop :=
  forall tr : trace, exists evs : list event, trace_of (m tr) = tr ++ evs.

Definition read_buf (b : list byte) (off n : Z) : M (list byte) :=
  match buf_slice b off n with
  | Some bs => ret bs
  | None => raise OutOfBounds
  end.

Declare Scope ath3k_scope.
Delimit Scope ath3k_scope with ath3k.
Notation "x <- m ;; k" := (bind m (fun x => k))
  (at level 61, m at next level, right associativity) : ath3k_scope.
Notation "' p <- m ;; k" := (bind m (fun x => let p := x in k))
  (at level 61, p pattern, m at next level, right associativity) : ath3k_scope.
Notation "m ;;; k" := (bind m (fun _ => k))
  (at level 61, right associativity) : ath3k_scope.
Open Scope ath3k_scope.

(** libusb's request-type bits (libusb.h). *)
Definition LIBUSB_REQUEST_TYPE_VENDOR : Z := 64.
Definition LIBUSB_ENDPOINT_IN : Z := 128.
Definition LIBUSB_ENDPOINT_OUT : Z := 0.

(** [errno.h] *)
Definition EBUSY : Z := 16.

(** ** What the sources leave open

    The functions below are written against an environment that
    supplies what is not in the two source files: the constants of
    ath3k_hw.h, two facts about the platform, the device at the other
    end of libusb, the blob loader, and the content of the stack. *)
Class environment : Type := {
  (** The constants of ath3k_hw.h, which is not among the sources. *)
  FW_HDR_SIZE : Z;
  BULK_SIZE : Z;
  ATH3K_DNLOAD : Z;
  ATH3K_GETSTATE : Z;
  ATH3K_GETVERSION : Z;
  ATH3K_SET_NORMAL_MODE : Z;
  USB_REG_SWITCH_VID_PID : Z;
  ATH3K_MODE_MASK : Z;
  ATH3K_NORMAL_MODE : Z;
  ATH3K_PATCH_UPDATE : Z;
  ATH3K_XTAL_FREQ_26M : Z;
  ATH3K_XTAL_FREQ_40M : Z;
  ATH3K_XTAL_FREQ_19P2 : Z;
  (** [FILENAME_MAX] of stdio.h and the byte order of the host. *)
  FILENAME_MAX : Z;
  host_big_endian : bool;
  (** The device.  Its answer to a transfer depends on everything that
      happened before; the trace given here ends with the transfer being
      answered.  A control transfer returns libusb's result (a byte count
      or a negative error) and the bytes the device sent; a bulk transfer
      returns libusb's result and the count stored in [*transferred]. *)
  usb_control_reply : trace -> Z * list byte;
  usb_bulk_reply : trace -> Z * Z;
  (** [ath3k_fw_read] (ath3k_fw.c, not among the sources): its result and
      what it stores in the firmware structure. *)
  ath3k_fw_read : string -> Z * ath3k_firmware;
  (** Locals that the callers never initialise: whatever the stack holds
      when the function is entered. *)
  uninit_state : trace -> byte;
  uninit_version : trace -> nat -> byte
}.

(** ** A concrete environment

    Modelled from the spec: ath3k_hw.h is not among the sources.  The
    spec gives 20 for [HDR_SIZE], 4096 for [BULK_SIZE], a device whose
    state byte 0x80 has the patch flag set, and the clock codes
    0x00 (19.2 MHz), 0x01 (26 MHz) and 0x02 (40 MHz); the request codes,
    the mode mask and the normal mode, for which it gives no number, are
    set to the values of the vendor protocol.  The theorems below hold in
    every environment; this is the one the examples run in. *)
Module Sample.

(** A blob of [n] bytes [b] followed by the bytes [tail]. *)
Definition blob (name : string) (n : nat) (b : byte) (tail : list byte)
    : ath3k_firmware :=
  {| fwname := name;
     len := Z.of_nat (n + List.length tail);
     buf := repeat b n ++ tail |}.

(** A device that reports the state byte [state] and the version record
    [version], accepts every other transfer in full, and fails with
    LIBUSB_ERROR_NO_DEVICE the control requests that [gone] selects. *)
Definition device_control (state : byte) (version : list byte)
    (gone : Z -> bool) (tr : trace) : Z * list byte :=
  match last tr (FwRead "") with
  | UsbControl ty req _ _ _ wLength =>
      if gone req then (-4, [])
      else if ty =? 192
           then if wLength =? 1 then (1, [state]) else (wLength, version)
           else (wLength, [])
  | _ => (0, [])
  end.

Definition device_bulk (tr : trace) : Z * Z :=
  match last tr (FwRead "") with
  | UsbBulk _ _ n => (0, n)
  | _ => (0, 0)
  end.

Definition never (_ : Z) : bool := false.
Definition always (_ : Z) : bool := true.
Definition only (req : Z) (r : Z) : bool := r =? req.

(** The version record (rom 0x300, build 5, ram 0) with clock code
    [clock], and a patch trailer (rom 0x300) with build [build]. *)
Definition version_record (clock : byte) : list byte :=
  [x00; x03; x00; x00; x05; x00; x00; x00;
   x00; x00; x00; x00; clock; x00; x00; x00].

Definition trailer (build : byte) : list byte :=
  [x00; x03; x00; x00; build; x00; x00; x00].

(** A firmware directory in which every name holds the blob [fw], and
    one that is empty. *)
Definition one_file (fw : ath3k_firmware) (name : string)
    : Z * ath3k_firmware :=
  (1, {| fwname := name; len := len fw; buf := buf fw |}).

Definition no_file (name : string) : Z * ath3k_firmware :=
  (0, {| fwname := name; len := 0; buf := [] |}).

Fixpoint long_path (n : nat) : string :=
  match n with
  | O => EmptyString
  | S n' => String "a" (long_path n')
  end.

Definition env (state : byte) (version : list byte) (gone : Z -> bool)
    (files : string -> Z * ath3k_firmware) : environment :=
  {| FW_HDR_SIZE := 20;
     BULK_SIZE := 4096;
     ATH3K_DNLOAD := 1;
     ATH3K_GETSTATE := 5;
     ATH3K_GETVERSION := 9;
     ATH3K_SET_NORMAL_MODE := 7;
     USB_REG_SWITCH_VID_PID := 10;
     ATH3K_MODE_MASK := 63;
     ATH3K_NORMAL_MODE := 14;
     ATH3K_PATCH_UPDATE := 128;
     ATH3K_XTAL_FREQ_26M := 1;
     ATH3K_XTAL_FREQ_40M := 2;
     ATH3K_XTAL_FREQ_19P2 := 0;
     FILENAME_MAX := 1024;
     host_big_endian := false;
     usb_control_reply := device_control state version gone;
     usb_bulk_reply := device_bulk;
     ath3k_fw_read := files;
     uninit_state := fun _ => x00;
     uninit_version := fun _ _ => x00 |}.

(** The blobs and devices of the examples. *)
Definition fw_legacy : ath3k_firmware := blob "/fw/ath3k-1.fw" 5000 x01 [].

(** A patch of 100 bytes for rom 0x300, build 10. *)
Definition patch_new : ath3k_firmware := blob "" 92 x01 (trailer x0a).

(** A device in boot state, clock code 1. *)
Definition booting : environment :=
  env x00 (version_record x01) never (one_file patch_new).

(** A device that already holds the patch. *)
Definition patched : environment :=
  env x80 (version_record x01) never (one_file fw_legacy).

(** A device that holds the patch, runs in normal mode, reports the
    clock code 7 and leaves the bus on SWITCH_VID_PID. *)
Definition leaving : environment :=
  env x8e (version_record x07) (only 10) (one_file patch_new).

(** A device that has left the bus: every control transfer fails. *)
Definition unplugged : environment :=
  env x00 (version_record x01) always (one_file patch_new).

(** A device with the clock code 7 and no firmware files. *)
Definition unknown_clock : environment :=
  env x00 (version_record x07) never no_file.

(** A patch file of 4 bytes, and a device in boot state beside it. *)
Definition patch_short : ath3k_firmware := blob "" 4 x01 [].

Definition short_patch : environment :=
  env x00 (version_record x01) never (one_file patch_short).

(** A device in boot state and one that holds the patch, each without
    any firmware file. *)
Definition booting_no_files : environment :=
  env x00 (version_record x01) never no_file.

Definition patched_no_files : environment :=
  env x80 (version_record x01) never no_file.

End Sample.

(** ** C strings and the libc functions of main.c

    A [string] stands for the characters that a [char *] points to; the
    terminating NUL is found where the string ends or where it holds a
    NUL character. *)

Definition NUL : ascii := Ascii.zero.

Definition char_code (c : ascii) : Z := Z.of_nat (nat_of_ascii c).

(** [*s] and [s + 1]. *)
Definition c_peek (s : string) : ascii :=
  match s with
  | String c _ => c
  | EmptyString => NUL
  end.

Definition c_advance (s : string) : string :=
  match s with
  | String _ s' => s'
  | EmptyString => EmptyString
  end.

Fixpoint c_skip (n : nat) (s : string) : string :=
  match n with
  | O => s
  | S n' => c_skip n' (c_advance s)
  end.

(** [isspace] in the C locale: space and the controls 9 to 13. *)
Definition isspace (c : ascii) : bool :=
  (char_code c =? 32) || ((9 <=? char_code c) && (char_code c <=? 13)).

Definition digit_of (c : ascii) : option Z :=
  if (48 <=? char_code c) && (char_code c <=? 57)
  then Some (char_code c - 48)
  else None.

Fixpoint skip_space (s : string) : string :=
  match s with
  | String c s' => if isspace c then skip_space s' else s
  | EmptyString => s
  end.

(** [strncmp]: the difference of the first two characters that differ
    among the first [n], 0 when there is none before the end. *)
Fixpoint strncmp (s1 s2 : string) (n : nat) : Z :=
  match n with
  | O => 0
  | S n' =>
      if negb (Ascii.eqb (c_peek s1) (c_peek s2))
      then char_code (c_peek s1) - char_code (c_peek s2)
      else if Ascii.eqb (c_peek s1) NUL then 0
      else strncmp (c_advance s1) (c_advance s2) n'
  end.

Fixpoint strcmp (s1 s2 : string) : Z :=
  if negb (Ascii.eqb (c_peek s1) (c_peek s2))
  then char_code (c_peek s1) - char_code (c_peek s2)
  else
    match s1 with
    | EmptyString => 0
    | String c s1' => if Ascii.eqb c NUL then 0 else strcmp s1' (c_advance s2)
    end.

(** The digit loop of [strtoul] in base 10, with its overflow test:
    [any] is 0 before the first digit, 1 after it and -1 after an
    overflow; the result is [any], the value and the text that is left. *)
Fixpoint strtoul_digits (ulong_max : Z) (s : string) (any acc : Z)
    : Z * Z * string :=
  match s with
  | String c s' =>
      match digit_of c with
      | Some d =>
          if (any <? 0) || (acc >? ulong_max / 10)
             || ((acc =? ulong_max / 10) && (d >? ulong_max mod 10))
          then strtoul_digits ulong_max s' (-1) acc
          else strtoul_digits ulong_max s' 1 (acc * 10 + d)
      | None => (any, acc, s)
      end
  | EmptyString => (any, acc, s)
  end.

(** [strtoul(nptr, &ep, 10)]: white space, an optional sign, digits.
    The result is the value and [ep]; without a digit the value is 0 and
    [ep] is [nptr], after an overflow the value is [ULONG_MAX], and a
    minus sign negates the value as an [unsigned long]. *)
Definition strtoul10 (ulong_max : Z) (nptr : string) : Z * string :=
  let s := skip_space nptr in
  let neg := Ascii.eqb (c_peek s) "-" in
  let s := if neg || Ascii.eqb (c_peek s) "+" then c_advance s else s in
  let '(any, acc, rest) := strtoul_digits ulong_max s 0 0 in
  if any <? 0 then (ulong_max, rest)
  else if any =? 0 then (0, nptr)
  else if neg then ((ulong_max + 1 - acc) mod (ulong_max + 1), rest)
  else (acc, rest).

(** Conversions to [uint8_t] and [uint16_t]. *)
Definition uint8 (z : Z) : Z := z mod 2 ^ 8.
Definition uint16 (z : Z) : Z := z mod 2 ^ 16.

(** ** The process around the protocol

    What [main] and [ath3k_find_device] see of a device on the bus, the
    calls to libusb that are not transfers, and the log of a run of the
    process: those calls and the events of the protocol, in order. *)

Record usb_device : Type := mk_usb_device {
  bus_number : Z;
  device_address : Z
}.

(** A [libusb_device *] is named by its place in the list that
    [libusb_get_device_list] returned. *)
Inductive sys_event : Type :=
| LibusbInit
| LibusbSetDebug (level : Z)
| LibusbGetDeviceList
| LibusbRefDevice (dev : nat)
| LibusbFreeDeviceList (unref_devices : Z)
| LibusbOpen (dev : nat)
| LibusbClose
| LibusbUnrefDevice (dev : nat)
| LibusbExit.

Inductive main_event : Type :=
| Sys (e : sys_event)
| Usb (e : event).

(** A run of the process is still going, with a value at hand, or has
    ended in [exit(status)], or has hit a fault of the protocol code. *)
Inductive process (A : Type) : Type :=
| Running (a : A) (log : list main_event) (tr : trace)
| Exited (status : Z) (log : list main_event)
| Crashed (f : fault) (log : list main_event).
Arguments Running {A} a log tr.
Arguments Exited {A} status log.
Arguments Crashed {A} f log.

Definition P (A : Type) : Type := list main_event -> trace -> process A.

Definition pret {A : Type} (a : A) : P A := fun log tr => Running a log tr.

Definition pbind {A B : Type} (m : P A) (k : A -> P B) : P B :=
  fun log tr =>
    match m log tr with
    | Running a log' tr' => k a log' tr'
    | Exited status log' => Exited status log'
    | Crashed f log' => Crashed f log'
    end.

Definition sys (e : sys_event) : P unit :=
  fun log tr => Running tt (log ++ [Sys e]) tr.

Definition exit {A : Type} (status : Z) : P A :=
  fun log _ => Exited status log.

Definition crash {A : Type} (f : fault) : P A :=
  fun log _ => Crashed f log.

(** A function of the protocol, run inside the process: what it adds
    to the trace is added to the log. *)
Definition core {A : Type} (m : M A) : P A :=
  fun log tr =>
    match m tr with
    | Returns a tr' =>
        Running a (log ++ map Usb (skipn (List.length tr) tr')) tr'
    | Faults f tr' =>
        Crashed f (log ++ map Usb (skipn (List.length tr) tr'))
    end.

Definition log_of {A : Type} (p : process A) : list main_event :=
  match p with
  | Running _ log _ => log
  | Exited _ log => log
  | Crashed _ log => log
  end.

(** The status with which the process ends: the argument of [exit], or
    the value with which [main] returns. *)
Definition status_of (p : process Z) : option Z :=
  match p with
  | Running a _ _ => Some a
  | Exited status _ => Some status
  | Crashed _ _ => None
  end.

Definition is_sys (e : main_event) : bool :=
  match e with
  | Sys _ => true
  | Usb _ => false
  end.

Definition is_fw_read (e : event) : bool :=
  match e with
  | FwRead _ => true
  | _ => false
  end.

Definition is_fw_free (e : event) : bool :=
  match e with
  | FwFree _ => true
  | _ => false
  end.

Notation "x <~ m ;; k" := (pbind m (fun x => k))
  (at level 61, m at next level, right associativity) : ath3k_scope.
Notation "' p <~ m ;; k" := (pbind m (fun x => let p := x in k))
  (at level 61, p pattern, m at next level, right associativity) : ath3k_scope.
Notation "m ;;~ k" := (pbind m (fun _ => k))
  (at level 61, right associativity) : ath3k_scope.

(** The [for] loop of [ath3k_find_device], at index [i] with [todo]
    rounds to go: the place of the first device at the given bus and
    address.  Reading past the end of the list is a fault ([None]). *)
Fixpoint find_device_loop (list : list usb_device) (bus_id dev_id : Z)
    (todo : nat) (i : nat) : option (option nat) :=
  match todo with
  | O => Some None
  | S todo' =>
      match nth_error list i with
      | None => None
      | Some dev =>
          if (bus_id =? bus_number dev) && (dev_id =? device_address dev)
          then Some (Some i)
          else find_device_loop list bus_id dev_id todo' (S i)
      end
  end.

(** The value of a hexadecimal digit as [hex_digit] writes it, and of a
    list of such digits, most significant first. *)
Definition hex_val (c : ascii) : Z :=
  if char_code c <? 58 then char_code c - 48 else char_code c - 87.

Definition hex_value (cs : list ascii) : Z :=
  fold_left (fun acc c => 16 * acc + hex_val c) cs 0.

(** The value of a decimal numeral of the standard library after the
    digits that made up [acc]. *)
Fixpoint uint_value (d : Decimal.uint) (acc : Z) : Z :=
  match d with
  | Decimal.Nil => acc
  | Decimal.D0 l => uint_value l (acc * 10 + 0)
  | Decimal.D1 l => uint_value l (acc * 10 + 1)
  | Decimal.D2 l => uint_value l (acc * 10 + 2)
  | Decimal.D3 l => uint_value l (acc * 10 + 3)
  | Decimal.D4 l => uint_value l (acc * 10 + 4)
  | Decimal.D5 l => uint_value l (acc * 10 + 5)
  | Decimal.D6 l => uint_value l (acc * 10 + 6)
  | Decimal.D7 l => uint_value l (acc * 10 + 7)
  | Decimal.D8 l => uint_value l (acc * 10 + 8)
  | Decimal.D9 l => uint_value l (acc * 10 + 9)
  end.

(** The device is at the bus and address asked for. *)
Definition device_matches (bus_id dev_id : Z) (dev : usb_device) : bool :=
  (bus_id =? bus_number dev) && (dev_id =? device_address dev).

(** The options [-p] and [-v]. *)
Definition is_id_option (opt : Z * string) : bool :=
  (fst opt =? char_code "p") || (fst opt =? char_code "v").

(** The options that [main] knows and that take an argument. *)
Definition is_known_option (opt : Z * string) : bool :=
  (fst opt =? char_code "d") || (fst opt =? char_code "f")
  || (fst opt =? char_code "m") || (fst opt =? char_code "p")
  || (fst opt =? char_code "v").

(** The variables that the option loop of [main] sets. *)
Record options : Type := mk_options {
  bus_id : Z;
  dev_id : Z;
  firmware_path : option string;
  is_3012 : bool;
  dev_device_id : Z;
  dev_vendor_id : Z
}.

Definition _DEFAULT_ATH3K_FIRMWARE_PATH : string :=
  "/usr/share/firmware/ath3k/".

(** What the process gets from the host: the width of [unsigned long],
    the results of [libusb_init], [libusb_get_device_list] (the count and
    the list) and [libusb_open], and [strtol(s, NULL, 0)], whose value
    [main] stores and never reads. *)
Class host : Type := {
  ULONG_MAX : Z;
  libusb_init_result : Z;
  libusb_device_list : Z * list usb_device;
  libusb_open_result : nat -> Z;
  strtol0 : string -> Z
}.

(** Hosts for the examples: 64-bit [unsigned long], libusb starts, the
    bus holds the devices [devs], and every device opens. *)
Module SampleHost.

Definition with_devices (devs : list usb_device) : host :=
  {| ULONG_MAX := 18446744073709551615;
     libusb_init_result := 0;
     libusb_device_list := (Z.of_nat (List.length devs), devs);
     libusb_open_result := fun _ => 0;
     strtol0 := fun _ => 0 |}.

(** A hub at ugen0.1, the radio at ugen0.2, a disk at ugen1.1. *)
Definition bus : list usb_device :=
  [ {| bus_number := 0; device_address := 1 |};
    {| bus_number := 0; device_address := 2 |};
    {| bus_number := 1; device_address := 1 |} ].

Definition pc : host := with_devices bus.

(** A host on which libusb does not start, one on which it cannot list
    the devices, and one on which no device can be opened. *)
Definition no_libusb : host :=
  {| ULONG_MAX := 18446744073709551615;
     libusb_init_result := -99;
     libusb_device_list := (0, []);
     libusb_open_result := fun _ => 0;
     strtol0 := fun _ => 0 |}.

Definition unlisted : host :=
  {| ULONG_MAX := 18446744073709551615;
     libusb_init_result := 0;
     libusb_device_list := (-99, []);
     libusb_open_result := fun _ => 0;
     strtol0 := fun _ => 0 |}.

Definition locked : host :=
  {| ULONG_MAX := 18446744073709551615;
     libusb_init_result := 0;
     libusb_device_list := (3, bus);
     libusb_open_result := fun _ => -3;
     strtol0 := fun _ => 0 |}.

(** What [getopt] returns for [-d ugen0.2 -f /fw], with [-m ar3012]
    and without it, and for a device that is not there. *)
Definition legacy_line : list (Z * string) :=
  [(100, "ugen0.2"%string); (102, "/fw"%string)].

Definition ar3012_line : list (Z * string) :=
  [(100, "ugen0.2"%string); (102, "/fw"%string); (109, "ar3012"%string)].

Definition absent_line : list (Z * string) :=
  [(100, "ugen0.9"%string); (102, "/fw"%string)].

Definition legacy_options : options :=
  {| bus_id := 0; dev_id := 2; firmware_path := Some "/fw"%string;
     is_3012 := false; dev_device_id := 0; dev_vendor_id := 0 |}.

Definition absent_options : options :=
  {| bus_id := 0; dev_id := 9; firmware_path := Some "/fw"%string;
     is_3012 := false; dev_device_id := 0; dev_vendor_id := 0 |}.

(** The log of a run up to the open of the radio, the second device of
    the list. *)
Definition log_found : list main_event :=
  [Sys LibusbInit; Sys (LibusbSetDebug 3); Sys LibusbGetDeviceList;
   Sys (LibusbRefDevice 1); Sys (LibusbFreeDeviceList 1)].

End SampleHost.

Section Ath3k.

Context {env : environment}.

(** *** libusb and the blob loader *)

Definition libusb_control_transfer
    (bmRequestType bRequest wValue wIndex : Z) (data : list byte)
    (wLength : Z) : M (Z * list byte) :=
  emit (UsbControl bmRequestType bRequest wValue wIndex data wLength) ;;;
  tr <- history ;;
  ret (usb_control_reply tr).

Definition libusb_bulk_transfer (endpoint : Z) (data : list byte)
    (length : Z) : M (Z * Z) :=
  emit (UsbBulk endpoint data length) ;;;
  tr <- history ;;
  ret (usb_bulk_reply tr).

Definition fw_read (name : string) : M (Z * ath3k_firmware) :=
  emit (FwRead name) ;;;
  ret (ath3k_fw_read name).

Definition ath3k_fw_free (fw : ath3k_firmware) : M unit :=
  emit (FwFree (fwname fw)).

(** *** ath3k_hw.c *)

(** The [while (count)] loop of [ath3k_load_fwfile]. *)
Fixpoint ath3k_load_fwfile_loop (fuel : nat) (fw : ath3k_firmware)
    (count sent : Z) : M Z :=
  match fuel with
  | O => raise OutOfFuel
  | S fuel' =>
      if count =? 0 then ret 0
      else
        let size := XMIN count BULK_SIZE in
        chunk <- read_buf (buf fw) sent size ;;
        '(r_ret, r) <- libusb_bulk_transfer 2 chunk size ;;
        if (r_ret <? 0) || negb (r =? size) then ret (-1)
        else ath3k_load_fwfile_loop fuel' fw
               (int32 (count - size)) (int32 (sent + size))
  end.

(** [ath3k_load_fwfile].  The loop consumes at least one byte per round
    when [BULK_SIZE] is positive, so [len fw] rounds and the final test
    are enough fuel; [load_fwfile_run] below shows that it never runs
    out. *)
Definition ath3k_load_fwfile (fw : ath3k_firmware) : M Z :=
  let count := len fw in
  let size := XMIN count FW_HDR_SIZE in
  hdr <- read_buf (buf fw) 0 size ;;
  '(r_ret, _) <- libusb_control_transfer
       (Z.lor LIBUSB_REQUEST_TYPE_VENDOR LIBUSB_ENDPOINT_OUT)
       ATH3K_DNLOAD 0 0 hdr size ;;
  if negb (r_ret =? size) then ret (-1)
  else ath3k_load_fwfile_loop (S (Z.to_nat count)) fw
         (int32 (count - size)) (int32 (0 + size)).

Definition ath3k_get_state (state : byte) : M (Z * byte) :=
  '(r_ret, data) <- libusb_control_transfer
       (Z.lor LIBUSB_REQUEST_TYPE_VENDOR LIBUSB_ENDPOINT_IN)
       ATH3K_GETSTATE 0 0 [] 1 ;;
  let state' := nth 0 (usb_fill [state] r_ret data) state in
  if r_ret <? 0 then ret (0, state')
  else ret (Z.b2z (r_ret =? 1), state').

Definition ath3k_get_version (version : list byte) : M (Z * ath3k_version) :=
  '(r_ret, data) <- libusb_control_transfer
       (Z.lor LIBUSB_REQUEST_TYPE_VENDOR LIBUSB_ENDPOINT_IN)
       ATH3K_GETVERSION 0 0 [] sizeof_ath3k_version ;;
  let version' :=
    version_of_bytes host_big_endian (usb_fill version r_ret data) in
  if r_ret <? 0 then ret (0, version')
  else ret (Z.b2z (r_ret =? sizeof_ath3k_version), version').

(** The locals [fw_state] and [fw_ver] on entry to a function. *)
Definition local_state (tr : trace) : byte := uninit_state tr.

Definition local_version (tr : trace) : list byte :=
  map (uninit_version tr) (seq 0 (Z.to_nat sizeof_ath3k_version)).

(** Lines 205-206: the ROM and build version at the end of the patch,
    each read as an [int] and stored in an [unsigned int].  The other two
    fields of [pt_ver] are never written nor read; they are 0 here. *)
Definition ath3k_patch_version (fw : ath3k_firmware) : M ath3k_version :=
  rom <- read_buf (buf fw) (len fw - 8) 4 ;;
  build <- read_buf (buf fw) (len fw - 4) 4 ;;
  ret {| rom_version := uint32 (int32 (u32_at host_big_endian rom 0));
         build_version := uint32 (int32 (u32_at host_big_endian build 0));
         ram_version := 0;
         ref_clock := 0 |}.

(** Lines 215-216: the test that rejects a patch. *)
Definition patch_mismatch (pt_ver fw_ver : ath3k_version) : bool :=
  negb (rom_version pt_ver =? rom_version fw_ver)
  || (build_version pt_ver <=? build_version fw_ver).

Definition patch_filename (fw_path : string) (fw_ver : ath3k_version) : string :=
  snprintf FILENAME_MAX
    (fw_path ++ "/ar3k/AthrBT_0x" ++ hex08 (rom_version fw_ver) ++ ".dfu").

Definition ath3k_load_patch (fw_path : string) : M Z :=
  entry <- history ;;
  '(r, fw_state) <- ath3k_get_state (local_state entry) ;;
  if r <? 0 then ret r
  else if negb (Z.land (byte_val fw_state) ATH3K_PATCH_UPDATE =? 0) then ret 0
  else
    '(r, fw_ver) <- ath3k_get_version (local_version entry) ;;
    if r <? 0 then ret r
    else
      '(r, fw) <- fw_read (patch_filename fw_path fw_ver) ;;
      if r <=? 0 then ret (-1)
      else
        pt_ver <- ath3k_patch_version fw ;;
        if patch_mismatch pt_ver fw_ver
        then ath3k_fw_free fw ;;; ret (-1)
        else
          r <- ath3k_load_fwfile fw ;;
          ath3k_fw_free fw ;;;
          ret r.

(** The [switch (fw_ver.ref_clock)] of [ath3k_load_syscfg]. *)
Definition clk_value (ref : Z) : Z :=
  if ref =? ATH3K_XTAL_FREQ_26M then 26
  else if ref =? ATH3K_XTAL_FREQ_40M then 40
  else if ref =? ATH3K_XTAL_FREQ_19P2 then 19
  else 0.

Definition syscfg_filename (fw_path : string) (fw_ver : ath3k_version) : string :=
  snprintf FILENAME_MAX
    (fw_path ++ "/ar3k/ramps_0x" ++ hex08 (rom_version fw_ver) ++ "_"
       ++ dec (clk_value (ref_clock fw_ver)) ++ ".dfu").

Definition ath3k_load_syscfg (fw_path : string) : M Z :=
  entry <- history ;;
  '(r, fw_state) <- ath3k_get_state (local_state entry) ;;
  if r <? 0 then ret (- EBUSY)
  else
    '(r, fw_ver) <- ath3k_get_version (local_version entry) ;;
    if r <? 0 then ret r
    else
      '(r, fw) <- fw_read (syscfg_filename fw_path fw_ver) ;;
      if r <=? 0 then ret (-1)
      else
        r <- ath3k_load_fwfile fw ;;
        ath3k_fw_free fw ;;;
        ret r.

Definition ath3k_set_normal_mode : M Z :=
  entry <- history ;;
  '(r, fw_state) <- ath3k_get_state (local_state entry) ;;
  if r <? 0 then ret r
  else if Z.land (byte_val fw_state) ATH3K_MODE_MASK =? ATH3K_NORMAL_MODE
  then ret 0
  else
    '(r_ret, _) <- libusb_control_transfer LIBUSB_REQUEST_TYPE_VENDOR
         ATH3K_SET_NORMAL_MODE 0 0 [] 0 ;;
    if r_ret <? 0 then ret 0
    else ret (Z.b2z (r_ret =? 0)).

Definition ath3k_switch_pid : M Z :=
  '(r_ret, _) <- libusb_control_transfer LIBUSB_REQUEST_TYPE_VENDOR
       USB_REG_SWITCH_VID_PID 0 0 [] 0 ;;
  if r_ret <? 0 then ret 0
  else ret (Z.b2z (r_ret =? 0)).

(** *** main.c *)

Definition ath3k_init_ar3012 (fw_path : string) : M Z :=
  r <- ath3k_load_patch fw_path ;;
  if r <? 0 then ret r
  else
    r <- ath3k_load_syscfg fw_path ;;
    if r <? 0 then ret r
    else
      r <- ath3k_set_normal_mode ;;
      if r <? 0 then ret r
      else ath3k_switch_pid ;;; ret 0.

Definition ath3k_init_firmware (file_prefix : string) : M Z :=
  '(r, fw) <- fw_read (snprintf FILENAME_MAX (file_prefix ++ "/ath3k-1.fw")) ;;
  if r <=? 0 then ret (-1)
  else
    r <- ath3k_load_fwfile fw ;;
    ath3k_fw_free fw ;;;
    ret 0.


(** *** The requests, as they appear in a trace *)

Definition DNLOAD_request (hdr : list byte) : event :=
  UsbControl (Z.lor LIBUSB_REQUEST_TYPE_VENDOR LIBUSB_ENDPOINT_OUT)
             ATH3K_DNLOAD 0 0 hdr (Z.of_nat (List.length hdr)).

Definition BULK_request (chunk : list byte) : event :=
  UsbBulk 2 chunk (Z.of_nat (List.length chunk)).

Definition GETSTATE_request : event :=
  UsbControl (Z.lor LIBUSB_REQUEST_TYPE_VENDOR LIBUSB_ENDPOINT_IN)
             ATH3K_GETSTATE 0 0 [] 1.

Definition GETVERSION_request : event :=
  UsbControl (Z.lor LIBUSB_REQUEST_TYPE_VENDOR LIBUSB_ENDPOINT_IN)
             ATH3K_GETVERSION 0 0 [] sizeof_ath3k_version.

Definition SET_NORMAL_MODE_request : event :=
  UsbControl LIBUSB_REQUEST_TYPE_VENDOR ATH3K_SET_NORMAL_MODE 0 0 [] 0.

Definition SWITCH_VID_PID_request : event :=
  UsbControl LIBUSB_REQUEST_TYPE_VENDOR USB_REG_SWITCH_VID_PID 0 0 [] 0.

(** A vendor control-OUT transfer with request [ATH3K_DNLOAD]. *)
Definition is_dnload (e : event) : bool :=
  match e with
  | UsbControl ty req _ _ _ _ =>
      (ty =? Z.lor LIBUSB_REQUEST_TYPE_VENDOR LIBUSB_ENDPOINT_OUT)
      && (req =? ATH3K_DNLOAD)
  | _ => false
  end.

Definition is_control (e : event) : bool :=
  match e with
  | UsbControl _ _ _ _ _ _ => true
  | _ => false
  end.

(** The size of the header transfer and the number of bulk transfers
    that the spec gives for a blob of [n] bytes:
    [min(n, HDR_SIZE)] and [ceil((n - header) / BULK_SIZE)]. *)
Definition header_size (n : Z) : Z := Z.min n FW_HDR_SIZE.

Definition bulk_count (n : Z) : Z :=
  (n - header_size n + BULK_SIZE - 1) / BULK_SIZE.

(** The device accepts every transfer of an upload in full. *)
Definition device_accepts_upload : Prop :=
  (forall (tr : trace) (hdr : list byte),
      fst (usb_control_reply (tr ++ [DNLOAD_request hdr]))
      = Z.of_nat (List.length hdr))
  /\ (forall (tr : trace) (chunk : list byte),
         0 <= fst (usb_bulk_reply (tr ++ [BULK_request chunk]))
         /\ snd (usb_bulk_reply (tr ++ [BULK_request chunk]))
            = Z.of_nat (List.length chunk)).

(** An upload transfer that the device accepted in full: the trace ends
    with the transfer, and the reply to it has the length asked for. *)
Definition transfer_accepted (tr : trace) : bool :=
  match last tr (FwRead "") with
  | UsbControl _ _ _ _ _ n => fst (usb_control_reply tr) =? n
  | UsbBulk _ _ n =>
      (0 <=? fst (usb_bulk_reply tr)) && (snd (usb_bulk_reply tr) =? n)
  | _ => true
  end.

(** Every file that [ath3k_fw_read] delivers is a blob as the loader
    leaves it, of at least [n] bytes. *)
Definition files_ok (n : Z) : Prop :=
  forall (name : string) (r : Z) (fw : ath3k_firmware),
    ath3k_fw_read name = (r, fw) -> 0 < r -> fw_wf fw /\ n <= len fw.

(** *** main.c *)

Context {sys_host : host}.

Definition strtoul (nptr : string) : Z * string := strtoul10 ULONG_MAX nptr.

(** [parse_ugen_name], on the values that [*bus] and [*addr] hold
    before the call; the result and the values they hold after it. *)
Definition parse_ugen_name (ugen : string) (bus addr : Z) : Z * Z * Z :=
  if negb (strncmp ugen "ugen" 4 =? 0) then (-1, bus, addr)
  else
    let '(v, ep) := strtoul (c_skip 4 ugen) in
    let bus := uint8 v in
    if negb (Ascii.eqb (c_peek ep) ".") then (-1, bus, addr)
    else
      let '(v, ep) := strtoul (c_advance ep) in
      let addr := uint8 v in
      if negb (Ascii.eqb (c_peek ep) NUL) then (-1, bus, addr)
      else (0, bus, addr).

Definition ath3k_find_device (bus_id dev_id : Z) : P (option nat) :=
  sys LibusbGetDeviceList ;;~
  let '(cnt, list) := libusb_device_list in
  if cnt <? 0 then pret None
  else
    match find_device_loop list bus_id dev_id (Z.to_nat cnt) 0 with
    | None => crash OutOfBounds
    | Some found =>
        match found with
        | Some i => sys (LibusbRefDevice i)
        | None => pret tt
        end ;;~
        sys (LibusbFreeDeviceList 1) ;;~
        pret found
    end.

(** [usage()] prints and calls [exit(127)]. *)
Definition usage {A : Type} : P A := exit 127.

(** The [while ((n = getopt(...)) != -1)] loop of [main], on the list of
    what [getopt] returns before -1: the option character and
    [optarg]. *)
Fixpoint getopt_loop (opts : list (Z * string)) (o : options) : P options :=
  match opts with
  | [] => pret o
  | (n, optarg) :: rest =>
      if n =? char_code "d" then
        let '(r, bus, addr) := parse_ugen_name optarg (bus_id o) (dev_id o) in
        if r <? 0 then usage
        else getopt_loop rest
               {| bus_id := bus; dev_id := addr;
                  firmware_path := firmware_path o; is_3012 := is_3012 o;
                  dev_device_id := dev_device_id o;
                  dev_vendor_id := dev_vendor_id o |}
      else if n =? char_code "f" then
        getopt_loop rest
          {| bus_id := bus_id o; dev_id := dev_id o;
             firmware_path := Some optarg; is_3012 := is_3012 o;
             dev_device_id := dev_device_id o;
             dev_vendor_id := dev_vendor_id o |}
      else if n =? char_code "m" then
        getopt_loop rest
          {| bus_id := bus_id o; dev_id := dev_id o;
             firmware_path := firmware_path o;
             is_3012 := if strcmp optarg "ar3012" =? 0 then true
                        else is_3012 o;
             dev_device_id := dev_device_id o;
             dev_vendor_id := dev_vendor_id o |}
      else if n =? char_code "p" then
        getopt_loop rest
          {| bus_id := bus_id o; dev_id := dev_id o;
             firmware_path := firmware_path o; is_3012 := is_3012 o;
             dev_device_id := uint16 (strtol0 optarg);
             dev_vendor_id := dev_vendor_id o |}
      else if n =? char_code "v" then
        getopt_loop rest
          {| bus_id := bus_id o; dev_id := dev_id o;
             firmware_path := firmware_path o; is_3012 := is_3012 o;
             dev_device_id := dev_device_id o;
             dev_vendor_id := uint16 (strtol0 optarg) |}
      else usage
  end.

Definition initial_options : options :=
  {| bus_id := 0; dev_id := 0; firmware_path := None; is_3012 := false;
     dev_device_id := 0; dev_vendor_id := 0 |}.

(** [main], on the list of what [getopt] returns for the command line.
    It has no [return]: it ends with status 0 when it reaches its
    closing brace. *)
Definition main (opts : list (Z * string)) : P Z :=
  sys LibusbInit ;;~
  if negb (libusb_init_result =? 0) then exit 127
  else
    sys (LibusbSetDebug 3) ;;~
    o <~ getopt_loop opts initial_options ;;
    found <~ ath3k_find_device (bus_id o) (dev_id o) ;;
    match found with
    | None => exit 1
    | Some dev =>
        sys (LibusbOpen dev) ;;~
        if negb (libusb_open_result dev =? 0) then exit 1
        else
          entry <~ (fun log tr => Running tr log tr) ;;
          '(r, state) <~ core (ath3k_get_state (local_state entry)) ;;
          if r =? 0 then exit 1
          else
            '(r, ver) <~ core (ath3k_get_version (local_version entry)) ;;
            if r =? 0 then exit 1
            else
              let path :=
                match firmware_path o with
                | None => _DEFAULT_ATH3K_FIRMWARE_PATH
                | Some p => p
                end in
              (if is_3012 o
               then core (ath3k_init_ar3012 path)
               else core (ath3k_init_firmware path)) ;;~
              sys LibusbClose ;;~
              sys (LibusbUnrefDevice dev) ;;~
              sys LibusbExit ;;~
              pret 0
    end.

(** The process from its start: an empty log and an empty trace. *)
Definition run_main (opts : list (Z * string)) : process Z :=
  main opts [] [].

(** *** Arithmetic and buffers *)

Lemma int32_small (z : Z) : - 2 ^ 31 <= z < 2 ^ 31 -> int32 z = z.
Proof.
  intros H. unfold int32.
  rewrite Z.mod_small by lia. lia.
Qed.

Lemma uint32_int32 (z : Z) : 0 <= z < 2 ^ 32 -> uint32 (int32 z) = z.
Proof.
  intros H. unfold uint32, int32.
  rewrite Zminus_mod_idemp_l.
  replace (z + 2 ^ 31 - 2 ^ 31) with z by lia.
  apply Z.mod_small; lia.
Qed.

Lemma XMIN_min (x y : Z) : XMIN x y = Z.min x y.
Proof.
  unfold XMIN. destruct (Z.ltb_spec x y); lia.
Qed.

Lemma byte_val_range (b : byte) : 0 <= byte_val b < 256.
Proof.
  unfold byte_val. pose proof (Byte.to_N_bounded b). lia.
Qed.

Lemma u32_at_range (be : bool) (b : list byte) (off : nat) :
  0 <= u32_at be b off < 2 ^ 32.
Proof.
  unfold u32_at. cbn [seq map].
  assert (H : forall b0 b1 b2 b3 : byte,
             0 <= le_bytes [b0; b1; b2; b3] < 2 ^ 32).
  { intros b0 b1 b2 b3. cbn [le_bytes].
    pose proof (byte_val_range b0). pose proof (byte_val_range b1).
    pose proof (byte_val_range b2). pose proof (byte_val_range b3).
    change (2 ^ 32) with 4294967296. lia. }
  destruct be; cbn [rev app]; apply H.
Qed.

Lemma buf_slice_inside (b : list byte) (off n : Z) :
  0 <= off -> 0 <= n -> off + n <= Z.of_nat (List.length b) ->
  buf_slice b off n
  = Some (firstn (Z.to_nat n) (skipn (Z.to_nat off) b)).
Proof.
  intros Hoff Hn Hlen. unfold buf_slice.
  destruct (Z.leb_spec 0 off); [|lia].
  destruct (Z.leb_spec 0 n); [|lia].
  destruct (Z.leb_spec (off + n) (Z.of_nat (List.length b))); [|lia].
  reflexivity.
Qed.

Lemma slice_length (b : list byte) (off n : Z) :
  0 <= off -> 0 <= n -> off + n <= Z.of_nat (List.length b) ->
  Z.of_nat (List.length (firstn (Z.to_nat n) (skipn (Z.to_nat off) b))) = n.
Proof.
  intros Hoff Hn Hlen.
  rewrite length_firstn, length_skipn. lia.
Qed.

Lemma ceil_div_zero (d : Z) : 0 < d -> (0 + d - 1) / d = 0.
Proof.
  intros Hd. apply Z.div_small. lia.
Qed.

Lemma ceil_div_step (n d : Z) :
  0 < d -> 0 < n ->
  (n + d - 1) / d = 1 + (n - Z.min n d + d - 1) / d.
Proof.
  intros Hd Hn.
  destruct (Z.le_gt_cases n d) as [Hle | Hgt].
  - rewrite Z.min_l by lia.
    replace (n - n + d - 1) with (0 + d - 1) by lia.
    rewrite ceil_div_zero by lia.
    replace (n + d - 1) with ((n - 1) + 1 * d) by lia.
    rewrite Z.div_add by lia.
    rewrite Z.div_small by lia. lia.
  - rewrite Z.min_r by lia.
    replace (n + d - 1) with ((n - d + d - 1) + 1 * d) by lia.
    rewrite Z.div_add by lia. lia.
Qed.


(** *** The upload loop *)

Lemma bulk_transfer_run (chunk : list byte) (tr : trace) :
  libusb_bulk_transfer 2 chunk (Z.of_nat (List.length chunk)) tr
  = Returns (usb_bulk_reply (tr ++ [BULK_request chunk]))
            (tr ++ [BULK_request chunk]).
Proof. reflexivity. Qed.

Lemma control_transfer_run (ty req : Z) (data : list byte) (n : Z)
    (tr : trace) :
  libusb_control_transfer ty req 0 0 data n tr
  = Returns (usb_control_reply (tr ++ [UsbControl ty req 0 0 data n]))
            (tr ++ [UsbControl ty req 0 0 data n]).
Proof. reflexivity. Qed.

(** Every round sends the next block of at most [BULK_SIZE] bytes; the
    loop ends with 0 once the blocks sent make up the whole rest of the
    buffer, and with -1 at the first transfer that is not accepted in
    full. *)
Lemma load_fwfile_loop_run (fw : ath3k_firmware) :
  fw_wf fw -> 0 < BULK_SIZE ->
  forall (fuel : nat) (count sent : Z) (tr : trace),
    0 <= count -> 0 <= sent -> sent + count = len fw ->
    (Z.to_nat count < fuel)%nat ->
    exists (r : Z) (blocks : list (list byte)),
      ath3k_load_fwfile_loop fuel fw count sent tr
      = Returns r (tr ++ map BULK_request blocks)
      /\ Forall (fun b => 0 < Z.of_nat (List.length b) <= BULK_SIZE) blocks
      /\ (exists rest,
             skipn (Z.to_nat sent) (buf fw) = List.concat blocks ++ rest)
      /\ (r = 0 \/ r = -1)
      /\ (r = 0 ->
          Z.of_nat (List.length blocks) = (count + BULK_SIZE - 1) / BULK_SIZE
          /\ List.concat blocks = skipn (Z.to_nat sent) (buf fw)).
Proof.
  intros [Hlen Hmax] Hbulk. unfold INT_MAX in Hmax.
  induction fuel as [|fuel IH]; intros count sent tr Hc Hs Hsum Hfuel.
  - lia.
  - cbn [ath3k_load_fwfile_loop].
    destruct (Z.eqb_spec count 0) as [Hz | Hnz].
    + exists 0, []. cbn [map List.concat List.length app].
      rewrite app_nil_r. subst count.
      assert (Hnil : skipn (Z.to_nat sent) (buf fw) = []).
      { apply skipn_all2. lia. }
      refine (conj _ (conj _ (conj _ (conj _ _)))).
      * reflexivity.
      * constructor.
      * exists []. exact Hnil.
      * now left.
      * intros _. rewrite ceil_div_zero by lia. now rewrite Hnil.
    + rewrite XMIN_min.
      set (size := Z.min count BULK_SIZE).
      assert (Hsize : 0 < size <= count) by (unfold size; lia).
      assert (Hsz : size <= BULK_SIZE) by (unfold size; lia).
      set (chunk := firstn (Z.to_nat size) (skipn (Z.to_nat sent) (buf fw))).
      assert (Hchunk : Z.of_nat (List.length chunk) = size).
      { unfold chunk. apply slice_length; lia. }
      unfold bind at 1, read_buf.
      rewrite buf_slice_inside by lia. fold chunk.
      unfold ret at 1, bind at 1.
      assert (Hbt : libusb_bulk_transfer 2 chunk size tr
                    = Returns (usb_bulk_reply (tr ++ [BULK_request chunk]))
                              (tr ++ [BULK_request chunk])).
      { rewrite <- Hchunk. apply bulk_transfer_run. }
      rewrite Hbt.
      destruct (usb_bulk_reply (tr ++ [BULK_request chunk])) as [r_ret r].
      assert (Hsplit : skipn (Z.to_nat sent) (buf fw)
                       = chunk ++ skipn (Z.to_nat (sent + size)) (buf fw)).
      { unfold chunk.
        replace (Z.to_nat (sent + size))
          with (Z.to_nat size + Z.to_nat sent)%nat by lia.
        rewrite <- skipn_skipn. symmetry. apply firstn_skipn. }
      destruct ((r_ret <? 0) || negb (r =? size)) eqn:Hfail.
      * exists (-1), [chunk]. cbn [map List.concat].
        rewrite app_nil_r. refine (conj _ (conj _ (conj _ (conj _ _)))).
        -- reflexivity.
        -- constructor; [lia | constructor].
        -- eexists. exact Hsplit.
        -- now right.
        -- intros Habs; discriminate Habs.
      * rewrite !int32_small by lia.
        destruct (IH (count - size) (sent + size) (tr ++ [BULK_request chunk]))
          as (r' & blocks & Hrun & Hall & [rest Hpre] & Hr & Hok);
          try lia.
        exists r', (chunk :: blocks). cbn [map List.concat].
        rewrite Hrun, <- app_assoc. cbn [app].
        refine (conj _ (conj _ (conj _ (conj _ _)))).
        -- reflexivity.
        -- constructor; [lia | exact Hall].
        -- exists rest. rewrite Hsplit, Hpre, app_assoc. reflexivity.
        -- exact Hr.
        -- intros H. destruct (Hok H) as [Hn Hcat]. split.
           ++ cbn [List.length].
              rewrite Nat2Z.inj_succ, Hn.
              rewrite (ceil_div_step count BULK_SIZE) by lia.
              fold size. lia.
           ++ rewrite Hsplit, Hcat. reflexivity.
Qed.


(** The whole upload: the header goes out first, in one control
    transfer; the blocks of the loop follow. *)
Lemma load_fwfile_run (fw : ath3k_firmware) (tr : trace) :
  fw_wf fw -> 0 <= FW_HDR_SIZE -> 0 < BULK_SIZE ->
  exists (r : Z) (blocks : list (list byte)),
    ath3k_load_fwfile fw tr
    = Returns r
        (tr ++ DNLOAD_request
                 (firstn (Z.to_nat (header_size (len fw))) (buf fw))
            :: map BULK_request blocks)
    /\ Forall (fun b => 0 < Z.of_nat (List.length b) <= BULK_SIZE) blocks
    /\ (exists unsent,
           skipn (Z.to_nat (header_size (len fw))) (buf fw)
           = List.concat blocks ++ unsent)
    /\ (r = 0 \/ r = -1)
    /\ (r = 0 ->
        Z.of_nat (List.length blocks) = bulk_count (len fw)
        /\ List.concat blocks
           = skipn (Z.to_nat (header_size (len fw))) (buf fw)).
Proof.
  intros Hwf Hhdr Hbulk.
  pose proof Hwf as [Hlen Hmax]. unfold INT_MAX in Hmax.
  unfold ath3k_load_fwfile, bulk_count, header_size.
  rewrite XMIN_min.
  set (size := Z.min (len fw) FW_HDR_SIZE).
  assert (Hsize : 0 <= size <= len fw) by (unfold size; lia).
  set (hdr := firstn (Z.to_nat size) (buf fw)).
  assert (Hhl : Z.of_nat (List.length hdr) = size).
  { unfold hdr. rewrite length_firstn. lia. }
  unfold bind at 1, read_buf.
  rewrite buf_slice_inside by lia.
  change (skipn (Z.to_nat 0) (buf fw)) with (buf fw). fold hdr.
  unfold ret at 1, bind at 1.
  rewrite control_transfer_run.
  replace (UsbControl (Z.lor LIBUSB_REQUEST_TYPE_VENDOR LIBUSB_ENDPOINT_OUT)
             ATH3K_DNLOAD 0 0 hdr size)
    with (DNLOAD_request hdr)
    by (unfold DNLOAD_request; now rewrite Hhl).
  destruct (usb_control_reply (tr ++ [DNLOAD_request hdr])) as [r_ret data].
  destruct (Z.eqb_spec r_ret size) as [Hacc | Hrej]; cbn [negb].
  - rewrite !int32_small by lia.
    destruct (load_fwfile_loop_run fw Hwf Hbulk (S (Z.to_nat (len fw)))
                (len fw - size) (0 + size) (tr ++ [DNLOAD_request hdr]))
      as (r & blocks & Hrun & Hall & Hpre & Hr & Hok); try lia.
    exists r, blocks. rewrite Hrun, <- app_assoc. cbn [app].
    refine (conj eq_refl (conj Hall (conj Hpre (conj Hr Hok)))).
  - exists (-1), []. cbn [map List.concat app List.length].
    refine (conj eq_refl (conj _ (conj _ (conj _ _)))).
    + constructor.
    + eexists. reflexivity.
    + now right.
    + intros Habs; discriminate Habs.
Qed.

(** With a device that accepts every transfer the upload goes through. *)
Lemma load_fwfile_loop_accepted (fw : ath3k_firmware) :
  fw_wf fw -> 0 < BULK_SIZE -> device_accepts_upload ->
  forall (fuel : nat) (count sent : Z) (tr : trace),
    0 <= count -> 0 <= sent -> sent + count = len fw ->
    (Z.to_nat count < fuel)%nat ->
    exists tr' : trace,
      ath3k_load_fwfile_loop fuel fw count sent tr = Returns 0 tr'.
Proof.
  intros [Hlen Hmax] Hbulk [_ Hacc]. unfold INT_MAX in Hmax.
  induction fuel as [|fuel IH]; intros count sent tr Hc Hs Hsum Hfuel.
  - lia.
  - cbn [ath3k_load_fwfile_loop].
    destruct (Z.eqb_spec count 0) as [Hz | Hnz].
    + exists tr. reflexivity.
    + rewrite XMIN_min.
      set (size := Z.min count BULK_SIZE).
      assert (Hsize : 0 < size <= count) by (unfold size; lia).
      set (chunk := firstn (Z.to_nat size) (skipn (Z.to_nat sent) (buf fw))).
      assert (Hchunk : Z.of_nat (List.length chunk) = size).
      { unfold chunk. apply slice_length; lia. }
      unfold bind at 1, read_buf.
      rewrite buf_slice_inside by lia. fold chunk.
      unfold ret at 1, bind at 1.
      assert (Hbt : libusb_bulk_transfer 2 chunk size tr
                    = Returns (usb_bulk_reply (tr ++ [BULK_request chunk]))
                              (tr ++ [BULK_request chunk])).
      { rewrite <- Hchunk. apply bulk_transfer_run. }
      rewrite Hbt.
      destruct (Hacc tr chunk) as [Hret Hr].
      destruct (usb_bulk_reply (tr ++ [BULK_request chunk])) as [r_ret r].
      cbn [fst snd] in Hret, Hr.
      destruct (Z.ltb_spec r_ret 0); [lia|].
      destruct (Z.eqb_spec r size); [|lia].
      cbn [orb negb]. rewrite !int32_small by lia.
      apply IH; lia.
Qed.

Lemma load_fwfile_accepted (fw : ath3k_firmware) (tr : trace) :
  fw_wf fw -> 0 <= FW_HDR_SIZE -> 0 < BULK_SIZE -> device_accepts_upload ->
  exists tr' : trace, ath3k_load_fwfile fw tr = Returns 0 tr'.
Proof.
  intros Hwf Hhdr Hbulk Hdev.
  pose proof Hwf as [Hlen Hmax]. unfold INT_MAX in Hmax.
  pose proof Hdev as [Hacc _].
  unfold ath3k_load_fwfile. rewrite XMIN_min.
  set (size := Z.min (len fw) FW_HDR_SIZE).
  assert (Hsize : 0 <= size <= len fw) by (unfold size; lia).
  set (hdr := firstn (Z.to_nat size) (buf fw)).
  assert (Hhl : Z.of_nat (List.length hdr) = size).
  { unfold hdr. rewrite length_firstn. lia. }
  unfold bind at 1, read_buf.
  rewrite buf_slice_inside by lia.
  change (skipn (Z.to_nat 0) (buf fw)) with (buf fw). fold hdr.
  unfold ret at 1, bind at 1.
  rewrite control_transfer_run.
  replace (UsbControl (Z.lor LIBUSB_REQUEST_TYPE_VENDOR LIBUSB_ENDPOINT_OUT)
             ATH3K_DNLOAD 0 0 hdr size)
    with (DNLOAD_request hdr)
    by (unfold DNLOAD_request; now rewrite Hhl).
  specialize (Hacc tr hdr).
  destruct (usb_control_reply (tr ++ [DNLOAD_request hdr])) as [r_ret data].
  cbn [fst] in Hacc.
  destruct (Z.eqb_spec r_ret size); [|lia].
  cbn [negb]. rewrite !int32_small by lia.
  apply (load_fwfile_loop_accepted fw Hwf Hbulk Hdev); lia.
Qed.

Lemma bulk_requests_not_control (blocks : list (list byte)) :
  filter is_control (map BULK_request blocks) = [].
Proof.
  induction blocks as [|b blocks IH]; [reflexivity | exact IH].
Qed.

(** *** The queries *)

Lemma get_state_run (state : byte) (tr : trace) :
  ath3k_get_state state tr
  = let reply := usb_control_reply (tr ++ [GETSTATE_request]) in
    Returns (if fst reply <? 0 then 0 else Z.b2z (fst reply =? 1),
             nth 0 (usb_fill [state] (fst reply) (snd reply)) state)
            (tr ++ [GETSTATE_request]).
Proof.
  unfold ath3k_get_state, bind. rewrite control_transfer_run.
  fold GETSTATE_request.
  destruct (usb_control_reply (tr ++ [GETSTATE_request])) as [r_ret data].
  cbn [fst snd]. destruct (r_ret <? 0); reflexivity.
Qed.

Lemma get_version_run (version : list byte) (tr : trace) :
  ath3k_get_version version tr
  = let reply := usb_control_reply (tr ++ [GETVERSION_request]) in
    Returns (if fst reply <? 0 then 0
             else Z.b2z (fst reply =? sizeof_ath3k_version),
             version_of_bytes host_big_endian
               (usb_fill version (fst reply) (snd reply)))
            (tr ++ [GETVERSION_request]).
Proof.
  unfold ath3k_get_version, bind. rewrite control_transfer_run.
  fold GETVERSION_request.
  destruct (usb_control_reply (tr ++ [GETVERSION_request])) as [r_ret data].
  cbn [fst snd]. destruct (r_ret <? 0); reflexivity.
Qed.

Lemma query_result_not_negative (r : Z) (hit : bool) :
  ((if r <? 0 then 0 else Z.b2z hit) <? 0) = false.
Proof.
  destruct (r <? 0), hit; reflexivity.
Qed.

Lemma get_state_inv (state : byte) (tr : trace) (r : Z) (s : byte)
    (tr1 : trace) :
  ath3k_get_state state tr = Returns (r, s) tr1 ->
  (r <? 0) = false /\ tr1 = tr ++ [GETSTATE_request].
Proof.
  rewrite get_state_run. cbv zeta. intros H. injection H as Hr _ Htr.
  subst r tr1. split; [apply query_result_not_negative | reflexivity].
Qed.

Lemma get_version_inv (version : list byte) (tr : trace) (r : Z)
    (v : ath3k_version) (tr1 : trace) :
  ath3k_get_version version tr = Returns (r, v) tr1 ->
  (r <? 0) = false /\ tr1 = tr ++ [GETVERSION_request].
Proof.
  rewrite get_version_run. cbv zeta. intros H. injection H as Hr _ Htr.
  subst r tr1. split; [apply query_result_not_negative | reflexivity].
Qed.


(** *** The patch stage *)

Lemma patch_version_run (fw : ath3k_firmware) (tr : trace) :
  fw_wf fw -> 8 <= len fw ->
  ath3k_patch_version fw tr
  = Returns
      {| rom_version :=
           u32_at host_big_endian
             (firstn 4 (skipn (Z.to_nat (len fw - 8)) (buf fw))) 0;
         build_version :=
           u32_at host_big_endian
             (firstn 4 (skipn (Z.to_nat (len fw - 4)) (buf fw))) 0;
         ram_version := 0;
         ref_clock := 0 |}
      tr.
Proof.
  intros [Hlen _] H8.
  unfold ath3k_patch_version, bind, read_buf.
  rewrite !buf_slice_inside by lia.
  unfold ret. rewrite !uint32_int32 by apply u32_at_range.
  reflexivity.
Qed.

Lemma patch_mismatch_false (pt_ver fw_ver : ath3k_version) :
  patch_mismatch pt_ver fw_ver = false
  <-> rom_version pt_ver = rom_version fw_ver
      /\ build_version pt_ver > build_version fw_ver.
Proof.
  unfold patch_mismatch.
  destruct (Z.eqb_spec (rom_version pt_ver) (rom_version fw_ver));
    destruct (Z.leb_spec (build_version pt_ver) (build_version fw_ver));
    cbn; split; intros Hyp; try discriminate; try reflexivity; lia.
Qed.

Lemma load_patch_skipped (fw_path : string) (tr : trace) (r : Z)
    (s : byte) (tr1 : trace) :
  ath3k_get_state (local_state tr) tr = Returns (r, s) tr1 ->
  Z.land (byte_val s) ATH3K_PATCH_UPDATE <> 0 ->
  ath3k_load_patch fw_path tr = Returns 0 tr1.
Proof.
  intros Hst Hflag.
  destruct (get_state_inv _ _ _ _ _ Hst) as [Hr _].
  unfold ath3k_load_patch, bind, history. rewrite Hst, Hr.
  destruct (Z.eqb_spec (Z.land (byte_val s) ATH3K_PATCH_UPDATE) 0);
    [contradiction | reflexivity].
Qed.

(** Past the two queries the stage reads the patch file and decides. *)
Lemma load_patch_read (fw_path : string) (tr : trace) (r1 : Z) (s : byte)
    (tr1 : trace) (r2 : Z) (dev : ath3k_version) (tr2 : trace) :
  ath3k_get_state (local_state tr) tr = Returns (r1, s) tr1 ->
  Z.land (byte_val s) ATH3K_PATCH_UPDATE = 0 ->
  ath3k_get_version (local_version tr) tr1 = Returns (r2, dev) tr2 ->
  ath3k_load_patch fw_path tr
  = (let '(r, fw) := ath3k_fw_read (patch_filename fw_path dev) in
     if r <=? 0 then ret (-1)
     else
       pt_ver <- ath3k_patch_version fw ;;
       if patch_mismatch pt_ver dev
       then ath3k_fw_free fw ;;; ret (-1)
       else r <- ath3k_load_fwfile fw ;; ath3k_fw_free fw ;;; ret r)
      (tr2 ++ [FwRead (patch_filename fw_path dev)]).
Proof.
  intros Hst Hflag Hver.
  destruct (get_state_inv _ _ _ _ _ Hst) as [Hr1 _].
  destruct (get_version_inv _ _ _ _ _ Hver) as [Hr2 _].
  unfold ath3k_load_patch.
  unfold bind at 1, history. unfold bind at 1. rewrite Hst, Hr1, Hflag.
  cbn [Z.eqb negb]. unfold bind at 1. rewrite Hver, Hr2.
  unfold bind at 1, fw_read. unfold bind at 1, emit, ret at 1.
  destruct (ath3k_fw_read (patch_filename fw_path dev)) as [r fw].
  reflexivity.
Qed.


(** *** Traces only grow *)

Lemma grows_ret {A : Type} (a : A) : grows (ret a).
Proof. intros tr. exists []. cbn. now rewrite app_nil_r. Qed.

Lemma grows_raise {A : Type} (f : fault) : grows (@raise A f).
Proof. intros tr. exists []. cbn. now rewrite app_nil_r. Qed.

Lemma grows_emit (e : event) : grows (emit e).
Proof. intros tr. exists [e]. reflexivity. Qed.

Lemma grows_history : grows history.
Proof. intros tr. exists []. cbn. now rewrite app_nil_r. Qed.

Lemma grows_bind {A B : Type} (m : M A) (k : A -> M B) :
  grows m -> (forall a, grows (k a)) -> grows (bind m k).
Proof.
  intros Hm Hk tr. unfold bind.
  destruct (Hm tr) as [evs Hevs].
  destruct (m tr) as [a tr' | f tr']; cbn in Hevs; subst tr'.
  - destruct (Hk a (tr ++ evs)) as [evs' Hevs'].
    exists (evs ++ evs'). now rewrite Hevs', app_assoc.
  - exists evs. reflexivity.
Qed.

Lemma grows_read_buf (b : list byte) (off n : Z) : grows (read_buf b off n).
Proof.
  unfold read_buf. destruct (buf_slice b off n);
    [apply grows_ret | apply grows_raise].
Qed.

Lemma grows_control (ty req v i : Z) (data : list byte) (n : Z) :
  grows (libusb_control_transfer ty req v i data n).
Proof.
  unfold libusb_control_transfer.
  repeat (apply grows_bind; intros);
    auto using grows_emit, grows_history, grows_ret.
Qed.

Lemma grows_bulk (ep : Z) (data : list byte) (n : Z) :
  grows (libusb_bulk_transfer ep data n).
Proof.
  unfold libusb_bulk_transfer.
  repeat (apply grows_bind; intros);
    auto using grows_emit, grows_history, grows_ret.
Qed.

Lemma grows_loop (fw : ath3k_firmware) (fuel : nat) :
  forall count sent : Z, grows (ath3k_load_fwfile_loop fuel fw count sent).
Proof.
  induction fuel as [|fuel IH]; intros count sent; cbn [ath3k_load_fwfile_loop].
  - apply grows_raise.
  - destruct (count =? 0); [apply grows_ret|].
    apply grows_bind; [apply grows_read_buf | intros chunk].
    apply grows_bind; [apply grows_bulk | intros [r_ret r]].
    destruct ((r_ret <? 0) || negb (r =? XMIN count BULK_SIZE));
      [apply grows_ret | apply IH].
Qed.

Lemma grows_load_fwfile (fw : ath3k_firmware) : grows (ath3k_load_fwfile fw).
Proof.
  unfold ath3k_load_fwfile.
  apply grows_bind; [apply grows_read_buf | intros hdr].
  apply grows_bind; [apply grows_control | intros [r_ret data]].
  destruct (negb (r_ret =? XMIN (len fw) FW_HDR_SIZE));
    [apply grows_ret | apply grows_loop].
Qed.

Lemma grows_fw_free (fw : ath3k_firmware) : grows (ath3k_fw_free fw).
Proof. apply grows_emit. Qed.

(** *** The syscfg stage *)

Lemma load_syscfg_read (fw_path : string) (tr : trace) (r1 : Z) (s : byte)
    (tr1 : trace) (r2 : Z) (ver : ath3k_version) (tr2 : trace) :
  ath3k_get_state (local_state tr) tr = Returns (r1, s) tr1 ->
  ath3k_get_version (local_version tr) tr1 = Returns (r2, ver) tr2 ->
  ath3k_load_syscfg fw_path tr
  = (let '(r, fw) := ath3k_fw_read (syscfg_filename fw_path ver) in
     if r <=? 0 then ret (-1)
     else r <- ath3k_load_fwfile fw ;; ath3k_fw_free fw ;;; ret r)
      (tr2 ++ [FwRead (syscfg_filename fw_path ver)]).
Proof.
  intros Hst Hver.
  destruct (get_state_inv _ _ _ _ _ Hst) as [Hr1 _].
  destruct (get_version_inv _ _ _ _ _ Hver) as [Hr2 _].
  unfold ath3k_load_syscfg.
  unfold bind at 1, history. unfold bind at 1. rewrite Hst, Hr1.
  unfold bind at 1. rewrite Hver, Hr2.
  unfold bind at 1, fw_read. unfold bind at 1, emit, ret at 1.
  destruct (ath3k_fw_read (syscfg_filename fw_path ver)) as [r fw].
  reflexivity.
Qed.

(** *** Normal mode and the switch of identifiers *)

Lemma set_normal_mode_run (tr : trace) (r : Z) (s : byte) (tr1 : trace) :
  ath3k_get_state (local_state tr) tr = Returns (r, s) tr1 ->
  ath3k_set_normal_mode tr
  = if Z.land (byte_val s) ATH3K_MODE_MASK =? ATH3K_NORMAL_MODE
    then Returns 0 tr1
    else
      let reply := usb_control_reply (tr1 ++ [SET_NORMAL_MODE_request]) in
      Returns (if fst reply <? 0 then 0 else Z.b2z (fst reply =? 0))
              (tr1 ++ [SET_NORMAL_MODE_request]).
Proof.
  intros Hst.
  destruct (get_state_inv _ _ _ _ _ Hst) as [Hr _].
  unfold ath3k_set_normal_mode.
  unfold bind at 1, history. unfold bind at 1. rewrite Hst, Hr.
  destruct (Z.land (byte_val s) ATH3K_MODE_MASK =? ATH3K_NORMAL_MODE);
    [reflexivity|].
  unfold bind. rewrite control_transfer_run. fold SET_NORMAL_MODE_request.
  destruct (usb_control_reply (tr1 ++ [SET_NORMAL_MODE_request]))
    as [r_ret data].
  cbn [fst]. destruct (r_ret <? 0); reflexivity.
Qed.

Lemma set_normal_mode_returns (tr : trace) :
  exists (r : Z) (tr' : trace),
    ath3k_set_normal_mode tr = Returns r tr' /\ (r <? 0) = false.
Proof.
  pose proof (get_state_run (local_state tr) tr) as Hst. cbv zeta in Hst.
  rewrite (set_normal_mode_run _ _ _ _ Hst).
  destruct (Z.land _ ATH3K_MODE_MASK =? ATH3K_NORMAL_MODE).
  - eexists _, _. split; reflexivity.
  - eexists _, _. split; [reflexivity | apply query_result_not_negative].
Qed.

Lemma switch_pid_run (tr : trace) :
  ath3k_switch_pid tr
  = let reply := usb_control_reply (tr ++ [SWITCH_VID_PID_request]) in
    Returns (if fst reply <? 0 then 0 else Z.b2z (fst reply =? 0))
            (tr ++ [SWITCH_VID_PID_request]).
Proof.
  unfold ath3k_switch_pid, bind. rewrite control_transfer_run.
  fold SWITCH_VID_PID_request.
  destruct (usb_control_reply (tr ++ [SWITCH_VID_PID_request]))
    as [r_ret data].
  cbn [fst]. destruct (r_ret <? 0); reflexivity.
Qed.

(** Once the first two stages are through, nothing stops the run
    before the switch, and the result is 0. *)
Lemma init_ar3012_last_stage (fw_path : string) (tr : trace) (r1 : Z)
    (tr1 : trace) (r2 : Z) (tr2 : trace) (r3 : Z) (tr3 : trace) :
  ath3k_load_patch fw_path tr = Returns r1 tr1 -> 0 <= r1 ->
  ath3k_load_syscfg fw_path tr1 = Returns r2 tr2 -> 0 <= r2 ->
  ath3k_set_normal_mode tr2 = Returns r3 tr3 ->
  ath3k_init_ar3012 fw_path tr
  = Returns 0 (tr3 ++ [SWITCH_VID_PID_request]).
Proof.
  intros Hp Hr1 Hs Hr2 Hn.
  destruct (set_normal_mode_returns tr2) as (r3' & tr3' & Hn' & Hr3).
  rewrite Hn in Hn'. injection Hn' as <- <-.
  unfold ath3k_init_ar3012.
  unfold bind at 1. rewrite Hp.
  destruct (Z.ltb_spec r1 0); [lia|].
  unfold bind at 1. rewrite Hs.
  destruct (Z.ltb_spec r2 0); [lia|].
  unfold bind at 1. rewrite Hn, Hr3.
  unfold bind. rewrite switch_pid_run. reflexivity.
Qed.


(** *** File names *)

Lemma substring_whole (s : string) :
  forall n : nat, (String.length s <= n)%nat -> substring 0 n s = s.
Proof.
  induction s as [|c s IH]; intros [|n] Hn; cbn in *; try reflexivity.
  - lia.
  - f_equal. apply IH. lia.
Qed.

Lemma snprintf_fits (size : Z) (text : string) :
  Z.of_nat (String.length text) < size -> snprintf size text = text.
Proof.
  intros Hfit. unfold snprintf. apply substring_whole. lia.
Qed.

Lemma string_app_assoc (a b c : string) :
  ((a ++ b) ++ c)%string = (a ++ b ++ c)%string.
Proof.
  induction a as [|x a IH]; cbn; [reflexivity | now rewrite IH].
Qed.

Lemma ends_with_app (suffix p : string) :
  ends_with suffix (p ++ suffix) = true.
Proof.
  induction p as [|c p IH].
  - change (ends_with suffix suffix = true).
    destruct suffix; cbn [ends_with]; rewrite String.eqb_refl; reflexivity.
  - change (ends_with suffix (String c (p ++ suffix)) = true).
    cbn [ends_with]. rewrite IH. apply orb_true_r.
Qed.

Lemma clk_value_cases (ref : Z) :
  ATH3K_XTAL_FREQ_26M <> ATH3K_XTAL_FREQ_40M ->
  ATH3K_XTAL_FREQ_26M <> ATH3K_XTAL_FREQ_19P2 ->
  ATH3K_XTAL_FREQ_40M <> ATH3K_XTAL_FREQ_19P2 ->
  (ref = ATH3K_XTAL_FREQ_26M -> clk_value ref = 26)
  /\ (ref = ATH3K_XTAL_FREQ_40M -> clk_value ref = 40)
  /\ (ref = ATH3K_XTAL_FREQ_19P2 -> clk_value ref = 19)
  /\ (ref <> ATH3K_XTAL_FREQ_26M -> ref <> ATH3K_XTAL_FREQ_40M ->
      ref <> ATH3K_XTAL_FREQ_19P2 -> clk_value ref = 0).
Proof.
  intros H1 H2 H3. unfold clk_value.
  destruct (Z.eqb_spec ref ATH3K_XTAL_FREQ_26M);
    destruct (Z.eqb_spec ref ATH3K_XTAL_FREQ_40M);
    destruct (Z.eqb_spec ref ATH3K_XTAL_FREQ_19P2);
    repeat split; intros; try reflexivity; congruence.
Qed.




(** *** The legacy plan *)

(** Whatever the upload returns, [ath3k_init_firmware] frees the blob
    and returns 0. *)
Lemma init_firmware_result (file_prefix : string) (tr : trace)
    (r : Z) (fw : ath3k_firmware) (r' : Z) (tr' : trace) :
  let name := snprintf FILENAME_MAX (file_prefix ++ "/ath3k-1.fw") in
  ath3k_fw_read name = (r, fw) -> 0 < r ->
  ath3k_load_fwfile fw (tr ++ [FwRead name]) = Returns r' tr' ->
  ath3k_init_firmware file_prefix tr
  = Returns 0 (tr' ++ [FwFree (fwname fw)]).
Proof.
  intros name Hread Hr Hup.
  unfold ath3k_init_firmware. fold name.
  unfold bind at 1, fw_read. unfold bind at 1, emit, ret at 1.
  rewrite Hread. destruct (Z.leb_spec r 0); [lia|].
  unfold bind at 1. rewrite Hup. reflexivity.
Qed.
(** *** The properties of the delivery protocol *)

(** C1: the upload of a blob of at least 8 bytes starts with one
    control-OUT DNLOAD transfer that carries the first
    [min(len, HDR_SIZE)] bytes, and that is its only control transfer;
    the transfers after it are bulk-OUT transfers to endpoint 2, each of
    at most [BULK_SIZE] bytes, that carry the bytes after the header in
    order.  The upload returns 0 or -1; when it returns 0, as it does
    with a device that accepts every transfer, it has sent
    [ceil((len - header) / BULK_SIZE)] bulk transfers whose concatenation
    is everything after the header. *)
Theorem load_fwfile_header_then_bulk (fw : ath3k_firmware) (tr : trace) :
  fw_wf fw -> 8 <= len fw -> 0 <= FW_HDR_SIZE -> 0 < BULK_SIZE ->
  let header := firstn (Z.to_nat (header_size (len fw))) (buf fw) in
  let body := skipn (Z.to_nat (header_size (len fw))) (buf fw) in
  exists (r : Z) (blocks : list (list byte)),
    ath3k_load_fwfile fw tr
    = Returns r (tr ++ DNLOAD_request header :: map BULK_request blocks)
    /\ Z.of_nat (List.length header) = Z.min (len fw) FW_HDR_SIZE
    /\ filter is_control (DNLOAD_request header :: map BULK_request blocks)
       = [DNLOAD_request header]
    /\ Forall (fun b => 0 < Z.of_nat (List.length b) <= BULK_SIZE) blocks
    /\ (exists unsent, body = List.concat blocks ++ unsent)
    /\ (r = 0 \/ r = -1)
    /\ (device_accepts_upload -> r = 0)
    /\ (r = 0 ->
        Z.of_nat (List.length blocks) = bulk_count (len fw)
        /\ List.concat blocks = body).
Proof.
  intros Hwf H8 Hhdr Hbulk header body.
  destruct (load_fwfile_run fw tr Hwf Hhdr Hbulk)
    as (r & blocks & Hrun & Hall & Hpre & Hr & Hok).
  exists r, blocks.
  refine (conj Hrun (conj _ (conj _ (conj Hall (conj Hpre
            (conj Hr (conj _ Hok))))))).
  - destruct Hwf as [Hlen _].
    unfold header, header_size. rewrite length_firstn. lia.
  - cbn [filter DNLOAD_request is_control].
    now rewrite bulk_requests_not_control.
  - intros Hdev.
    destruct (load_fwfile_accepted fw tr Hwf Hhdr Hbulk Hdev) as [tr' Hzero].
    rewrite Hrun in Hzero. now injection Hzero as -> _.
Qed.

(** C2: once the patch stage has read the patch file, the blob is
    uploaded if and only if the ROM version in its trailer equals the
    device's and its build version is greater than the device's;
    otherwise the stage frees the blob and returns -1 without any
    DNLOAD. *)
Theorem load_patch_version_gate (fw_path : string) (tr : trace)
    (r1 : Z) (s : byte) (tr1 : trace)
    (r2 : Z) (dev : ath3k_version) (tr2 : trace)
    (r3 : Z) (fw : ath3k_firmware) (pt : ath3k_version) (tr3 : trace) :
  0 <= FW_HDR_SIZE -> 0 < BULK_SIZE ->
  ath3k_get_state (local_state tr) tr = Returns (r1, s) tr1 ->
  Z.land (byte_val s) ATH3K_PATCH_UPDATE = 0 ->
  ath3k_get_version (local_version tr) tr1 = Returns (r2, dev) tr2 ->
  ath3k_fw_read (patch_filename fw_path dev) = (r3, fw) ->
  0 < r3 -> fw_wf fw -> 8 <= len fw ->
  ath3k_patch_version fw (tr2 ++ [FwRead (patch_filename fw_path dev)])
  = Returns pt tr3 ->
  let accepted :=
    rom_version pt = rom_version dev
    /\ build_version pt > build_version dev in
  exists (r : Z) (evs : list event),
    ath3k_load_patch fw_path tr = Returns r (tr3 ++ evs)
    /\ (existsb is_dnload evs = true <-> accepted)
    /\ (accepted ->
        exists (r' : Z) (tr' : trace),
          ath3k_load_fwfile fw tr3 = Returns r' tr'
          /\ r = r' /\ tr3 ++ evs = tr' ++ [FwFree (fwname fw)])
    /\ (~ accepted -> r = -1 /\ r < 0 /\ evs = [FwFree (fwname fw)]).
Proof.
  intros Hhdr Hbulk Hst Hflag Hver Hread Hr3 Hwf H8 Hpt accepted.
  rewrite (load_patch_read fw_path _ _ _ _ _ _ _ Hst Hflag Hver), Hread.
  destruct (Z.leb_spec r3 0); [lia|].
  assert (Htr3 : tr3 = tr2 ++ [FwRead (patch_filename fw_path dev)]).
  { rewrite patch_version_run in Hpt by assumption.
    now injection Hpt as _ <-. }
  unfold bind at 1. rewrite Hpt.
  destruct (patch_mismatch pt dev) eqn:Hmis.
  - assert (Hno : ~ accepted).
    { intros Hacc. apply patch_mismatch_false in Hacc. congruence. }
    exists (-1), [FwFree (fwname fw)].
    refine (conj eq_refl (conj _ (conj _ _))).
    + split; [discriminate | intros Hacc; contradiction].
    + intros Hacc; contradiction.
    + intros _. repeat split.
  - assert (Hyes : accepted) by (now apply patch_mismatch_false).
    destruct (load_fwfile_run fw tr3 Hwf Hhdr Hbulk)
      as (r & blocks & Hrun & _).
    unfold bind, ath3k_fw_free, emit, ret. rewrite Hrun.
    eexists r, (_ :: _ ++ [_]).
    refine (conj _ (conj _ (conj _ _))).
    + rewrite app_comm_cons, app_assoc. reflexivity.
    + split; [intros _; exact Hyes | intros _].
      unfold DNLOAD_request. cbn [existsb is_dnload].
      rewrite !Z.eqb_refl. reflexivity.
    + intros _. exists r, (tr3 ++ DNLOAD_request
        (firstn (Z.to_nat (header_size (len fw))) (buf fw))
        :: map BULK_request blocks).
      refine (conj eq_refl (conj eq_refl _)).
      rewrite app_comm_cons, app_assoc. reflexivity.
    + intros Hno; contradiction.
Qed.

(** C3: when the state byte that the patch stage reads has the
    PATCH_UPDATE bit set, the stage returns 0 and its only transfer is
    the state query: no file is read, no version is asked for, no
    DNLOAD is sent. *)
Theorem load_patch_skips_patched_device (fw_path : string) (tr : trace)
    (r : Z) (s : byte) (tr1 : trace) :
  ath3k_get_state (local_state tr) tr = Returns (r, s) tr1 ->
  Z.land (byte_val s) ATH3K_PATCH_UPDATE <> 0 ->
  exists evs : list event,
    ath3k_load_patch fw_path tr = Returns 0 (tr ++ evs)
    /\ evs = [GETSTATE_request]
    /\ (forall name, ~ In (FwRead name) evs)
    /\ ~ In GETVERSION_request evs
    /\ existsb is_dnload evs = false.
Proof.
  intros Hst Hflag.
  destruct (get_state_inv _ _ _ _ _ Hst) as [_ Htr1].
  exists [GETSTATE_request].
  refine (conj _ (conj eq_refl (conj _ (conj _ _)))).
  - rewrite (load_patch_skipped fw_path _ _ _ _ Hst Hflag). now subst tr1.
  - intros name [Heq | []]. discriminate Heq.
  - intros [Heq | []]. unfold GETSTATE_request, GETVERSION_request in Heq.
    injection Heq as _ Hlen. discriminate Hlen.
  - reflexivity.
Qed.


(** C4, with the bound of the name buffer: the syscfg stage maps the reference clock that
    the device reports to 26, 40, 19 or, for every other value, 0, and
    reads the file whose name is the text
    [<fw_path>/ar3k/ramps_0x%08x_%d.dfu], made of the ROM version and
    that number and cut to [FILENAME_MAX - 1] characters.  When the
    text is shorter than [FILENAME_MAX] the name is the whole text, and
    then it ends in [_0.dfu] for every clock outside the three known
    ones. *)
Theorem load_syscfg_filename (fw_path : string) (tr : trace)
    (r1 : Z) (s : byte) (tr1 : trace)
    (r2 : Z) (ver : ath3k_version) (tr2 : trace) :
  ATH3K_XTAL_FREQ_26M <> ATH3K_XTAL_FREQ_40M ->
  ATH3K_XTAL_FREQ_26M <> ATH3K_XTAL_FREQ_19P2 ->
  ATH3K_XTAL_FREQ_40M <> ATH3K_XTAL_FREQ_19P2 ->
  ath3k_get_state (local_state tr) tr = Returns (r1, s) tr1 ->
  ath3k_get_version (local_version tr) tr1 = Returns (r2, ver) tr2 ->
  let ref := ref_clock ver in
  let text :=
    (fw_path ++ "/ar3k/ramps_0x" ++ hex08 (rom_version ver) ++ "_"
       ++ dec (clk_value ref) ++ ".dfu")%string in
  let unknown :=
    ref <> ATH3K_XTAL_FREQ_26M /\ ref <> ATH3K_XTAL_FREQ_40M
    /\ ref <> ATH3K_XTAL_FREQ_19P2 in
  (ref = ATH3K_XTAL_FREQ_26M -> clk_value ref = 26)
  /\ (ref = ATH3K_XTAL_FREQ_40M -> clk_value ref = 40)
  /\ (ref = ATH3K_XTAL_FREQ_19P2 -> clk_value ref = 19)
  /\ (unknown -> clk_value ref = 0)
  /\ (exists evs : list event,
         trace_of (ath3k_load_syscfg fw_path tr)
         = tr2 ++ FwRead (snprintf FILENAME_MAX text) :: evs)
  /\ (Z.of_nat (String.length text) < FILENAME_MAX ->
      snprintf FILENAME_MAX text = text
      /\ (unknown ->
          text = (fw_path ++ "/ar3k/ramps_0x" ++ hex08 (rom_version ver)
                    ++ "_0.dfu")%string
          /\ ends_with "_0.dfu" (snprintf FILENAME_MAX text) = true)).
Proof.
  intros Hd1 Hd2 Hd3 Hst Hver ref text unknown.
  destruct (clk_value_cases ref Hd1 Hd2 Hd3) as (H26 & H40 & H19 & H0).
  refine (conj H26 (conj H40 (conj H19 (conj _ (conj _ _))))).
  - intros (Hu1 & Hu2 & Hu3). now apply H0.
  - rewrite (load_syscfg_read fw_path _ _ _ _ _ _ _ Hst Hver).
    fold ref. unfold syscfg_filename. fold ref text.
    set (opened := tr2 ++ [FwRead (snprintf FILENAME_MAX text)]).
    assert (Hg : grows
              (let '(r, fw) := ath3k_fw_read (snprintf FILENAME_MAX text) in
               if r <=? 0 then ret (-1)
               else r0 <- ath3k_load_fwfile fw ;;
                    ath3k_fw_free fw ;;; ret r0)).
    { destruct (ath3k_fw_read (snprintf FILENAME_MAX text)) as [r fw].
      destruct (r <=? 0); [apply grows_ret|].
      apply grows_bind; [apply grows_load_fwfile | intros r0].
      apply grows_bind; [apply grows_fw_free | intros _; apply grows_ret]. }
    destruct (Hg opened) as [evs Hevs]. exists evs.
    rewrite Hevs. unfold opened. rewrite <- app_assoc. reflexivity.
  - intros Hfit. split; [now apply snprintf_fits|].
    intros (Hu1 & Hu2 & Hu3).
    assert (Htext : text
              = (fw_path ++ "/ar3k/ramps_0x" ++ hex08 (rom_version ver)
                   ++ "_0.dfu")%string).
    { unfold text. rewrite H0 by assumption. reflexivity. }
    split; [exact Htext|].
    rewrite snprintf_fits by assumption. rewrite Htext.
    rewrite <- !string_app_assoc. apply ends_with_app.
Qed.

(** C5: when the state byte that [ath3k_set_normal_mode] reads, masked
    with MODE_MASK, equals NORMAL_MODE, the function returns 0 and its
    only transfer is the state query: SET_NORMAL_MODE is not sent; and
    every AR3012 run whose patch and syscfg stages did not fail sends
    SWITCH_VID_PID right after the normal-mode step. *)
Theorem normal_mode_skipped_and_switch_sent :
  (forall (tr : trace) (r : Z) (s : byte) (tr1 : trace),
      ath3k_get_state (local_state tr) tr = Returns (r, s) tr1 ->
      Z.land (byte_val s) ATH3K_MODE_MASK = ATH3K_NORMAL_MODE ->
      ath3k_set_normal_mode tr = Returns 0 (tr ++ [GETSTATE_request]))
  /\ (forall (fw_path : string) (tr : trace) (r1 : Z) (tr1 : trace)
             (r2 : Z) (tr2 : trace),
         ath3k_load_patch fw_path tr = Returns r1 tr1 -> 0 <= r1 ->
         ath3k_load_syscfg fw_path tr1 = Returns r2 tr2 -> 0 <= r2 ->
         exists (r3 : Z) (tr3 : trace),
           ath3k_set_normal_mode tr2 = Returns r3 tr3
           /\ ath3k_init_ar3012 fw_path tr
              = Returns 0 (tr3 ++ [SWITCH_VID_PID_request])).
Proof.
  split.
  - intros tr r s tr1 Hst Hmode.
    destruct (get_state_inv _ _ _ _ _ Hst) as [_ Htr1].
    rewrite (set_normal_mode_run _ _ _ _ Hst), Hmode, Z.eqb_refl.
    now subst tr1.
  - intros fw_path tr r1 tr1 r2 tr2 Hp Hr1 Hs Hr2.
    destruct (set_normal_mode_returns tr2) as (r3 & tr3 & Hn & _).
    exists r3, tr3. split; [exact Hn|].
    exact (init_ar3012_last_stage fw_path _ _ _ _ _ _ _ Hp Hr1 Hs Hr2 Hn).
Qed.

(** C8: the version of a patch is read from its last 8 bytes, the ROM
    version from the bytes at [len-8, len-4) and the build version from
    the bytes at [len-4, len); two blobs with the same last 8 bytes have
    the same version, whatever comes before. *)
Theorem patch_version_in_trailer (fw : ath3k_firmware) (tr : trace) :
  fw_wf fw -> 8 <= len fw ->
  let trailer := skipn (Z.to_nat (len fw - 8)) (buf fw) in
  List.length trailer = 8%nat
  /\ ath3k_patch_version fw tr
     = Returns {| rom_version := u32_at host_big_endian (firstn 4 trailer) 0;
                  build_version := u32_at host_big_endian (skipn 4 trailer) 0;
                  ram_version := 0;
                  ref_clock := 0 |} tr
  /\ firstn 4 trailer
     = firstn 4 (skipn (Z.to_nat (len fw - 8)) (buf fw))
  /\ skipn 4 trailer = skipn (Z.to_nat (len fw - 4)) (buf fw)
  /\ (forall fw' : ath3k_firmware,
         fw_wf fw' -> 8 <= len fw' ->
         skipn (Z.to_nat (len fw' - 8)) (buf fw') = trailer ->
         ath3k_patch_version fw' tr = ath3k_patch_version fw tr).
Proof.
  intros Hwf H8 trailer.
  assert (Htail : forall f : ath3k_firmware,
             fw_wf f -> 8 <= len f ->
             skipn 4 (skipn (Z.to_nat (len f - 8)) (buf f))
             = skipn (Z.to_nat (len f - 4)) (buf f)
             /\ List.length (skipn (Z.to_nat (len f - 8)) (buf f)) = 8%nat).
  { intros f [Hl _] Hf. split.
    - rewrite skipn_skipn. f_equal. lia.
    - rewrite length_skipn. lia. }
  assert (Hrun : forall f : ath3k_firmware,
             fw_wf f -> 8 <= len f ->
             ath3k_patch_version f tr
             = Returns
                 {| rom_version :=
                      u32_at host_big_endian
                        (firstn 4 (skipn (Z.to_nat (len f - 8)) (buf f))) 0;
                    build_version :=
                      u32_at host_big_endian
                        (skipn 4 (skipn (Z.to_nat (len f - 8)) (buf f))) 0;
                    ram_version := 0;
                    ref_clock := 0 |} tr).
  { intros f Hf Hf8.
    destruct (Htail f Hf Hf8) as [Hsk Hlen8].
    rewrite patch_version_run by assumption.
    rewrite Hsk.
    replace (firstn 4 (skipn (Z.to_nat (len f - 4)) (buf f)))
      with (skipn (Z.to_nat (len f - 4)) (buf f)); [reflexivity|].
    symmetry. apply firstn_all2.
    destruct Hf as [Hl _]. rewrite length_skipn. lia. }
  destruct (Htail fw Hwf H8) as [Hsk Hlen8].
  refine (conj Hlen8 (conj (Hrun fw Hwf H8) (conj eq_refl (conj Hsk _)))).
  intros fw' Hwf' H8' Hsame.
  rewrite (Hrun fw' Hwf' H8'), (Hrun fw Hwf H8), Hsame. reflexivity.
Qed.

(** C9: in every AR3012 run that gets as far as the SWITCH_VID_PID
    request, [ath3k_init_ar3012] returns 0, whatever the device answers
    to that request and whatever [ath3k_switch_pid] returns. *)
Theorem init_ar3012_ignores_switch_result (fw_path : string) (tr : trace)
    (r1 : Z) (tr1 : trace) (r2 : Z) (tr2 : trace) (r3 : Z) (tr3 : trace) :
  ath3k_load_patch fw_path tr = Returns r1 tr1 -> 0 <= r1 ->
  ath3k_load_syscfg fw_path tr1 = Returns r2 tr2 -> 0 <= r2 ->
  ath3k_set_normal_mode tr2 = Returns r3 tr3 ->
  let reply := usb_control_reply (tr3 ++ [SWITCH_VID_PID_request]) in
  ath3k_switch_pid tr3
  = Returns (if fst reply <? 0 then 0 else Z.b2z (fst reply =? 0))
            (tr3 ++ [SWITCH_VID_PID_request])
  /\ ath3k_init_ar3012 fw_path tr
     = Returns 0 (tr3 ++ [SWITCH_VID_PID_request]).
Proof.
  intros Hp Hr1 Hs Hr2 Hn reply. split.
  - apply switch_pid_run.
  - exact (init_ar3012_last_stage fw_path _ _ _ _ _ _ _ Hp Hr1 Hs Hr2 Hn).
Qed.

(** C10: [ath3k_get_state] and [ath3k_get_version] return 1 when the
    transfer delivered the full length and 0 otherwise, also on an
    error of the transport; the result is never negative, so a caller's
    test [ret < 0] never holds. *)
Theorem queries_return_zero_or_one (state : byte) (version : list byte)
    (tr : trace) :
  (exists (r : Z) (s : byte),
      ath3k_get_state state tr = Returns (r, s) (tr ++ [GETSTATE_request])
      /\ (r = 0 \/ r = 1)
      /\ (r = 1 <-> fst (usb_control_reply (tr ++ [GETSTATE_request])) = 1)
      /\ (r <? 0) = false)
  /\ (exists (r : Z) (v : ath3k_version),
         ath3k_get_version version tr
         = Returns (r, v) (tr ++ [GETVERSION_request])
         /\ (r = 0 \/ r = 1)
         /\ (r = 1 <->
             fst (usb_control_reply (tr ++ [GETVERSION_request]))
             = sizeof_ath3k_version)
         /\ (r <? 0) = false).
Proof.
  assert (Hcase : forall ret n : Z,
             0 <= n ->
             let r := if ret <? 0 then 0 else Z.b2z (ret =? n) in
             (r = 0 \/ r = 1) /\ (r = 1 <-> ret = n) /\ (r <? 0) = false).
  { intros ret n Hn r. unfold r.
    destruct (Z.ltb_spec ret 0); destruct (Z.eqb_spec ret n); cbn;
      repeat split; intros; try lia; auto. }
  split.
  - rewrite get_state_run. cbv zeta. eexists _, _.
    split; [reflexivity | apply Hcase; lia].
  - rewrite get_version_run. cbv zeta. eexists _, _.
    split; [reflexivity | apply Hcase; unfold sizeof_ath3k_version; lia].
Qed.


(** *** More on the upload: one round at a time *)

Lemma bulk_accepted (tr : trace) (chunk : list byte) :
  transfer_accepted (tr ++ [BULK_request chunk])
  = negb ((fst (usb_bulk_reply (tr ++ [BULK_request chunk])) <? 0)
          || negb (snd (usb_bulk_reply (tr ++ [BULK_request chunk]))
                   =? Z.of_nat (List.length chunk))).
Proof.
  unfold transfer_accepted. rewrite last_last. unfold BULK_request.
  destruct (usb_bulk_reply _) as [r_ret r]. cbn [fst snd].
  destruct (Z.ltb_spec r_ret 0); destruct (Z.leb_spec 0 r_ret); try lia;
    destruct (r =? _); reflexivity.
Qed.

Lemma dnload_accepted (tr : trace) (hdr : list byte) :
  transfer_accepted (tr ++ [DNLOAD_request hdr])
  = (fst (usb_control_reply (tr ++ [DNLOAD_request hdr]))
     =? Z.of_nat (List.length hdr)).
Proof.
  unfold transfer_accepted. rewrite last_last. reflexivity.
Qed.

Lemma loop_done (fuel : nat) (fw : ath3k_firmware) (sent : Z) (tr : trace) :
  ath3k_load_fwfile_loop (S fuel) fw 0 sent tr = Returns 0 tr.
Proof. reflexivity. Qed.

(** One round of the loop: the next block goes out; the loop goes on
    when the device accepted it and ends with -1 when it did not. *)
Lemma loop_step (fw : ath3k_firmware) (fuel : nat) (count sent : Z)
    (tr : trace) :
  fw_wf fw -> 0 < BULK_SIZE ->
  0 < count -> 0 <= sent -> sent + count = len fw ->
  let size := Z.min count BULK_SIZE in
  let chunk := firstn (Z.to_nat size) (skipn (Z.to_nat sent) (buf fw)) in
  ath3k_load_fwfile_loop (S fuel) fw count sent tr
  = if transfer_accepted (tr ++ [BULK_request chunk])
    then ath3k_load_fwfile_loop fuel fw (count - size) (sent + size)
           (tr ++ [BULK_request chunk])
    else Returns (-1) (tr ++ [BULK_request chunk]).
Proof.
  intros [Hlen Hmax] Hbulk Hc Hs Hsum size chunk. unfold INT_MAX in Hmax.
  assert (Hsize : 0 < size <= count) by (unfold size; lia).
  assert (Hchunk : Z.of_nat (List.length chunk) = size).
  { unfold chunk. apply slice_length; lia. }
  cbn [ath3k_load_fwfile_loop].
  destruct (Z.eqb_spec count 0) as [Hz | _]; [lia|].
  rewrite XMIN_min. fold size.
  unfold bind at 1, read_buf.
  rewrite buf_slice_inside by lia. fold chunk.
  unfold ret at 1, bind at 1.
  assert (Hbt : libusb_bulk_transfer 2 chunk size tr
                = Returns (usb_bulk_reply (tr ++ [BULK_request chunk]))
                          (tr ++ [BULK_request chunk])).
  { rewrite <- Hchunk. apply bulk_transfer_run. }
  rewrite Hbt, bulk_accepted, Hchunk.
  destruct (usb_bulk_reply (tr ++ [BULK_request chunk])) as [r_ret r].
  cbn [fst snd].
  destruct ((r_ret <? 0) || negb (r =? size)); cbn [negb];
    [reflexivity|].
  rewrite !int32_small by lia. reflexivity.
Qed.

(** The first step of the upload: the header goes out. *)
Lemma load_fwfile_step (fw : ath3k_firmware) (tr : trace) :
  fw_wf fw -> 0 <= FW_HDR_SIZE ->
  let size := header_size (len fw) in
  let hdr := firstn (Z.to_nat size) (buf fw) in
  ath3k_load_fwfile fw tr
  = if transfer_accepted (tr ++ [DNLOAD_request hdr])
    then ath3k_load_fwfile_loop (S (Z.to_nat (len fw))) fw
           (len fw - size) size (tr ++ [DNLOAD_request hdr])
    else Returns (-1) (tr ++ [DNLOAD_request hdr]).
Proof.
  intros [Hlen Hmax] Hhdr size hdr. unfold INT_MAX in Hmax.
  unfold header_size in size.
  assert (Hsize : 0 <= size <= len fw) by (unfold size; lia).
  assert (Hhl : Z.of_nat (List.length hdr) = size).
  { unfold hdr. rewrite length_firstn. lia. }
  unfold ath3k_load_fwfile. rewrite XMIN_min. fold size.
  unfold bind at 1, read_buf.
  rewrite buf_slice_inside by lia.
  change (skipn (Z.to_nat 0) (buf fw)) with (buf fw). fold hdr.
  unfold ret at 1, bind at 1.
  rewrite control_transfer_run.
  replace (UsbControl (Z.lor LIBUSB_REQUEST_TYPE_VENDOR LIBUSB_ENDPOINT_OUT)
             ATH3K_DNLOAD 0 0 hdr size)
    with (DNLOAD_request hdr)
    by (unfold DNLOAD_request; now rewrite Hhl).
  rewrite dnload_accepted, Hhl.
  destruct (usb_control_reply (tr ++ [DNLOAD_request hdr])) as [r_ret data].
  cbn [fst]. destruct (r_ret =? size); cbn [negb]; [|reflexivity].
  rewrite !int32_small by lia. reflexivity.
Qed.

(** A block of the loop is the next [BULK_SIZE] bytes, or what is left
    of the buffer. *)
Lemma next_block (fw : ath3k_firmware) (count sent : Z) :
  fw_wf fw -> 0 < BULK_SIZE ->
  0 < count -> 0 <= sent -> sent + count = len fw ->
  firstn (Z.to_nat (Z.min count BULK_SIZE)) (skipn (Z.to_nat sent) (buf fw))
  = firstn (Z.to_nat BULK_SIZE) (skipn (Z.to_nat sent) (buf fw)).
Proof.
  intros [Hlen _] Hbulk Hc Hs Hsum.
  destruct (Z.le_gt_cases BULK_SIZE count) as [Hle | Hgt].
  - now rewrite Z.min_r by lia.
  - rewrite Z.min_l by lia.
    rewrite !firstn_all2; try reflexivity; rewrite length_skipn; lia.
Qed.

Lemma loop_layout (fw : ath3k_firmware) :
  fw_wf fw -> 0 < BULK_SIZE ->
  forall (fuel : nat) (count sent : Z) (tr : trace),
    0 <= count -> 0 <= sent -> sent + count = len fw ->
    (Z.to_nat count < fuel)%nat ->
    exists (r : Z) (blocks : list (list byte)),
      ath3k_load_fwfile_loop fuel fw count sent tr
      = Returns r (tr ++ map BULK_request blocks)
      /\ (count = 0 -> blocks = [])
      /\ (forall i : nat,
             (i < List.length blocks)%nat ->
             nth i blocks []
             = firstn (Z.to_nat BULK_SIZE)
                 (skipn (Z.to_nat sent + i * Z.to_nat BULK_SIZE) (buf fw))).
Proof.
  intros Hwf Hbulk.
  induction fuel as [|fuel IH]; intros count sent tr Hc Hs Hsum Hfuel.
  - lia.
  - destruct (Z.eq_dec count 0) as [Hz | Hnz].
    + subst count. rewrite loop_done. exists 0, [].
      cbn [map List.length]. rewrite app_nil_r.
      repeat split. intros i Hi. lia.
    + rewrite (loop_step fw fuel count sent tr) by (assumption || lia).
      rewrite next_block by (assumption || lia).
      set (chunk := firstn (Z.to_nat BULK_SIZE)
                      (skipn (Z.to_nat sent) (buf fw))).
      destruct (transfer_accepted (tr ++ [BULK_request chunk])).
      * destruct (IH (count - Z.min count BULK_SIZE)
                    (sent + Z.min count BULK_SIZE)
                    (tr ++ [BULK_request chunk]))
          as (r & blocks & Hrun & Hnil & Hnth); try lia.
        exists r, (chunk :: blocks). rewrite Hrun, <- app_assoc.
        split; [reflexivity|]. split; [lia|].
        intros [|i] Hi.
        -- cbn [nth]. rewrite Nat.add_0_r. reflexivity.
        -- cbn [nth]. cbn [List.length] in Hi.
           destruct (Z.min_spec count BULK_SIZE) as [[Hlt Hmin] | [Hge Hmin]].
           ++ rewrite Hmin in Hnil. rewrite Hnil in Hi by lia.
              cbn [List.length] in Hi. lia.
           ++ rewrite Hnth by lia. rewrite Hmin. do 2 f_equal. lia.
      * exists (-1), [chunk]. cbn [map]. split; [reflexivity|].
        split; [lia|]. intros [|i] Hi; cbn [List.length] in Hi; [|lia].
        cbn [nth]. rewrite Nat.add_0_r. reflexivity.
Qed.

Lemma loop_first_failure (fw : ath3k_firmware) :
  fw_wf fw -> 0 < BULK_SIZE ->
  forall (fuel : nat) (count sent : Z) (tr : trace),
    0 <= count -> 0 <= sent -> sent + count = len fw ->
    (Z.to_nat count < fuel)%nat ->
    exists (r : Z) (evs : list event),
      ath3k_load_fwfile_loop fuel fw count sent tr = Returns r (tr ++ evs)
      /\ (forall k : nat,
             (0 < k < List.length evs)%nat ->
             transfer_accepted (tr ++ firstn k evs) = true)
      /\ (evs = [] -> r = 0)
      /\ (evs <> [] -> (r = 0 <-> transfer_accepted (tr ++ evs) = true))
      /\ (r = 0 \/ r = -1).
Proof.
  intros Hwf Hbulk.
  induction fuel as [|fuel IH]; intros count sent tr Hc Hs Hsum Hfuel.
  - lia.
  - destruct (Z.eq_dec count 0) as [Hz | Hnz].
    + subst count. rewrite loop_done. exists 0, [].
      rewrite app_nil_r.
      refine (conj eq_refl (conj _ (conj _ (conj _ _)))).
      * intros k Hk. cbn [List.length] in Hk. lia.
      * reflexivity.
      * intros Hne. now contradiction Hne.
      * now left.
    + rewrite (loop_step fw fuel count sent tr) by (assumption || lia).
      set (e := BULK_request _).
      destruct (transfer_accepted (tr ++ [e])) eqn:Hacc.
      * destruct (IH (count - Z.min count BULK_SIZE)
                    (sent + Z.min count BULK_SIZE) (tr ++ [e]))
          as (r & evs & Hrun & Hbefore & Hnil & Hlast & Hr); try lia.
        exists r, (e :: evs). rewrite Hrun, <- app_assoc.
        refine (conj eq_refl (conj _ (conj _ (conj _ Hr)))).
        -- intros [|k] Hk; [lia|]. cbn [List.length] in Hk.
           cbn [firstn].
           change (tr ++ e :: firstn k evs)
             with (tr ++ [e] ++ firstn k evs).
           rewrite app_assoc.
           destruct k as [|k]; [now rewrite app_nil_r|].
           apply Hbefore. lia.
        -- intros Habs; discriminate Habs.
        -- intros _.
           change (tr ++ e :: evs) with (tr ++ [e] ++ evs).
           rewrite app_assoc.
           destruct evs as [|e' evs].
           ++ rewrite app_nil_r, Hacc. rewrite (Hnil eq_refl).
              split; reflexivity.
           ++ apply Hlast. discriminate.
      * exists (-1), [e].
        refine (conj eq_refl (conj _ (conj _ (conj _ _)))).
        -- intros k Hk. cbn [List.length] in Hk. lia.
        -- intros Habs; discriminate Habs.
        -- intros _. rewrite Hacc. split; intros Habs; discriminate Habs.
        -- now right.
Qed.


(** *** Further properties of the upload *)

(** X1: the bulk transfers of an upload carry consecutive blocks of
    exactly [BULK_SIZE] bytes of the blob, starting right after the
    header; only the block that reaches the end of the blob may be
    shorter.  This holds for every block that is sent, also in an upload
    that fails later. *)
Theorem load_fwfile_block_layout (fw : ath3k_firmware) (tr : trace) :
  fw_wf fw -> 0 <= FW_HDR_SIZE -> 0 < BULK_SIZE ->
  let header := firstn (Z.to_nat (header_size (len fw))) (buf fw) in
  exists (r : Z) (blocks : list (list byte)),
    ath3k_load_fwfile fw tr
    = Returns r (tr ++ DNLOAD_request header :: map BULK_request blocks)
    /\ forall i : nat,
         (i < List.length blocks)%nat ->
         nth i blocks []
         = firstn (Z.to_nat BULK_SIZE)
             (skipn (Z.to_nat (header_size (len fw))
                     + i * Z.to_nat BULK_SIZE) (buf fw)).
Proof.
  intros Hwf Hhdr Hbulk header.
  pose proof Hwf as [Hlen Hmax].
  rewrite load_fwfile_step by assumption. fold header.
  destruct (transfer_accepted (tr ++ [DNLOAD_request header])).
  - destruct (loop_layout fw Hwf Hbulk (S (Z.to_nat (len fw)))
                (len fw - header_size (len fw)) (header_size (len fw))
                (tr ++ [DNLOAD_request header]))
      as (r & blocks & Hrun & _ & Hnth); try (unfold header_size; lia).
    exists r, blocks. rewrite Hrun, <- app_assoc. split; [reflexivity|].
    exact Hnth.
  - exists (-1), []. split; [reflexivity|].
    intros i Hi. cbn [List.length] in Hi. lia.
Qed.

(** X2: an upload stops at the first transfer that the device does not
    accept in full.  Every transfer of the upload but the last one was
    accepted, and the upload returns 0 exactly when the last one was
    accepted too; so after a failure nothing more is sent and no
    transfer is repeated. *)
Theorem load_fwfile_stops_at_first_failure (fw : ath3k_firmware)
    (tr : trace) :
  fw_wf fw -> 0 <= FW_HDR_SIZE -> 0 < BULK_SIZE ->
  exists (r : Z) (evs : list event),
    ath3k_load_fwfile fw tr = Returns r (tr ++ evs)
    /\ evs <> []
    /\ (forall k : nat,
           (0 < k < List.length evs)%nat ->
           transfer_accepted (tr ++ firstn k evs) = true)
    /\ (r = 0 <-> transfer_accepted (tr ++ evs) = true)
    /\ (r = -1 <-> transfer_accepted (tr ++ evs) = false).
Proof.
  intros Hwf Hhdr Hbulk.
  pose proof Hwf as [Hlen Hmax].
  rewrite load_fwfile_step by assumption.
  set (e := DNLOAD_request _).
  destruct (transfer_accepted (tr ++ [e])) eqn:Hacc.
  - destruct (loop_first_failure fw Hwf Hbulk (S (Z.to_nat (len fw)))
                (len fw - header_size (len fw)) (header_size (len fw))
                (tr ++ [e]))
      as (r & evs & Hrun & Hbefore & Hnil & Hlast & Hr);
      try (unfold header_size; lia).
    exists r, (e :: evs). rewrite Hrun, <- app_assoc.
    assert (Hzero : r = 0 <-> transfer_accepted (tr ++ e :: evs) = true).
    { change (tr ++ e :: evs) with (tr ++ [e] ++ evs).
      rewrite app_assoc. destruct evs as [|e' evs].
      - rewrite app_nil_r, Hacc, (Hnil eq_refl). split; reflexivity.
      - apply Hlast. discriminate. }
    refine (conj eq_refl (conj _ (conj _ (conj Hzero _)))).
    + discriminate.
    + intros [|k] Hk; [lia|]. cbn [List.length] in Hk. cbn [firstn].
      change (tr ++ e :: firstn k evs) with (tr ++ [e] ++ firstn k evs).
      rewrite app_assoc.
      destruct k as [|k]; [now rewrite app_nil_r|].
      apply Hbefore. lia.
    + destruct (transfer_accepted (tr ++ e :: evs));
        destruct Hr as [-> | ->]; destruct Hzero as [H1 H2];
        split; intros Hyp; try reflexivity; try discriminate;
        try (discriminate (H1 eq_refl)); try (discriminate (H2 eq_refl)).
  - exists (-1), [e].
    refine (conj eq_refl (conj _ (conj _ (conj _ _)))).
    + discriminate.
    + intros k Hk. cbn [List.length] in Hk. lia.
    + rewrite Hacc. split; intros Habs; discriminate Habs.
    + rewrite Hacc. split; reflexivity.
Qed.

(** X3: a blob that is not longer than the header, the empty blob
    among them, is uploaded in one DNLOAD control transfer that carries
    all of it; no bulk transfer follows, and the result tells whether the
    device accepted that transfer. *)
Theorem load_fwfile_small_blob (fw : ath3k_firmware) (tr : trace) :
  fw_wf fw -> len fw <= FW_HDR_SIZE ->
  ath3k_load_fwfile fw tr
  = Returns (if transfer_accepted (tr ++ [DNLOAD_request (buf fw)])
             then 0 else -1)
            (tr ++ [DNLOAD_request (buf fw)]).
Proof.
  intros Hwf Hsmall. pose proof Hwf as [Hlen Hmax].
  rewrite load_fwfile_step by (assumption || lia).
  unfold header_size. rewrite Z.min_l by lia.
  rewrite firstn_all2 by lia. rewrite Z.sub_diag, loop_done.
  destruct (transfer_accepted _); reflexivity.
Qed.


(** *** Further properties of the stages *)

Lemma upload_events_are_transfers (hdr : list byte)
    (blocks : list (list byte)) :
  existsb is_fw_read (DNLOAD_request hdr :: map BULK_request blocks) = false
  /\ existsb is_fw_free (DNLOAD_request hdr :: map BULK_request blocks)
     = false.
Proof.
  cbn [existsb DNLOAD_request is_fw_read is_fw_free orb].
  induction blocks as [|b blocks [IHr IHf]]; split; try reflexivity;
    cbn [map existsb BULK_request is_fw_read is_fw_free orb]; assumption.
Qed.

(** What follows a file that was read: the upload, then the free. *)
Lemma upload_then_free (fw : ath3k_firmware) (tr : trace) :
  fw_wf fw -> 0 <= FW_HDR_SIZE -> 0 < BULK_SIZE ->
  exists (r : Z) (evs : list event),
    ath3k_load_fwfile fw tr = Returns r (tr ++ evs)
    /\ (r <- ath3k_load_fwfile fw ;; ath3k_fw_free fw ;;; ret r) tr
       = Returns r (tr ++ evs ++ [FwFree (fwname fw)])
    /\ (r <- ath3k_load_fwfile fw ;; ath3k_fw_free fw ;;; ret 0) tr
       = Returns 0 (tr ++ evs ++ [FwFree (fwname fw)])
    /\ existsb is_fw_read evs = false
    /\ existsb is_fw_free evs = false
    /\ (r = 0 \/ r = -1).
Proof.
  intros Hwf Hhdr Hbulk.
  destruct (load_fwfile_run fw tr Hwf Hhdr Hbulk)
    as (r & blocks & Hrun & _ & _ & Hr & _).
  destruct (upload_events_are_transfers
              (firstn (Z.to_nat (header_size (len fw))) (buf fw)) blocks)
    as [Hnr Hnf].
  eexists r, _. split; [exact Hrun|].
  unfold bind, ath3k_fw_free, emit, ret. rewrite Hrun.
  rewrite <- !app_assoc.
  refine (conj eq_refl (conj eq_refl (conj Hnr (conj Hnf Hr)))).
Qed.

Lemma patch_version_short (fw : ath3k_firmware) (tr : trace) :
  fw_wf fw -> len fw < 8 ->
  ath3k_patch_version fw tr = Faults OutOfBounds tr.
Proof.
  intros [Hlen _] Hshort.
  unfold ath3k_patch_version, bind, read_buf, buf_slice.
  destruct (Z.leb_spec 0 (len fw - 8)); [lia|]. reflexivity.
Qed.

(** X4: when the firmware file cannot be read, the stage ends there
    with -1: the read is its last event, no transfer of the upload is
    sent and nothing is freed.  This holds for the patch stage, the
    syscfg stage and the legacy plan. *)
Theorem unreadable_file_ends_stage (fw_path : string) (tr : trace)
    (r1 : Z) (s : byte) (tr1 : trace)
    (r2 : Z) (dev : ath3k_version) (tr2 : trace) :
  ath3k_get_state (local_state tr) tr = Returns (r1, s) tr1 ->
  ath3k_get_version (local_version tr) tr1 = Returns (r2, dev) tr2 ->
  (Z.land (byte_val s) ATH3K_PATCH_UPDATE = 0 ->
   fst (ath3k_fw_read (patch_filename fw_path dev)) <= 0 ->
   ath3k_load_patch fw_path tr
   = Returns (-1) (tr2 ++ [FwRead (patch_filename fw_path dev)]))
  /\ (fst (ath3k_fw_read (syscfg_filename fw_path dev)) <= 0 ->
      ath3k_load_syscfg fw_path tr
      = Returns (-1) (tr2 ++ [FwRead (syscfg_filename fw_path dev)]))
  /\ (fst (ath3k_fw_read
             (snprintf FILENAME_MAX (fw_path ++ "/ath3k-1.fw"))) <= 0 ->
      ath3k_init_firmware fw_path tr
      = Returns (-1)
          (tr ++ [FwRead (snprintf FILENAME_MAX (fw_path ++ "/ath3k-1.fw"))])).
Proof.
  intros Hst Hver. split; [|split].
  - intros Hflag Hread.
    rewrite (load_patch_read fw_path _ _ _ _ _ _ _ Hst Hflag Hver).
    destruct (ath3k_fw_read (patch_filename fw_path dev)) as [r fw].
    cbn [fst] in Hread. destruct (Z.leb_spec r 0); [reflexivity | lia].
  - intros Hread.
    rewrite (load_syscfg_read fw_path _ _ _ _ _ _ _ Hst Hver).
    destruct (ath3k_fw_read (syscfg_filename fw_path dev)) as [r fw].
    cbn [fst] in Hread. destruct (Z.leb_spec r 0); [reflexivity | lia].
  - intros Hread. unfold ath3k_init_firmware.
    unfold bind at 1, fw_read. unfold bind at 1, emit, ret at 1.
    destruct (ath3k_fw_read _) as [r fw].
    cbn [fst] in Hread. destruct (Z.leb_spec r 0); [reflexivity | lia].
Qed.

(** X5: a blob that was read is freed exactly once, as the last thing
    the stage does, whether the patch is rejected, the upload fails or
    the upload goes through; between the read and the free there are
    only the transfers of the upload. *)
Theorem blob_freed_once_at_the_end (fw_path : string) (tr : trace)
    (r1 : Z) (s : byte) (tr1 : trace)
    (r2 : Z) (dev : ath3k_version) (tr2 : trace) :
  0 <= FW_HDR_SIZE -> 0 < BULK_SIZE ->
  ath3k_get_state (local_state tr) tr = Returns (r1, s) tr1 ->
  ath3k_get_version (local_version tr) tr1 = Returns (r2, dev) tr2 ->
  let freed_once (name : string) (min_len : Z) (run : outcome Z)
                 (before : trace) :=
    forall (r3 : Z) (fw : ath3k_firmware),
      ath3k_fw_read name = (r3, fw) -> 0 < r3 ->
      fw_wf fw -> min_len <= len fw ->
      exists (r : Z) (evs : list event),
        run = Returns r (before ++ FwRead name :: evs ++ [FwFree (fwname fw)])
        /\ existsb is_fw_read evs = false
        /\ existsb is_fw_free evs = false in
  (Z.land (byte_val s) ATH3K_PATCH_UPDATE = 0 ->
   freed_once (patch_filename fw_path dev) 8
     (ath3k_load_patch fw_path tr) tr2)
  /\ freed_once (syscfg_filename fw_path dev) 0
       (ath3k_load_syscfg fw_path tr) tr2
  /\ freed_once (snprintf FILENAME_MAX (fw_path ++ "/ath3k-1.fw")) 0
       (ath3k_init_firmware fw_path tr) tr.
Proof.
  intros Hhdr Hbulk Hst Hver freed_once. unfold freed_once.
  split; [|split].
  - intros Hflag r3 fw Hread Hr3 Hwf H8.
    rewrite (load_patch_read fw_path _ _ _ _ _ _ _ Hst Hflag Hver), Hread.
    destruct (Z.leb_spec r3 0); [lia|].
    unfold bind at 1. rewrite patch_version_run by assumption.
    destruct (patch_mismatch _ dev).
    + exists (-1), []. unfold bind, ath3k_fw_free, emit, ret.
      rewrite <- app_assoc.
      split; [reflexivity | split; reflexivity].
    + destruct (upload_then_free fw
                  (tr2 ++ [FwRead (patch_filename fw_path dev)])
                  Hwf Hhdr Hbulk)
        as (r & evs & _ & Hrun & _ & Hnr & Hnf & _).
      exists r, evs. rewrite Hrun, <- app_assoc.
      split; [reflexivity | split; assumption].
  - intros r3 fw Hread Hr3 Hwf _.
    rewrite (load_syscfg_read fw_path _ _ _ _ _ _ _ Hst Hver), Hread.
    destruct (Z.leb_spec r3 0); [lia|].
    destruct (upload_then_free fw
                (tr2 ++ [FwRead (syscfg_filename fw_path dev)])
                Hwf Hhdr Hbulk)
      as (r & evs & _ & Hrun & _ & Hnr & Hnf & _).
    exists r, evs. rewrite Hrun, <- app_assoc.
    split; [reflexivity | split; assumption].
  - intros r3 fw Hread Hr3 Hwf _.
    unfold ath3k_init_firmware.
    unfold bind at 1, fw_read. unfold bind at 1, emit, ret at 1.
    rewrite Hread. destruct (Z.leb_spec r3 0); [lia|].
    destruct (upload_then_free fw
                (tr ++ [FwRead (snprintf FILENAME_MAX
                                  (fw_path ++ "/ath3k-1.fw"))])
                Hwf Hhdr Hbulk)
      as (r & evs & _ & _ & Hrun & Hnr & Hnf & _).
    exists 0, evs. rewrite Hrun, <- app_assoc.
    split; [reflexivity | split; assumption].
Qed.

(** X6: a patch file of fewer than 8 bytes makes the patch stage read
    its version from before the start of the buffer: the stage does not
    check the length that [ath3k_fw_read] reported. *)
Theorem short_patch_read_out_of_bounds (fw_path : string) (tr : trace)
    (r1 : Z) (s : byte) (tr1 : trace)
    (r2 : Z) (dev : ath3k_version) (tr2 : trace)
    (r3 : Z) (fw : ath3k_firmware) :
  ath3k_get_state (local_state tr) tr = Returns (r1, s) tr1 ->
  Z.land (byte_val s) ATH3K_PATCH_UPDATE = 0 ->
  ath3k_get_version (local_version tr) tr1 = Returns (r2, dev) tr2 ->
  ath3k_fw_read (patch_filename fw_path dev) = (r3, fw) ->
  0 < r3 -> fw_wf fw -> len fw < 8 ->
  ath3k_load_patch fw_path tr
  = Faults OutOfBounds (tr2 ++ [FwRead (patch_filename fw_path dev)]).
Proof.
  intros Hst Hflag Hver Hread Hr3 Hwf Hshort.
  rewrite (load_patch_read fw_path _ _ _ _ _ _ _ Hst Hflag Hver), Hread.
  destruct (Z.leb_spec r3 0); [lia|].
  unfold bind at 1. now rewrite patch_version_short.
Qed.

(** X7: the syscfg stage uploads whatever file it read: it looks
    neither at the state byte it asked for nor at the content or the
    length of the blob, and it returns the result of the upload. *)
Theorem load_syscfg_uploads_unconditionally (fw_path : string) (tr : trace)
    (r1 : Z) (s : byte) (tr1 : trace)
    (r2 : Z) (dev : ath3k_version) (tr2 : trace)
    (r3 : Z) (fw : ath3k_firmware) :
  0 <= FW_HDR_SIZE -> 0 < BULK_SIZE ->
  ath3k_get_state (local_state tr) tr = Returns (r1, s) tr1 ->
  ath3k_get_version (local_version tr) tr1 = Returns (r2, dev) tr2 ->
  ath3k_fw_read (syscfg_filename fw_path dev) = (r3, fw) ->
  0 < r3 -> fw_wf fw ->
  exists (r : Z) (evs : list event),
    ath3k_load_fwfile fw (tr2 ++ [FwRead (syscfg_filename fw_path dev)])
    = Returns r (tr2 ++ [FwRead (syscfg_filename fw_path dev)] ++ evs)
    /\ existsb is_dnload evs = true
    /\ ath3k_load_syscfg fw_path tr
       = Returns r (tr2 ++ [FwRead (syscfg_filename fw_path dev)] ++ evs
                        ++ [FwFree (fwname fw)]).
Proof.
  intros Hhdr Hbulk Hst Hver Hread Hr3 Hwf.
  rewrite (load_syscfg_read fw_path _ _ _ _ _ _ _ Hst Hver), Hread.
  destruct (Z.leb_spec r3 0); [lia|].
  destruct (load_fwfile_run fw
              (tr2 ++ [FwRead (syscfg_filename fw_path dev)])
              Hwf Hhdr Hbulk)
    as (r & blocks & Hrun & _).
  eexists r, (_ :: _). rewrite Hrun.
  unfold bind, ath3k_fw_free, emit, ret. rewrite Hrun.
  rewrite <- !app_assoc. cbn [app].
  refine (conj eq_refl (conj _ eq_refl)).
  unfold DNLOAD_request. cbn [existsb is_dnload].
  rewrite !Z.eqb_refl. reflexivity.
Qed.


Lemma load_patch_returns (fw_path : string) (tr : trace) :
  0 <= FW_HDR_SIZE -> 0 < BULK_SIZE -> files_ok 8 ->
  exists (r : Z) (tr' : trace),
    ath3k_load_patch fw_path tr = Returns r tr' /\ (r = 0 \/ r = -1).
Proof.
  intros Hhdr Hbulk Hfiles.
  pose proof (get_state_run (local_state tr) tr) as Hst. cbv zeta in Hst.
  set (s := nth 0 _ _) in Hst.
  destruct (Z.eq_dec (Z.land (byte_val s) ATH3K_PATCH_UPDATE) 0)
    as [Hflag | Hflag].
  - pose proof (get_version_run (local_version tr)
                  (tr ++ [GETSTATE_request])) as Hver.
    cbv zeta in Hver.
    rewrite (load_patch_read fw_path _ _ _ _ _ _ _ Hst Hflag Hver).
    set (dev := version_of_bytes _ _).
    destruct (ath3k_fw_read (patch_filename fw_path dev)) as [r3 fw] eqn:Hread.
    destruct (Z.leb_spec r3 0); [eexists _, _; split; [reflexivity | now right]|].
    destruct (Hfiles _ _ _ Hread) as [Hwf H8]; [lia|].
    unfold bind at 1. rewrite patch_version_run by assumption.
    destruct (patch_mismatch _ dev).
    + eexists _, _. split; [reflexivity | now right].
    + destruct (upload_then_free fw
                  ((tr ++ [GETSTATE_request]) ++ [GETVERSION_request]
                   ++ [FwRead (patch_filename fw_path dev)])
                  Hwf Hhdr Hbulk)
        as (r & evs & _ & Hrun & _ & _ & _ & Hr).
      rewrite app_assoc in Hrun. rewrite Hrun. eexists _, _.
      split; [reflexivity | exact Hr].
  - rewrite (load_patch_skipped fw_path _ _ _ _ Hst Hflag).
    eexists _, _. split; [reflexivity | now left].
Qed.

Lemma load_syscfg_returns (fw_path : string) (tr : trace) :
  0 <= FW_HDR_SIZE -> 0 < BULK_SIZE -> files_ok 0 ->
  exists (r : Z) (tr' : trace),
    ath3k_load_syscfg fw_path tr = Returns r tr' /\ (r = 0 \/ r = -1).
Proof.
  intros Hhdr Hbulk Hfiles.
  pose proof (get_state_run (local_state tr) tr) as Hst. cbv zeta in Hst.
  pose proof (get_version_run (local_version tr)
                (tr ++ [GETSTATE_request])) as Hver.
  cbv zeta in Hver.
  rewrite (load_syscfg_read fw_path _ _ _ _ _ _ _ Hst Hver).
  set (dev := version_of_bytes _ _).
  destruct (ath3k_fw_read (syscfg_filename fw_path dev)) as [r3 fw] eqn:Hread.
  destruct (Z.leb_spec r3 0); [eexists _, _; split; [reflexivity | now right]|].
  destruct (Hfiles _ _ _ Hread) as [Hwf _]; [lia|].
  destruct (upload_then_free fw
              ((tr ++ [GETSTATE_request]) ++ [GETVERSION_request]
               ++ [FwRead (syscfg_filename fw_path dev)])
              Hwf Hhdr Hbulk)
    as (r & evs & _ & Hrun & _ & _ & _ & Hr).
  rewrite app_assoc in Hrun. rewrite Hrun. eexists _, _.
  split; [reflexivity | exact Hr].
Qed.

Lemma init_firmware_returns (file_prefix : string) (tr : trace) :
  0 <= FW_HDR_SIZE -> 0 < BULK_SIZE -> files_ok 0 ->
  exists (r : Z) (tr' : trace),
    ath3k_init_firmware file_prefix tr = Returns r tr'
    /\ (r = 0 \/ r = -1).
Proof.
  intros Hhdr Hbulk Hfiles.
  unfold ath3k_init_firmware.
  unfold bind at 1, fw_read. unfold bind at 1, emit, ret at 1.
  destruct (ath3k_fw_read _) as [r3 fw] eqn:Hread.
  destruct (Z.leb_spec r3 0); [eexists _, _; split; [reflexivity | now right]|].
  destruct (Hfiles _ _ _ Hread) as [Hwf _]; [lia|].
  destruct (upload_then_free fw
              (tr ++ [FwRead (snprintf FILENAME_MAX
                                (file_prefix ++ "/ath3k-1.fw"))])
              Hwf Hhdr Hbulk)
    as (r & evs & _ & _ & Hrun & _).
  rewrite Hrun. eexists _, _. split; [reflexivity | now left].
Qed.

Lemma init_ar3012_failed_patch (fw_path : string) (tr : trace) (r1 : Z)
    (tr1 : trace) :
  ath3k_load_patch fw_path tr = Returns r1 tr1 -> r1 < 0 ->
  ath3k_init_ar3012 fw_path tr = Returns r1 tr1.
Proof.
  intros Hp Hr1. unfold ath3k_init_ar3012. unfold bind at 1. rewrite Hp.
  destruct (Z.ltb_spec r1 0); [reflexivity | lia].
Qed.

Lemma init_ar3012_failed_syscfg (fw_path : string) (tr : trace) (r1 : Z)
    (tr1 : trace) (r2 : Z) (tr2 : trace) :
  ath3k_load_patch fw_path tr = Returns r1 tr1 -> 0 <= r1 ->
  ath3k_load_syscfg fw_path tr1 = Returns r2 tr2 -> r2 < 0 ->
  ath3k_init_ar3012 fw_path tr = Returns r2 tr2.
Proof.
  intros Hp Hr1 Hs Hr2. unfold ath3k_init_ar3012.
  unfold bind at 1. rewrite Hp.
  destruct (Z.ltb_spec r1 0); [lia|].
  unfold bind at 1. rewrite Hs.
  destruct (Z.ltb_spec r2 0); [reflexivity | lia].
Qed.

(** X8: [ath3k_set_normal_mode] returns 1 only when it sent
    SET_NORMAL_MODE and libusb reported 0 for it; it returns 0 both when
    the device already was in normal mode and when the request failed,
    and never a negative value. *)
Theorem set_normal_mode_result (tr : trace) :
  exists (r : Z) (tr' : trace),
    ath3k_set_normal_mode tr = Returns r tr'
    /\ (r = 0 \/ r = 1)
    /\ (r = 1 <->
        tr' = tr ++ [GETSTATE_request; SET_NORMAL_MODE_request]
        /\ fst (usb_control_reply tr') = 0).
Proof.
  pose proof (get_state_run (local_state tr) tr) as Hst. cbv zeta in Hst.
  rewrite (set_normal_mode_run _ _ _ _ Hst).
  destruct (Z.land _ ATH3K_MODE_MASK =? ATH3K_NORMAL_MODE).
  - eexists _, _. split; [reflexivity|]. split; [now left|].
    split; [discriminate|]. intros [Habs _].
    apply app_inv_head in Habs. discriminate Habs.
  - cbv zeta. rewrite <- app_assoc. cbn [app].
    set (tr' := tr ++ [GETSTATE_request; SET_NORMAL_MODE_request]).
    eexists _, _. split; [reflexivity|].
    destruct (Z.ltb_spec (fst (usb_control_reply tr')) 0);
      destruct (Z.eqb_spec (fst (usb_control_reply tr')) 0); cbn [Z.b2z];
      (split; [auto|]); split; try discriminate; try tauto; try lia;
      intros [_ Habs]; lia.
Qed.

(** X9: [ath3k_init_ar3012] stops at the first stage that returns a
    negative value and returns that value: after a failed patch stage
    there is no syscfg stage, and after a failed syscfg stage neither
    SET_NORMAL_MODE nor SWITCH_VID_PID is sent. *)
Theorem init_ar3012_stops_at_failed_stage (fw_path : string) (tr : trace)
    (r1 : Z) (tr1 : trace) :
  ath3k_load_patch fw_path tr = Returns r1 tr1 ->
  (r1 < 0 -> ath3k_init_ar3012 fw_path tr = Returns r1 tr1)
  /\ (0 <= r1 ->
      forall (r2 : Z) (tr2 : trace),
        ath3k_load_syscfg fw_path tr1 = Returns r2 tr2 -> r2 < 0 ->
        ath3k_init_ar3012 fw_path tr = Returns r2 tr2).
Proof.
  intros Hp. split.
  - intros Hr1. now apply init_ar3012_failed_patch.
  - intros Hr1 r2 tr2 Hs Hr2.
    now apply (init_ar3012_failed_syscfg fw_path tr r1 tr1).
Qed.

(** X10: when every file that can be read is a blob of at least 8
    bytes, both plans run to their end: no read leaves a buffer, the
    upload loop finishes, and [ath3k_init_ar3012] and
    [ath3k_init_firmware] return 0 or -1. *)
Theorem plans_return (fw_path : string) (tr : trace) :
  0 <= FW_HDR_SIZE -> 0 < BULK_SIZE -> files_ok 8 ->
  (exists (r : Z) (tr' : trace),
      ath3k_init_ar3012 fw_path tr = Returns r tr' /\ (r = 0 \/ r = -1))
  /\ (exists (r : Z) (tr' : trace),
         ath3k_init_firmware fw_path tr = Returns r tr'
         /\ (r = 0 \/ r = -1)).
Proof.
  intros Hhdr Hbulk Hfiles.
  assert (Hfiles0 : files_ok 0).
  { intros name r fw Hread Hr.
    destruct (Hfiles name r fw Hread Hr) as [Hwf H8]. split; [exact Hwf | lia]. }
  split; [|now apply init_firmware_returns].
  destruct (load_patch_returns fw_path tr Hhdr Hbulk Hfiles)
    as (r1 & tr1 & Hp & [-> | ->]).
  - destruct (load_syscfg_returns fw_path tr1 Hhdr Hbulk Hfiles0)
      as (r2 & tr2 & Hs & [-> | ->]).
    + destruct (set_normal_mode_returns tr2) as (r3 & tr3 & Hn & _).
      rewrite (init_ar3012_last_stage fw_path _ _ _ _ _ _ _ Hp
                 (Z.le_refl 0) Hs (Z.le_refl 0) Hn).
      eexists _, _. split; [reflexivity | now left].
    + rewrite (init_ar3012_failed_syscfg fw_path _ _ _ _ _ Hp
                 (Z.le_refl 0) Hs) by lia.
      eexists _, _. split; [reflexivity | now right].
  - rewrite (init_ar3012_failed_patch fw_path _ _ _ Hp) by lia.
    eexists _, _. split; [reflexivity | now right].
Qed.


(** *** File names and ROM versions *)

Lemma string_app_inv_head (p a b : string) :
  (p ++ a)%string = (p ++ b)%string -> a = b.
Proof.
  induction p as [|c p IH]; cbn; intros H; [exact H|].
  injection H as H. now apply IH.
Qed.

Lemma string_app_inv_tail (a b t : string) :
  String.length a = String.length b ->
  (a ++ t)%string = (b ++ t)%string -> a = b.
Proof.
  revert b. induction a as [|c a IH]; intros [|c' b] Hlen H;
    cbn in Hlen; try discriminate; [reflexivity|].
  cbn in H. injection H as -> H. f_equal. apply IH; [lia | exact H].
Qed.

Lemma hex_val_digit (d : Z) : 0 <= d < 16 -> hex_val (hex_digit d) = d.
Proof.
  intros Hd.
  assert (Hcases : d = 0 \/ d = 1 \/ d = 2 \/ d = 3 \/ d = 4 \/ d = 5
                   \/ d = 6 \/ d = 7 \/ d = 8 \/ d = 9 \/ d = 10 \/ d = 11
                   \/ d = 12 \/ d = 13 \/ d = 14 \/ d = 15) by lia.
  repeat (destruct Hcases as [-> | Hcases]; [reflexivity|]).
  subst d. reflexivity.
Qed.

Lemma nibble_mod (z : Z) (k : Z) :
  0 <= k -> Z.land (Z.shiftr z k) 15 = (z / 2 ^ k) mod 16.
Proof.
  intros Hk. rewrite Z.shiftr_div_pow2 by assumption.
  change 15 with (Z.ones 4). now rewrite Z.land_ones by lia.
Qed.

(** Reading back the eight digits of [%08x] gives the number. *)
Lemma hex08_value (z : Z) :
  0 <= z < 2 ^ 32 -> hex_value (list_ascii_of_string (hex08 z)) = z.
Proof.
  intros Hz. unfold hex08.
  rewrite list_ascii_of_string_of_list_ascii.
  cbn [map hex_value fold_left].
  rewrite !nibble_mod by lia.
  rewrite !hex_val_digit by (apply Z.mod_pos_bound; lia).
  change (2 ^ 0) with 1. rewrite Z.div_1_r.
  change (2 ^ 4) with 16. change (2 ^ 8) with (16 * 16).
  change (2 ^ 12) with (16 * (16 * 16)).
  change (2 ^ 16) with (16 * (16 * (16 * 16))).
  change (2 ^ 20) with (16 * (16 * (16 * (16 * 16)))).
  change (2 ^ 24) with (16 * (16 * (16 * (16 * (16 * 16))))).
  change (2 ^ 28) with (16 * (16 * (16 * (16 * (16 * (16 * 16)))))).
  rewrite <- !Z.div_div by lia.
  assert (Hdiv : forall a : Z,
             a = 16 * (a / 16) + a mod 16 /\ 0 <= a mod 16 < 16).
  { intros a. split; [apply Z.div_mod; lia | apply Z.mod_pos_bound; lia]. }
  destruct (Hdiv z) as [E0 B0]. remember (z / 16) as q1 eqn:Hq1.
  destruct (Hdiv q1) as [E1 B1]. remember (q1 / 16) as q2 eqn:Hq2.
  destruct (Hdiv q2) as [E2 B2]. remember (q2 / 16) as q3 eqn:Hq3.
  destruct (Hdiv q3) as [E3 B3]. remember (q3 / 16) as q4 eqn:Hq4.
  destruct (Hdiv q4) as [E4 B4]. remember (q4 / 16) as q5 eqn:Hq5.
  destruct (Hdiv q5) as [E5 B5]. remember (q5 / 16) as q6 eqn:Hq6.
  destruct (Hdiv q6) as [E6 B6]. remember (q6 / 16) as q7 eqn:Hq7.
  change (2 ^ 32) with 4294967296 in Hz.
  rewrite (Z.mod_small q7 16) by lia.
  lia.
Qed.

Lemma hex08_inj (a b : Z) :
  0 <= a < 2 ^ 32 -> 0 <= b < 2 ^ 32 -> hex08 a = hex08 b -> a = b.
Proof.
  intros Ha Hb Heq.
  rewrite <- (hex08_value a Ha), <- (hex08_value b Hb). now rewrite Heq.
Qed.

Lemma hex08_length (z : Z) : String.length (hex08 z) = 8%nat.
Proof. reflexivity. Qed.

Lemma clk_value_range (ref : Z) :
  clk_value ref = 26 \/ clk_value ref = 40 \/ clk_value ref = 19
  \/ clk_value ref = 0.
Proof.
  unfold clk_value.
  destruct (ref =? ATH3K_XTAL_FREQ_26M); [now left|].
  destruct (ref =? ATH3K_XTAL_FREQ_40M); [now right; left|].
  destruct (ref =? ATH3K_XTAL_FREQ_19P2); [now right; right; left|].
  now right; right; right.
Qed.

(** X11: the name of a firmware file tells the ROM version it was
    composed for, and for a syscfg file also the clock number: as long as
    the names fit the buffer, two devices get the same patch file only
    if their ROM versions are equal, and the same syscfg file only if
    their ROM versions and clock numbers are equal. *)
Theorem filenames_tell_versions (fw_path : string) (v1 v2 : ath3k_version) :
  0 <= rom_version v1 < 2 ^ 32 -> 0 <= rom_version v2 < 2 ^ 32 ->
  Z.of_nat (String.length fw_path) + 32 < FILENAME_MAX ->
  (patch_filename fw_path v1 = patch_filename fw_path v2 ->
   rom_version v1 = rom_version v2)
  /\ (syscfg_filename fw_path v1 = syscfg_filename fw_path v2 ->
      rom_version v1 = rom_version v2
      /\ clk_value (ref_clock v1) = clk_value (ref_clock v2)).
Proof.
  intros H1 H2 Hfit.
  assert (Hlen : forall a b c : string,
             String.length (a ++ b ++ c)
             = (String.length a + String.length b + String.length c)%nat).
  { intros a b c. induction a as [|x a IH]; cbn.
    - induction b as [|y b IHb]; cbn; [reflexivity | now rewrite IHb].
    - now rewrite IH. }
  split.
  - unfold patch_filename. intros Heq.
    rewrite !snprintf_fits in Heq
      by (rewrite (Hlen fw_path "/ar3k/AthrBT_0x"%string),
            (Hlen (hex08 _) ".dfu"%string ""%string), hex08_length;
          cbn [String.length]; lia).
    apply string_app_inv_head in Heq.
    apply (string_app_inv_head "/ar3k/AthrBT_0x") in Heq.
    apply string_app_inv_tail in Heq; [|now rewrite !hex08_length].
    now apply hex08_inj.
  - unfold syscfg_filename. intros Heq.
    assert (Hdec : forall c, (String.length (dec (clk_value c)) <= 2)%nat).
    { intros c. destruct (clk_value_range c) as [-> | [-> | [-> | ->]]];
        cbn; lia. }
    rewrite !snprintf_fits in Heq
      by (rewrite (Hlen fw_path "/ar3k/ramps_0x"%string),
            (Hlen (hex08 _) "_"%string),
            (Hlen (dec _) ".dfu"%string ""%string), hex08_length;
          cbn [String.length];
          match goal with |- context [dec (clk_value ?c)] =>
            pose proof (Hdec c) end; lia).
    apply string_app_inv_head in Heq.
    apply (string_app_inv_head "/ar3k/ramps_0x") in Heq.
    assert (Hsplit : forall a b s t : string,
               String.length a = String.length b ->
               (a ++ s)%string = (b ++ t)%string -> a = b /\ s = t).
    { intros a. induction a as [|x a IH]; intros [|y b] s t Hl Hst;
        cbn in Hl; try discriminate; [now split|].
      cbn in Hst. injection Hst as -> Hst.
      destruct (IH b s t) as [-> ->]; [lia | exact Hst | now split]. }
    destruct (Hsplit _ _ _ _ (eq_trans (hex08_length _)
                                (eq_sym (hex08_length _))) Heq)
      as [Hhex Hrest].
    split; [now apply hex08_inj|].
    destruct (clk_value_range (ref_clock v1)) as [E1 | [E1 | [E1 | E1]]];
      destruct (clk_value_range (ref_clock v2)) as [E2 | [E2 | [E2 | E2]]];
      rewrite E1, E2 in Hrest |- *; try reflexivity;
      cbn in Hrest; discriminate Hrest.
Qed.


(** *** Device names *)

Lemma uint_value_acc (d : Decimal.uint) :
  forall p : positive,
    Z.pos (Pos.of_uint_acc d p) = uint_value d (Z.pos p).
Proof.
  induction d; intros p; cbn [Pos.of_uint_acc uint_value];
    try reflexivity; rewrite IHd; f_equal; lia.
Qed.

Lemma uint_value_of_uint (d : Decimal.uint) :
  Z.of_N (Pos.of_uint d) = uint_value d 0.
Proof.
  induction d; cbn [Pos.of_uint uint_value]; try reflexivity;
    try (cbn [Z.of_N]; rewrite uint_value_acc; reflexivity).
  exact IHd.
Qed.

Lemma uint_value_to_uint (p : positive) :
  uint_value (Pos.to_uint p) 0 = Z.pos p.
Proof.
  rewrite <- uint_value_of_uint, DecimalPos.Unsigned.of_to. reflexivity.
Qed.

Lemma uint_value_grows (d : Decimal.uint) :
  forall acc : Z, 0 <= acc -> acc <= uint_value d acc.
Proof.
  induction d; intros acc Hacc; cbn [uint_value]; try lia;
    match goal with
    | |- _ <= uint_value _ ?a => specialize (IHd a); lia
    end.
Qed.

(** The overflow test of [strtoul] holds exactly when the next digit
    would take the value past [ULONG_MAX]. *)
Lemma strtoul_overflow_test (m acc d : Z) :
  0 <= m -> 0 <= acc -> 0 <= d <= 9 ->
  (acc >? m / 10) || ((acc =? m / 10) && (d >? m mod 10))
  = (m <? acc * 10 + d).
Proof.
  intros Hm Hacc Hd.
  pose proof (Z.div_mod m 10 ltac:(lia)) as Hdm.
  pose proof (Z.mod_pos_bound m 10 ltac:(lia)) as Hmod.
  destruct (Z.gtb_spec acc (m / 10)); destruct (Z.eqb_spec acc (m / 10));
    destruct (Z.gtb_spec d (m mod 10)); destruct (Z.ltb_spec m (acc * 10 + d));
    cbn; try reflexivity; lia.
Qed.

Lemma digit_of_range (c : ascii) (d : Z) :
  digit_of c = Some d -> 0 <= d <= 9.
Proof.
  unfold digit_of.
  destruct (Z.leb_spec 48 (char_code c)); destruct (Z.leb_spec (char_code c) 57);
    cbn; intros Hsome; try discriminate; injection Hsome as <-; lia.
Qed.

(** The digit loop reads a numeral of the standard library that does
    not overflow, up to the first character that is no digit. *)
Lemma strtoul_digits_numeral (m : Z) (rest : string) :
  0 <= m -> digit_of (c_peek rest) = None ->
  forall (d : Decimal.uint) (any acc : Z),
    0 <= any -> 0 <= acc -> uint_value d acc <= m ->
    strtoul_digits m (NilEmpty.string_of_uint d ++ rest) any acc
    = (match d with Decimal.Nil => any | _ => 1 end, uint_value d acc, rest).
Proof.
  intros Hm Hrest.
  assert (Hstep : forall (c : ascii) (k : Z) (l : Decimal.uint) (any acc : Z),
             digit_of c = Some k -> 0 <= any -> 0 <= acc ->
             uint_value l (acc * 10 + k) <= m ->
             (forall any' acc', 0 <= any' -> 0 <= acc' ->
                 uint_value l acc' <= m ->
                 strtoul_digits m (NilEmpty.string_of_uint l ++ rest) any' acc'
                 = (match l with Decimal.Nil => any' | _ => 1 end,
                    uint_value l acc', rest)) ->
             strtoul_digits m
               (String c (NilEmpty.string_of_uint l ++ rest)) any acc
             = (1, uint_value l (acc * 10 + k), rest)).
  { intros c k l any acc Hc Hany Hacc Hval IH.
    cbn [strtoul_digits]. rewrite Hc.
    pose proof (digit_of_range c k Hc) as Hk.
    pose proof (uint_value_grows l (acc * 10 + k) ltac:(lia)) as Hgrow.
    destruct (Z.ltb_spec any 0); [lia|]. cbn [orb].
    rewrite strtoul_overflow_test by lia.
    destruct (Z.ltb_spec m (acc * 10 + k)); [lia|].
    rewrite IH by lia. destruct l; reflexivity. }
  induction d; intros any acc Hany Hacc Hval;
    try (cbn [NilEmpty.string_of_uint append uint_value] in *;
         apply Hstep; [reflexivity | assumption .. ]).
  cbn [NilEmpty.string_of_uint append uint_value].
  destruct rest as [|c rest]; [reflexivity|].
  cbn [strtoul_digits]. cbn [c_peek] in Hrest. now rewrite Hrest.
Qed.

Lemma numeral_starts_with_digit (d : Decimal.uint) :
  d <> Decimal.Nil ->
  exists (c : ascii) (s : string),
    NilEmpty.string_of_uint d = String c s
    /\ isspace c = false
    /\ Ascii.eqb c "-" = false /\ Ascii.eqb c "+" = false.
Proof.
  intros Hd. destruct d; [contradiction | ..];
    eexists _, _; (split; [reflexivity | repeat split]).
Qed.

Lemma dec_numeral (x : Z) :
  0 <= x ->
  exists d : Decimal.uint,
    dec x = NilEmpty.string_of_uint d /\ d <> Decimal.Nil
    /\ uint_value d 0 = x.
Proof.
  intros Hx. unfold dec. destruct x as [|p|p]; [| |lia].
  - exists (Decimal.D0 Decimal.Nil). repeat split. discriminate.
  - exists (Pos.to_uint p). cbn [Z.to_int NilZero.string_of_int].
    pose proof (DecimalPos.Unsigned.to_uint_nonnil p) as Hnn.
    unfold NilZero.string_of_uint.
    destruct (Pos.to_uint p) eqn:E; try contradiction;
      (split; [reflexivity | split; [discriminate|]]);
      rewrite <- E; apply uint_value_to_uint.
Qed.

(** [strtoul] reads back a number that [%d] wrote, when what follows is
    no digit and the number fits an [unsigned long]. *)
Lemma strtoul_dec (x : Z) (rest : string) :
  0 <= x <= ULONG_MAX -> digit_of (c_peek rest) = None ->
  strtoul (dec x ++ rest) = (x, rest).
Proof.
  intros Hx Hrest.
  destruct (dec_numeral x) as (d & Hdec & Hnn & Hval); [lia|].
  destruct (numeral_starts_with_digit d Hnn)
    as (c & s & Hs & Hsp & Hminus & Hplus).
  unfold strtoul, strtoul10. rewrite Hdec.
  assert (Hskip : skip_space (NilEmpty.string_of_uint d ++ rest)
                  = (NilEmpty.string_of_uint d ++ rest)%string).
  { rewrite Hs. cbn [append skip_space]. now rewrite Hsp. }
  rewrite Hskip.
  assert (Hpeek : c_peek (NilEmpty.string_of_uint d ++ rest) = c).
  { rewrite Hs. reflexivity. }
  rewrite Hpeek, Hminus, Hplus. cbn [orb].
  rewrite strtoul_digits_numeral by (lia || assumption).
  rewrite Hval.
  destruct d; [contradiction | ..]; reflexivity.
Qed.

Lemma string_app_nil_r (s : string) : (s ++ "")%string = s.
Proof.
  induction s as [|c s IH]; cbn; [reflexivity | now rewrite IH].
Qed.

(** X12: [parse_ugen_name] reads a name [ugen<bus>.<addr>] written
    with two decimal numbers and stores each number modulo 256; what
    follows the second number decides the result, 0 at the end of the
    string and -1 otherwise, and in both cases the two numbers have
    been stored.  Numbers above 255 are not rejected. *)
Theorem parse_ugen_name_of_numbers (x y : Z) (rest : string) (bus addr : Z) :
  0 <= x <= ULONG_MAX -> 0 <= y <= ULONG_MAX ->
  digit_of (c_peek rest) = None ->
  parse_ugen_name ("ugen" ++ dec x ++ "." ++ dec y ++ rest) bus addr
  = (if Ascii.eqb (c_peek rest) NUL then 0 else -1, x mod 256, y mod 256).
Proof.
  intros Hx Hy Hrest. unfold parse_ugen_name.
  change (strncmp ("ugen" ++ dec x ++ "." ++ dec y ++ rest) "ugen" 4)
    with 0.
  change (c_skip 4 ("ugen" ++ dec x ++ "." ++ dec y ++ rest))
    with (dec x ++ "." ++ dec y ++ rest)%string.
  cbn [Z.eqb negb].
  rewrite (strtoul_dec x) by (assumption || reflexivity).
  change (c_peek ("." ++ dec y ++ rest)) with "."%char.
  rewrite Ascii.eqb_refl. cbn [negb].
  change (c_advance ("." ++ dec y ++ rest)) with (dec y ++ rest)%string.
  rewrite (strtoul_dec y) by assumption.
  unfold uint8. change (2 ^ 8) with 256.
  destruct (Ascii.eqb (c_peek rest) NUL); reflexivity.
Qed.


Lemma char_code_inj (a b : ascii) : char_code a = char_code b -> a = b.
Proof.
  unfold char_code. intros H. apply Nat2Z.inj in H.
  rewrite <- (ascii_nat_embedding a), <- (ascii_nat_embedding b).
  now rewrite H.
Qed.

Lemma strncmp_step (s1 s2 : string) (c : ascii) (n : nat) :
  c <> NUL ->
  strncmp s1 (String c s2) (S n) = 0 ->
  exists s1' : string, s1 = String c s1' /\ strncmp s1' s2 n = 0.
Proof.
  intros Hc. cbn [strncmp c_peek c_advance].
  destruct (Ascii.eqb_spec (c_peek s1) c) as [Heq | Hne]; cbn [negb].
  - rewrite Heq. destruct (Ascii.eqb_spec c NUL); [contradiction|].
    intros H. destruct s1 as [|c1 s1']; cbn [c_peek] in Heq.
    + now contradiction Hc.
    + exists s1'. subst c1. now split.
  - intros H. contradiction Hne. apply char_code_inj. lia.
Qed.

Lemma strncmp_ugen (ugen : string) :
  strncmp ugen "ugen" 4 = 0 ->
  exists rest : string, ugen = ("ugen" ++ rest)%string.
Proof.
  intros H.
  apply strncmp_step in H; [|discriminate]. destruct H as (s1 & -> & H).
  apply strncmp_step in H; [|discriminate]. destruct H as (s2 & -> & H).
  apply strncmp_step in H; [|discriminate]. destruct H as (s3 & -> & H).
  apply strncmp_step in H; [|discriminate]. destruct H as (s4 & -> & H).
  now exists s4.
Qed.

Lemma skip_space_suffix (s : string) :
  exists pre : string, s = (pre ++ skip_space s)%string.
Proof.
  induction s as [|c s [pre IH]]; [now exists ""%string|].
  cbn [skip_space]. destruct (isspace c).
  - exists (String c pre). cbn. now rewrite <- IH.
  - now exists ""%string.
Qed.

Lemma strtoul_digits_suffix (m : Z) (s : string) :
  forall any acc : Z,
    exists pre : string,
      s = (pre ++ snd (strtoul_digits m s any acc))%string.
Proof.
  induction s as [|c s IH]; intros any acc; [now exists ""%string|].
  cbn [strtoul_digits]. destruct (digit_of c); [|now exists ""%string].
  destruct ((any <? 0) || (acc >? m / 10)
            || ((acc =? m / 10) && (z >? m mod 10)));
    match goal with
    | |- context [strtoul_digits m s ?a ?b] =>
        destruct (IH a b) as [pre Hpre]
    end;
    exists (String c pre); cbn; now rewrite <- Hpre.
Qed.

(** What [strtoul] leaves in [ep] is the end of what it was given. *)
Lemma strtoul_suffix (nptr : string) :
  exists pre : string, nptr = (pre ++ snd (strtoul nptr))%string.
Proof.
  unfold strtoul, strtoul10.
  destruct (skip_space_suffix nptr) as [pre1 H1].
  set (s := skip_space nptr) in *.
  match goal with
  | |- context [if ?b then c_advance s else s] =>
      set (s' := if b then c_advance s else s)
  end.
  assert (H2 : exists pre2, s = (pre2 ++ s')%string).
  { unfold s'.
    match goal with
    | |- context [if ?b then _ else _] => destruct b
    end; [|now exists ""%string].
    destruct s as [|c s0]; [now exists ""%string|].
    now exists (String c ""). }
  destruct H2 as [pre2 H2].
  destruct (strtoul_digits_suffix ULONG_MAX s' 0 0) as [pre3 H3].
  destruct (strtoul_digits ULONG_MAX s' 0 0) as [[any acc] rest].
  cbn [snd] in H3.
  assert (Hall : nptr = ((pre1 ++ pre2 ++ pre3) ++ rest)%string).
  { rewrite H1, H2, H3 at 1. now rewrite !string_app_assoc. }
  destruct (any <? 0);
    [exists (pre1 ++ pre2 ++ pre3)%string; exact Hall|].
  destruct (any =? 0); [now exists ""%string|].
  destruct (Ascii.eqb (c_peek s) "-");
    exists (pre1 ++ pre2 ++ pre3)%string; exact Hall.
Qed.

(** X13: [parse_ugen_name] returns 0 only for a name that starts with
    [ugen] and has a dot after that; and when the name does not start
    with [ugen] it returns -1 and leaves the bus and the address as they
    were. *)
Theorem parse_ugen_name_shape (ugen : string) (bus addr : Z) :
  ((forall rest : string, ugen <> ("ugen" ++ rest)%string) ->
   parse_ugen_name ugen bus addr = (-1, bus, addr))
  /\ (fst (fst (parse_ugen_name ugen bus addr)) = 0 ->
      exists a b : string, ugen = ("ugen" ++ a ++ "." ++ b)%string).
Proof.
  unfold parse_ugen_name.
  destruct (Z.eqb_spec (strncmp ugen "ugen" 4) 0) as [Hpre | Hpre];
    cbn [negb].
  - destruct (strncmp_ugen ugen Hpre) as [rest ->]. split.
    + intros Hno. now contradiction (Hno rest).
    + change (c_skip 4 ("ugen" ++ rest)) with rest.
      destruct (strtoul_suffix rest) as [a Ha].
      destruct (strtoul rest) as [v ep]. cbn [snd] in Ha.
      destruct (Ascii.eqb_spec (c_peek ep) ".") as [Hdot | Hdot];
        cbn [negb fst]; [|discriminate].
      intros _. destruct ep as [|c b]; cbn [c_peek] in Hdot;
        [discriminate Hdot|].
      subst c. exists a, b. now rewrite Ha at 1.
  - split; [reflexivity | discriminate].
Qed.

(** *** Finding the device *)

Lemma find_device_loop_first (list : list usb_device) (bus dev : Z) :
  forall (todo i : nat),
    (i + todo = List.length list)%nat ->
    exists found : option nat,
      find_device_loop list bus dev todo i = Some found
      /\ match found with
         | Some k =>
             (i <= k < List.length list)%nat
             /\ (exists d, nth_error list k = Some d
                           /\ device_matches bus dev d = true)
             /\ (forall (j : nat) (d : usb_device),
                    (i <= j < k)%nat -> nth_error list j = Some d ->
                    device_matches bus dev d = false)
         | None =>
             forall (j : nat) (d : usb_device),
               (i <= j)%nat -> nth_error list j = Some d ->
               device_matches bus dev d = false
         end.
Proof.
  induction todo as [|todo IH]; intros i Hlen.
  - exists None. split; [reflexivity|].
    intros j d Hj Hnth.
    assert (j < List.length list)%nat
      by (apply nth_error_Some; congruence).
    lia.
  - cbn [find_device_loop].
    destruct (nth_error list i) as [d|] eqn:Hnth.
    + fold (device_matches bus dev d).
      destruct (device_matches bus dev d) eqn:Hm.
      * exists (Some i). split; [reflexivity|].
        refine (conj _ (conj _ _)); [lia | now exists d |].
        intros j d' Hj. lia.
      * destruct (IH (S i)) as (found & Hrun & Hfound); [lia|].
        exists found. split; [exact Hrun|].
        destruct found as [k|].
        -- destruct Hfound as (Hk & Hd & Hbefore).
           refine (conj _ (conj Hd _)); [lia|].
           intros j d' Hj Hnth'.
           destruct (Nat.eq_dec j i) as [-> | Hne].
           ++ congruence.
           ++ apply (Hbefore j); [lia | exact Hnth'].
        -- intros j d' Hj Hnth'.
           destruct (Nat.eq_dec j i) as [-> | Hne].
           ++ congruence.
           ++ apply (Hfound j); [lia | exact Hnth'].
    + apply nth_error_None in Hnth. lia.
Qed.

(** X14: [ath3k_find_device] returns the first device of the list
    that is at the given bus and address, after taking a reference to it
    and before freeing the list; it returns NULL when the list has no
    such device, and also, without freeing anything, when libusb could
    not list the devices. *)
Theorem find_device_first_match (bus dev : Z) (log : list main_event)
    (tr : trace) :
  (fst libusb_device_list < 0 ->
   ath3k_find_device bus dev log tr
   = Running None (log ++ [Sys LibusbGetDeviceList]) tr)
  /\ (fst libusb_device_list
      = Z.of_nat (List.length (snd libusb_device_list)) ->
      exists found : option nat,
        ath3k_find_device bus dev log tr
        = Running found
            (log ++ Sys LibusbGetDeviceList
                 :: match found with
                    | Some k => [Sys (LibusbRefDevice k)]
                    | None => []
                    end
                 ++ [Sys (LibusbFreeDeviceList 1)]) tr
        /\ match found with
           | Some k =>
               (exists d, nth_error (snd libusb_device_list) k = Some d
                          /\ device_matches bus dev d = true)
               /\ (forall (j : nat) (d : usb_device),
                      (j < k)%nat ->
                      nth_error (snd libusb_device_list) j = Some d ->
                      device_matches bus dev d = false)
           | None =>
               forall d : usb_device,
                 In d (snd libusb_device_list) ->
                 device_matches bus dev d = false
           end).
Proof.
  unfold ath3k_find_device, pbind, sys.
  destruct libusb_device_list as [cnt list]. cbn [fst snd].
  split.
  - intros Hneg. destruct (Z.ltb_spec cnt 0); [reflexivity | lia].
  - intros Hcnt. destruct (Z.ltb_spec cnt 0); [lia|].
    destruct (find_device_loop_first list bus dev (Z.to_nat cnt) 0)
      as (found & Hrun & Hfound); [lia|].
    exists found. rewrite Hrun. split.
    + destruct found as [k|]; unfold pret; rewrite <- !app_assoc;
        reflexivity.
    + destruct found as [k|].
      * destruct Hfound as (_ & Hd & Hbefore). split; [exact Hd|].
        intros j d Hj. apply Hbefore. lia.
      * intros d Hin. apply In_nth_error in Hin. destruct Hin as [j Hj].
        apply (Hfound j d); [lia | exact Hj].
Qed.


(** *** The process *)

Lemma grows_get_state (state : byte) : grows (ath3k_get_state state).
Proof.
  unfold ath3k_get_state.
  apply grows_bind; [apply grows_control | intros [r_ret data]].
  destruct (r_ret <? 0); apply grows_ret.
Qed.

Lemma grows_get_version (version : list byte) :
  grows (ath3k_get_version version).
Proof.
  unfold ath3k_get_version.
  apply grows_bind; [apply grows_control | intros [r_ret data]].
  destruct (r_ret <? 0); apply grows_ret.
Qed.

Lemma grows_upload_free (fw : ath3k_firmware) (k : Z -> Z) :
  grows (r <- ath3k_load_fwfile fw ;; ath3k_fw_free fw ;;; ret (k r)).
Proof.
  apply grows_bind; [apply grows_load_fwfile | intros r].
  apply grows_bind; [apply grows_fw_free | intros _; apply grows_ret].
Qed.

Lemma grows_load_patch (fw_path : string) : grows (ath3k_load_patch fw_path).
Proof.
  unfold ath3k_load_patch.
  apply grows_bind; [apply grows_history | intros entry].
  apply grows_bind; [apply grows_get_state | intros [r s]].
  destruct (r <? 0); [apply grows_ret|].
  destruct (negb _); [apply grows_ret|].
  apply grows_bind; [apply grows_get_version | intros [r2 dev]].
  destruct (r2 <? 0); [apply grows_ret|].
  apply grows_bind.
  { unfold fw_read. apply grows_bind; [apply grows_emit|].
    intros _. apply grows_ret. }
  intros [r3 fw]. destruct (r3 <=? 0); [apply grows_ret|].
  apply grows_bind.
  { unfold ath3k_patch_version.
    apply grows_bind; [apply grows_read_buf | intros rom].
    apply grows_bind; [apply grows_read_buf | intros build].
    apply grows_ret. }
  intros pt. destruct (patch_mismatch pt dev).
  - apply grows_bind; [apply grows_fw_free | intros _; apply grows_ret].
  - apply (grows_upload_free fw (fun r => r)).
Qed.

Lemma grows_load_syscfg (fw_path : string) :
  grows (ath3k_load_syscfg fw_path).
Proof.
  unfold ath3k_load_syscfg.
  apply grows_bind; [apply grows_history | intros entry].
  apply grows_bind; [apply grows_get_state | intros [r s]].
  destruct (r <? 0); [apply grows_ret|].
  apply grows_bind; [apply grows_get_version | intros [r2 dev]].
  destruct (r2 <? 0); [apply grows_ret|].
  apply grows_bind.
  { unfold fw_read. apply grows_bind; [apply grows_emit|].
    intros _. apply grows_ret. }
  intros [r3 fw]. destruct (r3 <=? 0); [apply grows_ret|].
  apply (grows_upload_free fw (fun r => r)).
Qed.

Lemma grows_set_normal_mode : grows ath3k_set_normal_mode.
Proof.
  unfold ath3k_set_normal_mode.
  apply grows_bind; [apply grows_history | intros entry].
  apply grows_bind; [apply grows_get_state | intros [r s]].
  destruct (r <? 0); [apply grows_ret|].
  destruct (_ =? ATH3K_NORMAL_MODE); [apply grows_ret|].
  apply grows_bind; [apply grows_control | intros [r_ret data]].
  destruct (r_ret <? 0); apply grows_ret.
Qed.

Lemma grows_switch_pid : grows ath3k_switch_pid.
Proof.
  unfold ath3k_switch_pid.
  apply grows_bind; [apply grows_control | intros [r_ret data]].
  destruct (r_ret <? 0); apply grows_ret.
Qed.

Lemma grows_init_ar3012 (fw_path : string) :
  grows (ath3k_init_ar3012 fw_path).
Proof.
  unfold ath3k_init_ar3012.
  apply grows_bind; [apply grows_load_patch | intros r1].
  destruct (r1 <? 0); [apply grows_ret|].
  apply grows_bind; [apply grows_load_syscfg | intros r2].
  destruct (r2 <? 0); [apply grows_ret|].
  apply grows_bind; [apply grows_set_normal_mode | intros r3].
  destruct (r3 <? 0); [apply grows_ret|].
  apply grows_bind; [apply grows_switch_pid | intros _; apply grows_ret].
Qed.

Lemma grows_init_firmware (file_prefix : string) :
  grows (ath3k_init_firmware file_prefix).
Proof.
  unfold ath3k_init_firmware.
  apply grows_bind.
  { unfold fw_read. apply grows_bind; [apply grows_emit|].
    intros _. apply grows_ret. }
  intros [r3 fw]. destruct (r3 <=? 0); [apply grows_ret|].
  apply (grows_upload_free fw (fun _ => 0)).
Qed.

(** A function of the protocol that runs inside the process adds to
    the log exactly what it adds to the trace. *)
Lemma core_run {A : Type} (m : M A) (log : list main_event) (tr : trace)
    (a : A) (evs : list event) :
  m tr = Returns a (tr ++ evs) ->
  core m log tr = Running a (log ++ map Usb evs) (tr ++ evs).
Proof.
  intros Hm. unfold core. rewrite Hm.
  rewrite skipn_app, skipn_all, Nat.sub_diag. reflexivity.
Qed.

(** The option loop leaves the log and the trace as they are; it ends
    in [exit(127)] or hands on the options. *)
Lemma getopt_loop_quiet (opts : list (Z * string)) :
  forall (o : options) (log : list main_event) (tr : trace),
    (exists o' : options, getopt_loop opts o log tr = Running o' log tr)
    \/ getopt_loop opts o log tr = Exited 127 log.
Proof.
  induction opts as [|[n optarg] opts IH]; intros o log tr.
  - left. now exists o.
  - cbn [getopt_loop].
    destruct (n =? char_code "d").
    { destruct (parse_ugen_name optarg (bus_id o) (dev_id o))
        as [[r bus] addr].
      destruct (r <? 0); [now right | apply IH]. }
    destruct (n =? char_code "f"); [apply IH|].
    destruct (n =? char_code "m"); [apply IH|].
    destruct (n =? char_code "p"); [apply IH|].
    destruct (n =? char_code "v"); [apply IH|].
    now right.
Qed.

Lemma getopt_loop_rejects (opts : list (Z * string)) :
  forall (o : options) (log : list main_event) (tr : trace),
    (exists opt : Z * string,
        In opt opts
        /\ (is_known_option opt = false
            \/ (fst opt = char_code "d"
                /\ forall b a : Z,
                     fst (fst (parse_ugen_name (snd opt) b a)) < 0))) ->
    getopt_loop opts o log tr = Exited 127 log.
Proof.
  induction opts as [|[n optarg] opts IH]; intros o log tr (opt & Hin & Hbad).
  - contradiction Hin.
  - assert (Htail : In opt opts ->
                    forall o', getopt_loop opts o' log tr = Exited 127 log).
    { intros Hin' o'. apply IH. now exists opt. }
    cbn [getopt_loop].
    destruct Hin as [<- | Hin].
    + destruct Hbad as [Hunknown | [Hd Hparse]].
      * unfold is_known_option in Hunknown. cbn [fst] in Hunknown.
        destruct (n =? char_code "d"); [discriminate|].
        destruct (n =? char_code "f"); [discriminate|].
        destruct (n =? char_code "m"); [discriminate|].
        destruct (n =? char_code "p"); [discriminate|].
        destruct (n =? char_code "v"); [discriminate|].
        reflexivity.
      * cbn [fst snd] in Hd, Hparse. subst n. rewrite Z.eqb_refl.
        specialize (Hparse (bus_id o) (dev_id o)).
        destruct (parse_ugen_name optarg (bus_id o) (dev_id o))
          as [[r bus] addr].
        cbn [fst] in Hparse. destruct (Z.ltb_spec r 0); [reflexivity | lia].
    + destruct (n =? char_code "d").
      { destruct (parse_ugen_name optarg (bus_id o) (dev_id o))
          as [[r bus] addr].
        destruct (r <? 0); [reflexivity | now apply Htail]. }
      destruct (n =? char_code "f"); [now apply Htail|].
      destruct (n =? char_code "m"); [now apply Htail|].
      destruct (n =? char_code "p"); [now apply Htail|].
      destruct (n =? char_code "v"); [now apply Htail|].
      reflexivity.
Qed.

(** X15: [main] ends with status 127 when libusb does not start, and
    when the command line holds an option it does not know ([-h] among
    them) or a [-d] whose name [parse_ugen_name] rejects, wherever that
    option stands; in both cases before it lists the devices, and
    without releasing libusb. *)
Theorem main_usage_exit (opts : list (Z * string)) :
  (libusb_init_result <> 0 ->
   run_main opts = Exited 127 [Sys LibusbInit])
  /\ (libusb_init_result = 0 ->
      (exists opt : Z * string,
          In opt opts
          /\ (is_known_option opt = false
              \/ (fst opt = char_code "d"
                  /\ forall b a : Z,
                       fst (fst (parse_ugen_name (snd opt) b a)) < 0))) ->
      run_main opts = Exited 127 [Sys LibusbInit; Sys (LibusbSetDebug 3)]).
Proof.
  unfold run_main, main. split.
  - intros Hinit. unfold pbind at 1, sys at 1.
    destruct (Z.eqb_spec libusb_init_result 0); [contradiction | reflexivity].
  - intros Hinit Hbad. unfold pbind at 1, sys at 1.
    rewrite Hinit. cbn [Z.eqb negb].
    unfold pbind at 1, sys at 1. unfold pbind at 1.
    now rewrite getopt_loop_rejects.
Qed.


Lemma find_device_sys_only (bus dev : Z) (log : list main_event)
    (tr : trace) :
  forallb is_sys log = true ->
  forallb is_sys (log_of (ath3k_find_device bus dev log tr)) = true.
Proof.
  intros Hlog. unfold ath3k_find_device, pbind, sys, pret, crash.
  destruct libusb_device_list as [cnt list].
  destruct (cnt <? 0); cbn [log_of].
  - rewrite forallb_app, Hlog. reflexivity.
  - destruct (find_device_loop list bus dev (Z.to_nat cnt) 0) as [[k|]|];
      cbn [log_of]; rewrite !forallb_app, Hlog; reflexivity.
Qed.

(** The start of [main], up to the device that was found. *)
Lemma main_start (opts : list (Z * string)) (o : options)
    (found : option nat) (log2 : list main_event) :
  libusb_init_result = 0 ->
  getopt_loop opts initial_options
    [Sys LibusbInit; Sys (LibusbSetDebug 3)] []
  = Running o [Sys LibusbInit; Sys (LibusbSetDebug 3)] [] ->
  ath3k_find_device (bus_id o) (dev_id o)
    [Sys LibusbInit; Sys (LibusbSetDebug 3)] []
  = Running found log2 [] ->
  run_main opts
  = match found with
    | None => Exited 1 log2
    | Some dev =>
        if negb (libusb_open_result dev =? 0)
        then Exited 1 (log2 ++ [Sys (LibusbOpen dev)])
        else
          ('(r, state) <~ core (ath3k_get_state (local_state [])) ;;
           if r =? 0 then exit 1
           else
             '(r, ver) <~ core (ath3k_get_version (local_version [])) ;;
             if r =? 0 then exit 1
             else
               (if is_3012 o
                then core (ath3k_init_ar3012
                             match firmware_path o with
                             | None => _DEFAULT_ATH3K_FIRMWARE_PATH
                             | Some p => p
                             end)
                else core (ath3k_init_firmware
                             match firmware_path o with
                             | None => _DEFAULT_ATH3K_FIRMWARE_PATH
                             | Some p => p
                             end)) ;;~
               sys LibusbClose ;;~
               sys (LibusbUnrefDevice dev) ;;~
               sys LibusbExit ;;~
               pret 0)
            (log2 ++ [Sys (LibusbOpen dev)]) []
    end.
Proof.
  intros Hinit Hopts Hfind. unfold run_main, main.
  unfold pbind at 1, sys at 1. rewrite Hinit. cbn [Z.eqb negb].
  unfold pbind at 1, sys at 1. unfold pbind at 1.
  cbn [app]. rewrite Hopts.
  unfold pbind at 1. rewrite Hfind.
  destruct found as [dev|]; [|reflexivity].
  unfold pbind at 1, sys at 1.
  destruct (negb (libusb_open_result dev =? 0)); reflexivity.
Qed.

(** X16: when no device is at the given bus and address, or the device
    cannot be opened, [main] ends with status 1 without a single
    transfer and without reading a file. *)
Theorem main_without_device (opts : list (Z * string)) (o : options)
    (found : option nat) (log2 : list main_event) :
  libusb_init_result = 0 ->
  getopt_loop opts initial_options
    [Sys LibusbInit; Sys (LibusbSetDebug 3)] []
  = Running o [Sys LibusbInit; Sys (LibusbSetDebug 3)] [] ->
  ath3k_find_device (bus_id o) (dev_id o)
    [Sys LibusbInit; Sys (LibusbSetDebug 3)] []
  = Running found log2 [] ->
  (found = None
   \/ exists dev : nat, found = Some dev /\ libusb_open_result dev <> 0) ->
  status_of (run_main opts) = Some 1
  /\ forallb is_sys (log_of (run_main opts)) = true
  /\ log_of (run_main opts)
     = log2 ++ match found with
               | Some dev => [Sys (LibusbOpen dev)]
               | None => []
               end.
Proof.
  intros Hinit Hopts Hfind Hcase.
  rewrite (main_start opts o found log2 Hinit Hopts Hfind).
  pose proof (find_device_sys_only (bus_id o) (dev_id o)
                [Sys LibusbInit; Sys (LibusbSetDebug 3)] [] eq_refl) as Hsys.
  rewrite Hfind in Hsys. cbn [log_of] in Hsys.
  destruct Hcase as [-> | (dev & -> & Hopen)].
  - cbn [status_of log_of]. rewrite app_nil_r. now repeat split.
  - destruct (Z.eqb_spec (libusb_open_result dev) 0); [contradiction|].
    cbn [negb status_of log_of]. rewrite forallb_app, Hsys.
    now repeat split.
Qed.

(** X17: [main] tests the two first queries for the result 0: when the
    state query or the version query does not deliver its full length,
    [main] ends with status 1 right after that query; no firmware file
    is read, no transfer to the device is made, and the handle is not
    closed. *)
Theorem main_failed_query (opts : list (Z * string)) (o : options)
    (dev : nat) (log2 : list main_event) :
  libusb_init_result = 0 ->
  getopt_loop opts initial_options
    [Sys LibusbInit; Sys (LibusbSetDebug 3)] []
  = Running o [Sys LibusbInit; Sys (LibusbSetDebug 3)] [] ->
  ath3k_find_device (bus_id o) (dev_id o)
    [Sys LibusbInit; Sys (LibusbSetDebug 3)] []
  = Running (Some dev) log2 [] ->
  libusb_open_result dev = 0 ->
  (fst (usb_control_reply [GETSTATE_request]) <> 1 ->
   run_main opts
   = Exited 1 (log2 ++ [Sys (LibusbOpen dev); Usb GETSTATE_request]))
  /\ (fst (usb_control_reply [GETSTATE_request]) = 1 ->
      fst (usb_control_reply [GETSTATE_request; GETVERSION_request])
      <> sizeof_ath3k_version ->
      run_main opts
      = Exited 1 (log2 ++ [Sys (LibusbOpen dev); Usb GETSTATE_request;
                           Usb GETVERSION_request])).
Proof.
  intros Hinit Hopts Hfind Hopen.
  rewrite (main_start opts o (Some dev) log2 Hinit Hopts Hfind).
  rewrite Hopen. cbn [Z.eqb negb].
  pose proof (get_state_run (local_state []) []) as Hst.
  cbv zeta in Hst. cbn [app] in Hst.
  pose proof (get_version_run (local_version []) [GETSTATE_request]) as Hver.
  cbv zeta in Hver. cbn [app] in Hver.
  split.
  - intros Hbad. unfold pbind at 1.
    rewrite (core_run _ _ [] _ [GETSTATE_request] Hst).
    destruct (Z.ltb_spec (fst (usb_control_reply [GETSTATE_request])) 0).
    + cbn [Z.eqb]. unfold exit. rewrite <- app_assoc. reflexivity.
    + destruct (Z.eqb_spec (fst (usb_control_reply [GETSTATE_request])) 1);
        [contradiction|].
      cbn [Z.b2z Z.eqb]. unfold exit. rewrite <- app_assoc. reflexivity.
  - intros Hgood Hbad. unfold pbind at 1.
    rewrite (core_run _ _ [] _ [GETSTATE_request] Hst).
    rewrite Hgood. cbn [Z.ltb Z.compare Z.eqb Pos.eqb Z.b2z app].
    unfold pbind at 1.
    rewrite (core_run _ _ [GETSTATE_request] _ [GETVERSION_request] Hver).
    destruct (Z.ltb_spec
                (fst (usb_control_reply
                        [GETSTATE_request; GETVERSION_request])) 0).
    + cbn [Z.eqb]. unfold exit. rewrite <- !app_assoc. reflexivity.
    + destruct (Z.eqb_spec
                  (fst (usb_control_reply
                          [GETSTATE_request; GETVERSION_request]))
                  sizeof_ath3k_version); [contradiction|].
      cbn [Z.b2z Z.eqb]. unfold exit. rewrite <- !app_assoc. reflexivity.
Qed.

(** X18: once the device is open and both queries have delivered,
    [main] runs the plan that the options select, closes the handle,
    drops the device and leaves libusb, in that order, and ends with
    status 0 whatever the plan returned: a failed firmware load does not
    show in the exit status. *)
Theorem main_status_ignores_plan (opts : list (Z * string)) (o : options)
    (dev : nat) (log2 : list main_event) (r : Z) (tr' : trace) :
  libusb_init_result = 0 ->
  getopt_loop opts initial_options
    [Sys LibusbInit; Sys (LibusbSetDebug 3)] []
  = Running o [Sys LibusbInit; Sys (LibusbSetDebug 3)] [] ->
  ath3k_find_device (bus_id o) (dev_id o)
    [Sys LibusbInit; Sys (LibusbSetDebug 3)] []
  = Running (Some dev) log2 [] ->
  libusb_open_result dev = 0 ->
  fst (usb_control_reply [GETSTATE_request]) = 1 ->
  fst (usb_control_reply [GETSTATE_request; GETVERSION_request])
  = sizeof_ath3k_version ->
  let path := match firmware_path o with
              | None => _DEFAULT_ATH3K_FIRMWARE_PATH
              | Some p => p
              end in
  (if is_3012 o then ath3k_init_ar3012 path else ath3k_init_firmware path)
    [GETSTATE_request; GETVERSION_request]
  = Returns r tr' ->
  run_main opts
  = Running 0
      (log2 ++ Sys (LibusbOpen dev) :: map Usb tr'
            ++ [Sys LibusbClose; Sys (LibusbUnrefDevice dev); Sys LibusbExit])
      tr'.
Proof.
  intros Hinit Hopts Hfind Hopen Hstate Hversion path Hplan.
  rewrite (main_start opts o (Some dev) log2 Hinit Hopts Hfind).
  rewrite Hopen. cbn [Z.eqb negb]. fold path.
  pose proof (get_state_run (local_state []) []) as Hst.
  cbv zeta in Hst. cbn [app] in Hst.
  pose proof (get_version_run (local_version []) [GETSTATE_request]) as Hver.
  cbv zeta in Hver. cbn [app] in Hver.
  unfold pbind at 1.
  rewrite (core_run _ _ [] _ [GETSTATE_request] Hst).
  rewrite Hstate. cbn [Z.ltb Z.compare Z.eqb Pos.eqb Z.b2z app].
  unfold pbind at 1.
  rewrite (core_run _ _ [GETSTATE_request] _ [GETVERSION_request] Hver).
  rewrite Hversion.
  cbn [sizeof_ath3k_version Z.ltb Z.compare Z.eqb Pos.eqb Z.b2z app].
  assert (Hgrow : exists evs,
             tr' = [GETSTATE_request; GETVERSION_request] ++ evs).
  { destruct (is_3012 o).
    - destruct (grows_init_ar3012 path
                  [GETSTATE_request; GETVERSION_request]) as [evs Hevs].
      rewrite Hplan in Hevs. now exists evs.
    - destruct (grows_init_firmware path
                  [GETSTATE_request; GETVERSION_request]) as [evs Hevs].
      rewrite Hplan in Hevs. now exists evs. }
  destruct Hgrow as [evs ->].
  unfold pbind at 1.
  assert (Hcore : (if is_3012 o
                   then core (ath3k_init_ar3012 path)
                   else core (ath3k_init_firmware path))
                    (((log2 ++ [Sys (LibusbOpen dev)])
                      ++ map Usb [GETSTATE_request])
                     ++ map Usb [GETVERSION_request])
                    [GETSTATE_request; GETVERSION_request]
                  = Running r
                      ((((log2 ++ [Sys (LibusbOpen dev)])
                         ++ map Usb [GETSTATE_request])
                        ++ map Usb [GETVERSION_request]) ++ map Usb evs)
                      ([GETSTATE_request; GETVERSION_request] ++ evs)).
  { destruct (is_3012 o); now apply core_run. }
  rewrite Hcore. unfold pbind, sys, pret.
  rewrite <- !app_assoc. reflexivity.
Qed.


(** The option loop gives the same settings, whatever the two
    identifiers are and whether or not [-p] and [-v] are there. *)
Lemma getopt_loop_without_ids (opts : list (Z * string)) :
  forall (o o' : options) (k k' : options -> P Z)
         (log : list main_event) (tr : trace),
    bus_id o = bus_id o' -> dev_id o = dev_id o' ->
    firmware_path o = firmware_path o' -> is_3012 o = is_3012 o' ->
    (forall a a' : options,
        bus_id a = bus_id a' -> dev_id a = dev_id a' ->
        firmware_path a = firmware_path a' -> is_3012 a = is_3012 a' ->
        k a = k' a') ->
    pbind (getopt_loop opts o) k log tr
    = pbind (getopt_loop (filter (fun opt => negb (is_id_option opt)) opts) o')
        k' log tr.
Proof.
  induction opts as [|[n optarg] opts IH];
    intros o o' k k' log tr Hb Hd Hf Hm Hk.
  - cbn [filter getopt_loop]. unfold pbind, pret.
    now rewrite (Hk o o').
  - cbn [filter getopt_loop]. unfold is_id_option at 1. cbn [fst].
    change (char_code "d") with 100. change (char_code "f") with 102.
    change (char_code "m") with 109. change (char_code "p") with 112.
    change (char_code "v") with 118.
    destruct (Z.eqb_spec n 100) as [-> | H100].
    { cbn [Z.eqb Pos.eqb orb negb getopt_loop].
      change (char_code "d") with 100. cbn [Z.eqb Pos.eqb].
      rewrite <- Hb, <- Hd.
      destruct (parse_ugen_name optarg (bus_id o) (dev_id o))
        as [[r bus] addr].
      destruct (r <? 0); [reflexivity|].
      apply IH; cbn; auto. }
    destruct (Z.eqb_spec n 102) as [-> | H102].
    { cbn [Z.eqb Pos.eqb orb negb getopt_loop].
      change (char_code "d") with 100. change (char_code "f") with 102.
      cbn [Z.eqb Pos.eqb]. apply IH; cbn; auto. }
    destruct (Z.eqb_spec n 109) as [-> | H109].
    { cbn [Z.eqb Pos.eqb orb negb getopt_loop].
      change (char_code "d") with 100. change (char_code "f") with 102.
      change (char_code "m") with 109.
      cbn [Z.eqb Pos.eqb]. apply IH; cbn; auto. now rewrite Hm. }
    destruct (Z.eqb_spec n 112) as [-> | H112].
    { cbn [orb negb]. apply IH; cbn; auto. }
    destruct (Z.eqb_spec n 118) as [-> | H118].
    { cbn [orb negb]. apply IH; cbn; auto. }
    cbn [orb negb getopt_loop].
    change (char_code "d") with 100. change (char_code "f") with 102.
    change (char_code "m") with 109. change (char_code "p") with 112.
    change (char_code "v") with 118.
    destruct (Z.eqb_spec n 100); [contradiction|].
    destruct (Z.eqb_spec n 102); [contradiction|].
    destruct (Z.eqb_spec n 109); [contradiction|].
    destruct (Z.eqb_spec n 112); [contradiction|].
    destruct (Z.eqb_spec n 118); [contradiction|].
    reflexivity.
Qed.

(** X19: the options [-p] and [-v] change nothing: the vendor and the
    product identifier are stored and never looked at, so the run of
    [main] is the same with them and without them. *)
Theorem main_ignores_vendor_and_product (opts : list (Z * string)) :
  run_main (filter (fun opt => negb (is_id_option opt)) opts)
  = run_main opts.
Proof.
  unfold run_main, main.
  unfold pbind at 1 3, sys at 1 6.
  destruct (negb (libusb_init_result =? 0)); [reflexivity|].
  unfold pbind at 1 3, sys at 1 6.
  symmetry. apply getopt_loop_without_ids; try reflexivity.
  intros a a' Hb Hd Hf Hm. now rewrite Hb, Hd, Hf, Hm.
Qed.

Lemma find_in_app {A : Type} (f : A -> bool) (l1 l2 : list A) :
  find f (l1 ++ l2)
  = match find f l1 with
    | Some x => Some x
    | None => find f l2
    end.
Proof.
  induction l1 as [|x l1 IH]; cbn; [reflexivity|].
  destruct (f x); [reflexivity | exact IH].
Qed.

(** X20: in the options that the loop hands on, the AR3012 plan is
    selected exactly when some [-m] had the argument [ar3012], whatever
    other [-m] came before or after it, and the firmware path is the
    argument of the last [-f], if there is one.  The loop adds nothing to
    the log. *)
Theorem getopt_loop_settings (opts : list (Z * string)) :
  forall (o0 o : options) (log log' : list main_event) (tr tr' : trace),
    getopt_loop opts o0 log tr = Running o log' tr' ->
    log' = log /\ tr' = tr
    /\ is_3012 o
       = is_3012 o0
         || existsb (fun opt => (fst opt =? char_code "m")
                                && (strcmp (snd opt) "ar3012" =? 0)) opts
    /\ firmware_path o
       = match find (fun opt => fst opt =? char_code "f") (rev opts) with
         | Some opt => Some (snd opt)
         | None => firmware_path o0
         end.
Proof.
  induction opts as [|[n optarg] opts IH];
    intros o0 o log log' tr tr' Hrun.
  - cbn in Hrun. injection Hrun as <- <- <-.
    cbn. now rewrite orb_false_r.
  - cbn [getopt_loop] in Hrun. cbn [rev existsb fst snd].
    rewrite find_in_app. cbn [find fst snd].
    destruct (Z.eqb_spec n (char_code "d")) as [-> | _].
    { destruct (parse_ugen_name optarg (bus_id o0) (dev_id o0))
        as [[r bus] addr].
      destruct (r <? 0); [discriminate Hrun|].
      destruct (IH _ _ _ _ _ _ Hrun) as (Hl & Ht & Hm & Hf).
      cbn in Hm, Hf |- *. rewrite Hf.
      now destruct (find _ (rev opts)). }
    destruct (Z.eqb_spec n (char_code "f")) as [-> | _].
    { destruct (IH _ _ _ _ _ _ Hrun) as (Hl & Ht & Hm & Hf).
      cbn in Hm, Hf |- *. rewrite Hf.
      now destruct (find _ (rev opts)). }
    destruct (Z.eqb_spec n (char_code "m")) as [-> | _].
    { destruct (IH _ _ _ _ _ _ Hrun) as (Hl & Ht & Hm & Hf).
      cbn in Hm, Hf |- *. rewrite Hf, Hm.
      refine (conj Hl (conj Ht (conj _ _))).
      - destruct (strcmp optarg "ar3012" =? 0); cbn;
          [now rewrite orb_true_r | reflexivity].
      - now destruct (find _ (rev opts)). }
    destruct (Z.eqb_spec n (char_code "p")) as [-> | _].
    { destruct (IH _ _ _ _ _ _ Hrun) as (Hl & Ht & Hm & Hf).
      cbn in Hm, Hf |- *. rewrite Hf.
      now destruct (find _ (rev opts)). }
    destruct (Z.eqb_spec n (char_code "v")) as [-> | _].
    { destruct (IH _ _ _ _ _ _ Hrun) as (Hl & Ht & Hm & Hf).
      cbn in Hm, Hf |- *. rewrite Hf.
      now destruct (find _ (rev opts)). }
    discriminate Hrun.
Qed.

End Ath3k.

(** ** The properties at work in the sample environment *)

Ltac sample_side :=
  first [ now vm_compute
        | split; now vm_compute ].

(** The sample device accepts every transfer of an upload. *)
Lemma sample_device_accepts :
  device_accepts_upload (env := Sample.booting).
Proof.
  split.
  - intros tr hdr. cbn [usb_control_reply Sample.booting Sample.env].
    unfold Sample.device_control. rewrite last_last. reflexivity.
  - intros tr chunk. cbn [usb_bulk_reply Sample.booting Sample.env].
    unfold Sample.device_bulk, BULK_request. rewrite last_last.
    cbn [fst snd]. lia.
Defined.

(** C1 at work: the 5000-byte image of scenario S1 goes out as the
    header of 20 bytes and two bulk transfers. *)
Lemma load_fwfile_header_then_bulk_witness :
  exists blocks : list (list byte),
    ath3k_load_fwfile (env := Sample.booting) Sample.fw_legacy []
    = Returns 0
        (DNLOAD_request (env := Sample.booting)
           (firstn 20 (buf Sample.fw_legacy))
         :: map BULK_request blocks)
    /\ Z.of_nat (List.length blocks) = 2
    /\ List.concat blocks = skipn 20 (buf Sample.fw_legacy).
Proof.
  destruct (load_fwfile_header_then_bulk (env := Sample.booting)
              Sample.fw_legacy [])
    as (r & blocks & Hrun & _ & _ & _ & _ & _ & Hzero & Hok);
    [sample_side .. |].
  specialize (Hzero sample_device_accepts). subst r.
  exists blocks. split; [exact Hrun | exact (Hok eq_refl)].
Defined.

(** C2 at work: a patch of build 10 for a device of build 5. *)
Lemma load_patch_version_gate_witness :
  exists (r : Z) (evs : list event),
    ath3k_load_patch (env := Sample.booting) "/fw" []
    = Returns r
        ([GETSTATE_request (env := Sample.booting);
          GETVERSION_request (env := Sample.booting);
          FwRead "/fw/ar3k/AthrBT_0x00000300.dfu"] ++ evs)
    /\ existsb (is_dnload (env := Sample.booting)) evs = true.
Proof.
  destruct (load_patch_version_gate (env := Sample.booting) "/fw" []
              1 x00 [GETSTATE_request (env := Sample.booting)]
              1 (version_of_bytes false (Sample.version_record x01))
              [GETSTATE_request (env := Sample.booting);
               GETVERSION_request (env := Sample.booting)]
              1 (snd (Sample.one_file Sample.patch_new
                        "/fw/ar3k/AthrBT_0x00000300.dfu"))
              {| rom_version := 768; build_version := 10;
                 ram_version := 0; ref_clock := 0 |}
              [GETSTATE_request (env := Sample.booting);
               GETVERSION_request (env := Sample.booting);
               FwRead "/fw/ar3k/AthrBT_0x00000300.dfu"])
    as (r & evs & Hrun & Hiff & _); [sample_side .. |].
  exists r, evs. split; [exact Hrun|].
  apply Hiff. split; sample_side.
Defined.

(** C3 at work: the state byte 0x80 of scenario S2. *)
Lemma load_patch_skips_patched_device_witness :
  exists evs : list event,
    ath3k_load_patch (env := Sample.patched) "/fw" [] = Returns 0 ([] ++ evs)
    /\ evs = [GETSTATE_request (env := Sample.patched)]
    /\ (forall name, ~ In (FwRead name) evs)
    /\ ~ In (GETVERSION_request (env := Sample.patched)) evs
    /\ existsb (is_dnload (env := Sample.patched)) evs = false.
Proof.
  apply (load_patch_skips_patched_device (env := Sample.patched) "/fw" []
           1 x80 [GETSTATE_request (env := Sample.patched)]);
    sample_side.
Defined.

(** C4 at work: the clock code 7 of scenario S6 and the path [/fw]. *)
Lemma load_syscfg_filename_witness :
  (exists evs : list event,
      trace_of (ath3k_load_syscfg (env := Sample.unknown_clock) "/fw" [])
      = [GETSTATE_request (env := Sample.unknown_clock);
         GETVERSION_request (env := Sample.unknown_clock)]
        ++ FwRead "/fw/ar3k/ramps_0x00000300_0.dfu" :: evs)
  /\ ends_with "_0.dfu"
       (syscfg_filename (env := Sample.unknown_clock) "/fw"
          (version_of_bytes false (Sample.version_record x07))) = true.
Proof.
  destruct (load_syscfg_filename (env := Sample.unknown_clock) "/fw" []
              1 x00 [GETSTATE_request (env := Sample.unknown_clock)]
              1 (version_of_bytes false (Sample.version_record x07))
              [GETSTATE_request (env := Sample.unknown_clock);
               GETVERSION_request (env := Sample.unknown_clock)])
    as (_ & _ & _ & _ & Hread & Hfit); [sample_side .. |].
  split; [exact Hread|].
  destruct Hfit as [_ Hend]; [sample_side|].
  destruct Hend as [_ Hend]; [repeat split; sample_side|].
  exact Hend.
Defined.

(** The claim C4 as the spec has it fails for a long firmware path: with
    [FILENAME_MAX] = 1024 and a path of 1000 characters the stage reads a
    file whose name is cut after 1023 characters and does not end in
    [_0.dfu], although the clock code 7 is none of the known ones. *)
Lemma long_path_cuts_syscfg_name :
  exists name : string,
    trace_of (ath3k_load_syscfg (env := Sample.unknown_clock)
                (Sample.long_path 1000) [])
    = [GETSTATE_request (env := Sample.unknown_clock);
       GETVERSION_request (env := Sample.unknown_clock);
       FwRead name]
    /\ name = substring 0 1023
                (Sample.long_path 1000 ++ "/ar3k/ramps_0x00000300_0.dfu")
    /\ name <> (Sample.long_path 1000 ++ "/ar3k/ramps_0x00000300_0.dfu")%string
    /\ ends_with "_0.dfu" name = false
    /\ clk_value (env := Sample.unknown_clock) 7 = 0.
Proof.
  eexists. split; [vm_compute; reflexivity|].
  split; [now vm_compute|].
  split; [|split; now vm_compute].
  intros Heq. apply (f_equal String.length) in Heq.
  vm_compute in Heq. discriminate Heq.
Defined.

(** C5 at work: a patched device in normal mode. *)
Lemma normal_mode_skipped_and_switch_sent_witness :
  ath3k_set_normal_mode (env := Sample.leaving) []
  = Returns 0 [GETSTATE_request (env := Sample.leaving)]
  /\ exists (r3 : Z) (tr3 : trace),
       ath3k_set_normal_mode (env := Sample.leaving)
         (trace_of (ath3k_load_syscfg (env := Sample.leaving) "/fw"
                      [GETSTATE_request (env := Sample.leaving)]))
       = Returns r3 tr3
       /\ ath3k_init_ar3012 (env := Sample.leaving) "/fw" []
          = Returns 0 (tr3 ++ [SWITCH_VID_PID_request (env := Sample.leaving)]).
Proof.
  destruct (normal_mode_skipped_and_switch_sent (env := Sample.leaving))
    as [Hskip Hswitch].
  split.
  - apply (Hskip [] 1 x8e [GETSTATE_request (env := Sample.leaving)]);
      sample_side.
  - apply (Hswitch "/fw"%string [] 0 [GETSTATE_request (env := Sample.leaving)] 0);
      sample_side.
Defined.

(** C8 at work: the trailer of the sample patch. *)
Lemma patch_version_in_trailer_witness :
  ath3k_patch_version (env := Sample.booting) Sample.patch_new []
  = Returns {| rom_version := 768; build_version := 10;
               ram_version := 0; ref_clock := 0 |} [].
Proof.
  destruct (patch_version_in_trailer (env := Sample.booting)
              Sample.patch_new [])
    as (_ & Hrun & _); [sample_side .. |].
  exact Hrun.
Defined.

(** C9 at work: the device leaves the bus on SWITCH_VID_PID, the
    request fails with -4, and the run still returns 0. *)
Lemma init_ar3012_ignores_switch_result_witness :
  fst (@usb_control_reply Sample.leaving
         [SWITCH_VID_PID_request (env := Sample.leaving)]) = -4
  /\ ath3k_init_ar3012 (env := Sample.leaving) "/fw" []
     = Returns 0
         (trace_of (ath3k_set_normal_mode (env := Sample.leaving)
            (trace_of (ath3k_load_syscfg (env := Sample.leaving) "/fw"
                         [GETSTATE_request (env := Sample.leaving)])))
          ++ [SWITCH_VID_PID_request (env := Sample.leaving)]).
Proof.
  split; [reflexivity|].
  apply (init_ar3012_ignores_switch_result (env := Sample.leaving) "/fw" []
           0 [GETSTATE_request (env := Sample.leaving)]
           0 (trace_of (ath3k_load_syscfg (env := Sample.leaving) "/fw"
                          [GETSTATE_request (env := Sample.leaving)]))
           0);
    sample_side.
Defined.

(** C6, on a device that has left the bus.  Every query fails with -4,
    and no stage stops there: the patch stage goes on to ask for the
    version and to read a patch file named after the version that was
    never received, the syscfg stage does the same, and the normal-mode
    step sends SET_NORMAL_MODE and returns 0. *)
Lemma failed_query_does_not_stop_the_stage :
  @usb_control_reply Sample.unplugged
    [GETSTATE_request (env := Sample.unplugged)] = (-4, [])
  /\ ath3k_get_state (env := Sample.unplugged) x00 []
     = Returns (0, x00) [GETSTATE_request (env := Sample.unplugged)]
  /\ trace_of (ath3k_load_patch (env := Sample.unplugged) "/fw" [])
     = [GETSTATE_request (env := Sample.unplugged);
        GETVERSION_request (env := Sample.unplugged);
        FwRead "/fw/ar3k/AthrBT_0x00000000.dfu";
        FwFree "/fw/ar3k/AthrBT_0x00000000.dfu"]
  /\ firstn 3 (trace_of (ath3k_load_syscfg (env := Sample.unplugged) "/fw" []))
     = [GETSTATE_request (env := Sample.unplugged);
        GETVERSION_request (env := Sample.unplugged);
        FwRead "/fw/ar3k/ramps_0x00000000_19.dfu"]
  /\ ath3k_set_normal_mode (env := Sample.unplugged) []
     = Returns 0 [GETSTATE_request (env := Sample.unplugged);
                  SET_NORMAL_MODE_request (env := Sample.unplugged)].
Proof.
  repeat split; now vm_compute.
Qed.

(** C7, on a device that has left the bus: the upload of the legacy
    image fails at its first transfer and returns -1, and
    [ath3k_init_firmware] returns 0. *)
Lemma init_firmware_hides_failed_upload :
  ath3k_load_fwfile (env := Sample.unplugged)
    (snd (Sample.one_file Sample.patch_new "/fw/ath3k-1.fw"))
    [FwRead "/fw/ath3k-1.fw"]
  = Returns (-1)
      [FwRead "/fw/ath3k-1.fw";
       DNLOAD_request (env := Sample.unplugged)
         (firstn 20 (buf Sample.patch_new))]
  /\ ath3k_init_firmware (env := Sample.unplugged) "/fw" []
     = Returns 0
         [FwRead "/fw/ath3k-1.fw";
          DNLOAD_request (env := Sample.unplugged)
            (firstn 20 (buf Sample.patch_new));
          FwFree "/fw/ath3k-1.fw"].
Proof.
  split; now vm_compute.
Qed.

(** ** The further properties at work *)

(** X1 at work: the blocks of the 5000-byte image. *)
Lemma load_fwfile_block_layout_witness :
  exists (r : Z) (blocks : list (list byte)),
    ath3k_load_fwfile (env := Sample.booting) Sample.fw_legacy []
    = Returns r
        ([] ++ DNLOAD_request (env := Sample.booting)
                 (firstn (Z.to_nat (header_size (env := Sample.booting)
                                      (len Sample.fw_legacy)))
                    (buf Sample.fw_legacy))
            :: map BULK_request blocks)
    /\ forall i : nat,
         (i < List.length blocks)%nat ->
         nth i blocks []
         = firstn (Z.to_nat (BULK_SIZE (environment := Sample.booting)))
             (skipn (Z.to_nat (header_size (env := Sample.booting)
                                 (len Sample.fw_legacy))
                     + i * Z.to_nat (BULK_SIZE (environment := Sample.booting)))
                (buf Sample.fw_legacy)).
Proof.
  apply (load_fwfile_block_layout (env := Sample.booting)
           Sample.fw_legacy []); sample_side.
Defined.

(** X2 at work, on the same image. *)
Lemma load_fwfile_stops_at_first_failure_witness :
  exists (r : Z) (evs : list event),
    ath3k_load_fwfile (env := Sample.booting) Sample.fw_legacy []
    = Returns r ([] ++ evs)
    /\ evs <> []
    /\ (forall k : nat,
           (0 < k < List.length evs)%nat ->
           transfer_accepted (env := Sample.booting) ([] ++ firstn k evs)
           = true)
    /\ (r = 0 <->
        transfer_accepted (env := Sample.booting) ([] ++ evs) = true)
    /\ (r = -1 <->
        transfer_accepted (env := Sample.booting) ([] ++ evs) = false).
Proof.
  apply (load_fwfile_stops_at_first_failure (env := Sample.booting)
           Sample.fw_legacy []); sample_side.
Defined.

(** X3 at work: the empty blob goes out as an empty DNLOAD. *)
Lemma load_fwfile_small_blob_witness :
  ath3k_load_fwfile (env := Sample.booting) (Sample.blob "" 0 x00 []) []
  = Returns 0 [DNLOAD_request (env := Sample.booting) []].
Proof.
  rewrite (load_fwfile_small_blob (env := Sample.booting)
             (Sample.blob "" 0 x00 []) []); [reflexivity | sample_side ..].
Defined.

(** X4 at work: a firmware directory without files. *)
Lemma unreadable_file_ends_stage_witness :
  ath3k_load_patch (env := Sample.booting_no_files) "/fw" []
  = Returns (-1)
      [GETSTATE_request (env := Sample.booting_no_files);
       GETVERSION_request (env := Sample.booting_no_files);
       FwRead "/fw/ar3k/AthrBT_0x00000300.dfu"]
  /\ ath3k_load_syscfg (env := Sample.booting_no_files) "/fw" []
     = Returns (-1)
         [GETSTATE_request (env := Sample.booting_no_files);
          GETVERSION_request (env := Sample.booting_no_files);
          FwRead "/fw/ar3k/ramps_0x00000300_26.dfu"]
  /\ ath3k_init_firmware (env := Sample.booting_no_files) "/fw" []
     = Returns (-1) [FwRead "/fw/ath3k-1.fw"].
Proof.
  destruct (unreadable_file_ends_stage (env := Sample.booting_no_files)
              "/fw" []
              1 x00 [GETSTATE_request (env := Sample.booting_no_files)]
              1 (version_of_bytes false (Sample.version_record x01))
              [GETSTATE_request (env := Sample.booting_no_files);
               GETVERSION_request (env := Sample.booting_no_files)])
    as (Hpatch & Hsyscfg & Hlegacy); [sample_side .. |].
  split; [apply Hpatch; sample_side|].
  split; [apply Hsyscfg; sample_side | apply Hlegacy; sample_side].
Defined.

(** X5 at work: the patch of build 10 is uploaded and freed. *)
Lemma blob_freed_once_at_the_end_witness :
  exists (r : Z) (evs : list event),
    ath3k_load_patch (env := Sample.booting) "/fw" []
    = Returns r
        ([GETSTATE_request (env := Sample.booting);
          GETVERSION_request (env := Sample.booting)]
         ++ FwRead "/fw/ar3k/AthrBT_0x00000300.dfu"
         :: evs ++ [FwFree "/fw/ar3k/AthrBT_0x00000300.dfu"])
    /\ existsb is_fw_read evs = false
    /\ existsb is_fw_free evs = false.
Proof.
  destruct (blob_freed_once_at_the_end (env := Sample.booting) "/fw" []
              1 x00 [GETSTATE_request (env := Sample.booting)]
              1 (version_of_bytes false (Sample.version_record x01))
              [GETSTATE_request (env := Sample.booting);
               GETVERSION_request (env := Sample.booting)])
    as (Hpatch & _ & _); [sample_side .. |].
  apply (Hpatch eq_refl 1
           (snd (Sample.one_file Sample.patch_new
                   "/fw/ar3k/AthrBT_0x00000300.dfu")));
    sample_side.
Defined.

(** X6 at work: a patch file of 4 bytes. *)
Lemma short_patch_read_out_of_bounds_witness :
  ath3k_load_patch (env := Sample.short_patch) "/fw" []
  = Faults OutOfBounds
      [GETSTATE_request (env := Sample.short_patch);
       GETVERSION_request (env := Sample.short_patch);
       FwRead "/fw/ar3k/AthrBT_0x00000300.dfu"].
Proof.
  apply (short_patch_read_out_of_bounds (env := Sample.short_patch) "/fw" []
           1 x00 [GETSTATE_request (env := Sample.short_patch)]
           1 (version_of_bytes false (Sample.version_record x01))
           [GETSTATE_request (env := Sample.short_patch);
            GETVERSION_request (env := Sample.short_patch)]
           1 (snd (Sample.one_file Sample.patch_short
                     "/fw/ar3k/AthrBT_0x00000300.dfu")));
    sample_side.
Defined.

(** X7 at work: a device that is patched and in normal mode gets the
    syscfg blob all the same. *)
Lemma load_syscfg_uploads_unconditionally_witness :
  exists (r : Z) (evs : list event),
    existsb (is_dnload (env := Sample.leaving)) evs = true
    /\ ath3k_load_syscfg (env := Sample.leaving) "/fw" []
       = Returns r
           ([GETSTATE_request (env := Sample.leaving);
             GETVERSION_request (env := Sample.leaving)]
            ++ [FwRead "/fw/ar3k/ramps_0x00000300_0.dfu"] ++ evs
            ++ [FwFree "/fw/ar3k/ramps_0x00000300_0.dfu"]).
Proof.
  destruct (load_syscfg_uploads_unconditionally (env := Sample.leaving)
              "/fw" []
              1 x8e [GETSTATE_request (env := Sample.leaving)]
              1 (version_of_bytes false (Sample.version_record x07))
              [GETSTATE_request (env := Sample.leaving);
               GETVERSION_request (env := Sample.leaving)]
              1 (snd (Sample.one_file Sample.patch_new
                        "/fw/ar3k/ramps_0x00000300_0.dfu")))
    as (r & evs & _ & Hdn & Hrun); [sample_side .. |].
  exists r, evs. split; [exact Hdn | exact Hrun].
Defined.

(** X9 at work: without files the run ends in the patch stage of a
    device in boot state, and in the syscfg stage of a patched one. *)
Lemma init_ar3012_stops_at_failed_stage_witness :
  ath3k_init_ar3012 (env := Sample.booting_no_files) "/fw" []
  = Returns (-1)
      [GETSTATE_request (env := Sample.booting_no_files);
       GETVERSION_request (env := Sample.booting_no_files);
       FwRead "/fw/ar3k/AthrBT_0x00000300.dfu"]
  /\ ath3k_init_ar3012 (env := Sample.patched_no_files) "/fw" []
     = Returns (-1)
         [GETSTATE_request (env := Sample.patched_no_files);
          GETSTATE_request (env := Sample.patched_no_files);
          GETVERSION_request (env := Sample.patched_no_files);
          FwRead "/fw/ar3k/ramps_0x00000300_26.dfu"].
Proof.
  split.
  - apply (init_ar3012_stops_at_failed_stage
             (env := Sample.booting_no_files) "/fw" [] (-1));
      sample_side.
  - apply (proj2 (init_ar3012_stops_at_failed_stage
                    (env := Sample.patched_no_files) "/fw" [] 0
                    [GETSTATE_request (env := Sample.patched_no_files)]
                    eq_refl));
      sample_side.
Defined.

(** Every file of the sample directory is a blob of 100 bytes. *)
Lemma sample_files_ok : files_ok (env := Sample.booting) 8.
Proof.
  intros name r fw Hread _.
  injection Hread as _ <-. split; [split|]; now vm_compute.
Defined.

(** X10 at work. *)
Lemma plans_return_witness :
  (exists (r : Z) (tr' : trace),
      ath3k_init_ar3012 (env := Sample.booting) "/fw" [] = Returns r tr'
      /\ (r = 0 \/ r = -1))
  /\ (exists (r : Z) (tr' : trace),
         ath3k_init_firmware (env := Sample.booting) "/fw" [] = Returns r tr'
         /\ (r = 0 \/ r = -1)).
Proof.
  apply (plans_return (env := Sample.booting) "/fw" []);
    [sample_side | sample_side | exact sample_files_ok].
Defined.

(** X11 at work: the ROM versions 0x300 and 0x301 have different patch
    files. *)
Lemma filenames_tell_versions_witness :
  patch_filename (env := Sample.booting) "/fw"
    {| rom_version := 768; build_version := 5;
       ram_version := 0; ref_clock := 1 |}
  <> patch_filename (env := Sample.booting) "/fw"
       {| rom_version := 769; build_version := 5;
          ram_version := 0; ref_clock := 1 |}.
Proof.
  intros Heq.
  apply (filenames_tell_versions (env := Sample.booting) "/fw") in Heq;
    [discriminate Heq | sample_side ..].
Defined.

(** X12 at work: [ugen0.2], and a bus number of 300 that is taken as
    44 before the name is rejected for what follows it. *)
Lemma parse_ugen_name_of_numbers_witness :
  parse_ugen_name (sys_host := SampleHost.pc) "ugen0.2" 7 7 = (0, 0, 2)
  /\ parse_ugen_name (sys_host := SampleHost.pc) "ugen300.2x" 7 7
     = (-1, 44, 2).
Proof.
  split.
  - apply (parse_ugen_name_of_numbers (sys_host := SampleHost.pc)
             0 2 "" 7 7); sample_side.
  - apply (parse_ugen_name_of_numbers (sys_host := SampleHost.pc)
             300 2 "x" 7 7); sample_side.
Defined.

(** X13 at work: a name without the prefix, and one that parses. *)
Lemma parse_ugen_name_shape_witness :
  parse_ugen_name (sys_host := SampleHost.pc) "usb0.2" 7 7 = (-1, 7, 7)
  /\ exists a b : string, "ugen0.2"%string = ("ugen" ++ a ++ "." ++ b)%string.
Proof.
  split.
  - apply (proj1 (parse_ugen_name_shape (sys_host := SampleHost.pc)
                    "usb0.2" 7 7)).
    intros rest Heq. discriminate Heq.
  - apply (proj2 (parse_ugen_name_shape (sys_host := SampleHost.pc)
                    "ugen0.2" 7 7)).
    reflexivity.
Defined.

(** X14 at work: the radio is the second device of the list; and a
    host that cannot list its devices. *)
Lemma find_device_first_match_witness :
  ath3k_find_device (sys_host := SampleHost.unlisted) 0 2 [] []
  = Running None [Sys LibusbGetDeviceList] []
  /\ exists found : option nat,
       ath3k_find_device (sys_host := SampleHost.pc) 0 2 [] []
       = Running found
           ([] ++ Sys LibusbGetDeviceList
               :: match found with
                  | Some k => [Sys (LibusbRefDevice k)]
                  | None => []
                  end
               ++ [Sys (LibusbFreeDeviceList 1)]) []
       /\ match found with
          | Some k =>
              (exists d, nth_error SampleHost.bus k = Some d
                         /\ device_matches 0 2 d = true)
              /\ (forall (j : nat) (d : usb_device),
                     (j < k)%nat ->
                     nth_error SampleHost.bus j = Some d ->
                     device_matches 0 2 d = false)
          | None =>
              forall d : usb_device,
                In d SampleHost.bus -> device_matches 0 2 d = false
          end.
Proof.
  split.
  - apply (proj1 (find_device_first_match (sys_host := SampleHost.unlisted)
                    0 2 [] [])).
    sample_side.
  - apply (proj2 (find_device_first_match (sys_host := SampleHost.pc)
                    0 2 [] [])).
    sample_side.
Defined.

(** X15 at work: [-h] after a good [-d], and a host without libusb. *)
Lemma main_usage_exit_witness :
  run_main (env := Sample.booting) (sys_host := SampleHost.no_libusb)
    SampleHost.legacy_line
  = Exited 127 [Sys LibusbInit]
  /\ run_main (env := Sample.booting) (sys_host := SampleHost.pc)
       (SampleHost.legacy_line ++ [(104, ""%string)])
     = Exited 127 [Sys LibusbInit; Sys (LibusbSetDebug 3)].
Proof.
  split.
  - apply (proj1 (main_usage_exit (env := Sample.booting)
                    (sys_host := SampleHost.no_libusb)
                    SampleHost.legacy_line)).
    sample_side.
  - apply (proj2 (main_usage_exit (env := Sample.booting)
                    (sys_host := SampleHost.pc)
                    (SampleHost.legacy_line ++ [(104, ""%string)])));
      [sample_side|].
    exists (104, ""%string). split; [|left; reflexivity].
    right; right; left. reflexivity.
Defined.

(** X16 at work: no device at ugen0.9. *)
Lemma main_without_device_witness :
  status_of (run_main (env := Sample.booting) (sys_host := SampleHost.pc)
               SampleHost.absent_line) = Some 1
  /\ forallb is_sys
       (log_of (run_main (env := Sample.booting) (sys_host := SampleHost.pc)
                  SampleHost.absent_line)) = true
  /\ log_of (run_main (env := Sample.booting) (sys_host := SampleHost.pc)
               SampleHost.absent_line)
     = [Sys LibusbInit; Sys (LibusbSetDebug 3); Sys LibusbGetDeviceList;
        Sys (LibusbFreeDeviceList 1)] ++ [].
Proof.
  apply (main_without_device (env := Sample.booting)
           (sys_host := SampleHost.pc) SampleHost.absent_line
           SampleHost.absent_options None);
    [sample_side .. | now left].
Defined.

(** X17 at work: the radio has left the bus when [main] asks for its
    state. *)
Lemma main_failed_query_witness :
  run_main (env := Sample.unplugged) (sys_host := SampleHost.pc)
    SampleHost.legacy_line
  = Exited 1
      (SampleHost.log_found
       ++ [Sys (LibusbOpen 1);
           Usb (GETSTATE_request (env := Sample.unplugged))]).
Proof.
  apply (proj1 (main_failed_query (env := Sample.unplugged)
                  (sys_host := SampleHost.pc) SampleHost.legacy_line
                  SampleHost.legacy_options 1 SampleHost.log_found
                  eq_refl eq_refl eq_refl eq_refl)).
  sample_side.
Defined.

(** X18 at work: the legacy image is missing, [ath3k_init_firmware]
    returns -1, and [main] ends with status 0. *)
Lemma main_status_ignores_plan_witness :
  ath3k_init_firmware (env := Sample.booting_no_files) "/fw"
    [GETSTATE_request (env := Sample.booting_no_files);
     GETVERSION_request (env := Sample.booting_no_files)]
  = Returns (-1)
      [GETSTATE_request (env := Sample.booting_no_files);
       GETVERSION_request (env := Sample.booting_no_files);
       FwRead "/fw/ath3k-1.fw"]
  /\ run_main (env := Sample.booting_no_files) (sys_host := SampleHost.pc)
       SampleHost.legacy_line
     = Running 0
         (SampleHost.log_found
          ++ Sys (LibusbOpen 1)
          :: map Usb [GETSTATE_request (env := Sample.booting_no_files);
                      GETVERSION_request (env := Sample.booting_no_files);
                      FwRead "/fw/ath3k-1.fw"]
          ++ [Sys LibusbClose; Sys (LibusbUnrefDevice 1); Sys LibusbExit])
         [GETSTATE_request (env := Sample.booting_no_files);
          GETVERSION_request (env := Sample.booting_no_files);
          FwRead "/fw/ath3k-1.fw"].
Proof.
  split; [reflexivity|].
  apply (main_status_ignores_plan (env := Sample.booting_no_files)
           (sys_host := SampleHost.pc) SampleHost.legacy_line
           SampleHost.legacy_options 1 SampleHost.log_found (-1));
    sample_side.
Defined.

(** X20 at work: [-m ar3012] between two other [-m], and two [-f]. *)
Lemma getopt_loop_settings_witness :
  exists o : options,
    getopt_loop (sys_host := SampleHost.pc)
      [(102, "/old"%string); (109, "ar3011"%string);
       (109, "ar3012"%string); (109, "other"%string); (102, "/fw"%string)]
      initial_options [] []
    = Running o [] []
    /\ is_3012 o = true /\ firmware_path o = Some "/fw"%string.
Proof.
  eexists. split; [reflexivity|].
  destruct (getopt_loop_settings (sys_host := SampleHost.pc)
              [(102, "/old"%string); (109, "ar3011"%string);
               (109, "ar3012"%string); (109, "other"%string);
               (102, "/fw"%string)]
              initial_options _ [] [] [] [] eq_refl)
    as (_ & _ & Hm & Hf).
  split; [exact Hm | exact Hf].
Defined.
